(** * kuberang: the cluster smoke test of [pkg/kuberang/mainworkflow.go]

    A shallow embedding of [CheckKubernetes] and of the functions it calls,
    followed by the properties of the workflow.

    The Go code talks to the outside world through [kubectl] invocations,
    HTTP requests from the local machine, the clock and standard output.
    All four are made explicit here: a [World] holds the chronological trace
    of everything the run did so far together with the clock, and an
    environment [Env] decides, from that trace, what the next external call
    answers and how long it takes.  Every function of the source becomes a
    state-passing function over the [World]; the local variables of
    [CheckKubernetes] that its closures capture and mutate live in a
    [Frame]. *)

From Stdlib Require Import ZArith NArith List String Ascii Bool Lia.
From Stdlib Require Import DecimalString DecimalZ.
Import ListNotations.

Set Implicit Arguments.

Local Open Scope string_scope.
Local Open Scope list_scope.
Local Open Scope Z_scope.

(** Go's [+] on strings. *)
Notation "a +++ b" := (String.append a b) (at level 60, right associativity).

(* ================================================================== *)
(** ** A state monad for the effects of the workflow *)

Definition M (S A : Type) : Type := S -> A * S.

Definition ret {S A} (a : A) : M S A := fun s => (a, s).

Definition bind {S A B} (m : M S A) (k : A -> M S B) : M S B :=
  fun s => let (a, s') := m s in k a s'.

Definition gets {S A} (f : S -> A) : M S A := fun s => (f s, s).

Definition modify {S} (f : S -> S) : M S unit := fun s => (tt, f s).

Declare Scope go_scope.
Delimit Scope go_scope with go.
Notation "x <- m ;; k" := (bind m (fun x => k))
  (at level 61, m at next level, right associativity) : go_scope.
Notation "m ;; k" := (bind m (fun _ => k))
  (at level 61, right associativity) : go_scope.
Local Open Scope go_scope.

(** [if c { body }] with no else branch. *)
Definition when {S} (c : bool) (body : M S unit) : M S unit :=
  if c then body else ret tt.

(** [for _, x := range xs { body x }] *)
Fixpoint forRange {S A} (xs : list A) (body : A -> M S unit) : M S unit :=
  match xs with
  | [] => ret tt
  | x :: rest => body x ;; forRange rest body
  end.

(* ================================================================== *)
(** ** The Retry Engine *)

(** Modelled from the spec: the function [retry] is called by
    [CheckKubernetes] but its definition is not part of the sources at hand.
    Section 4.1 of the specification gives its contract:
    "[retry(maxAttempts, probe) -> bool].  Calls [probe] up to [maxAttempts]
    times, in sequence, returning true on the first true result; returns
    false if all attempts return false."  The probe is a side-effecting
    closure, hence a computation in the state monad. *)
Fixpoint retry {S} (maxAttempts : nat) (probe : M S bool) : M S bool :=
  match maxAttempts with
  | O => ret false
  | Datatypes.S n =>
      b <- probe ;;
      if b then ret true else retry n probe
  end.

(* ================================================================== *)
(** ** Data model *)

(** Modelled from the spec: the type [KubeOutput] and its accessor methods
    ([PodIPs], [FirstPodName], [ServiceCluserIP], [ObservedReplicaCount],
    [NodeCount], [NamespaceStatus]) are declared outside the sources at
    hand.  Section 6 describes the response of the Cluster Accessor as a
    success flag, the combined output and the fields parsed out of it; the
    record keeps, for each accessor method the workflow calls, the value that
    method returns. *)
Record KubeOutput : Type := mkKubeOutput {
  Success : bool;
  CombinedOut : string;
  PodIPs : list string;
  FirstPodName : string;
  ServiceCluserIP : string;
  ObservedReplicaCount : Z;
  NodeCount : Z;
  NamespaceStatus : string
}.

(** The zero value of [var ko KubeOutput]. *)
Definition zeroKubeOutput : KubeOutput :=
  mkKubeOutput false "" [] "" "" 0 0 "".

(** The entry points of the Cluster Accessor that the workflow uses. *)
Inductive Cmd : Type :=
| Kubectl (args : list string)                       (* RunKubectl(args...) *)
| GetService (name : string)                         (* RunGetService *)
| GetDeployment (name : string)                      (* RunGetDeployment *)
| GetNamespace (name : string)                       (* RunGetNamespace *)
| GetNodes                                           (* RunGetNodes *)
| StartPod (name image : string) (count : Z).        (* RunPod *)

(** The lines [util.PrettyPrint*] and [printFailureDetail] write. *)
Inductive Line : Type :=
| Ok (msg : string)                (* util.PrettyPrintOk *)
| Err (msg : string)               (* util.PrettyPrintErr *)
| ErrIgnored (msg : string)        (* util.PrettyPrintErrorIgnored *)
| Detail (detail : string).        (* printFailureDetail *)

(** What a run does, as seen from outside. *)
Inductive Event : Type :=
| Call (c : Cmd) (r : KubeOutput)  (* a Cluster Accessor call and its answer *)
| Http (url : string) (ok : bool)  (* client.Get(url); ok is [err == nil] *)
| Slept (d : Z)                    (* time.Sleep(d) *)
| Out (l : Line).                  (* a line on standard output *)

(** The trace is chronological: the latest event is the last element.
    The clock counts nanoseconds. *)
Record World : Type := mkWorld {
  trace : list Event;
  clock : Z
}.

(** The environment of a run.  Answers and durations may depend on
    everything that happened before; durations are natural numbers, the
    clock never runs backwards. *)
Record Env : Type := mkEnv {
  respond : list Event -> Cmd -> KubeOutput;
  latency : list Event -> Cmd -> N;
  httpGet : list Event -> string -> bool;
  httpLatency : list Event -> string -> N;
  oversleep : list Event -> N
}.

(** Package [config]. *)
Record Config : Type := mkConfig {
  RegistryURL : string;
  Namespace : string
}.

(* ================================================================== *)
(** ** Package [time] and [fmt] *)

Module GoTime.

Definition Nanosecond : Z := 1.
Definition Millisecond : Z := 1000000.
Definition Second : Z := 1000000000.

(** A [time.Duration] is an int64. *)
Definition maxDuration : Z := 2 ^ 63 - 1.
Definition minDuration : Z := - 2 ^ 63.

(** [t.Sub(u)]: the difference, saturated to the range of a Duration. *)
Definition Sub (t u : Z) : Z :=
  let d := t - u in
  if maxDuration <? d then maxDuration
  else if d <? minDuration then minDuration
  else d.

End GoTime.

(** The verb [%d] of [fmt.Sprintf] on a signed integer. *)
Definition fmt_d (z : Z) : string := NilZero.string_of_int (Z.to_int z).

(** [s == ""] *)
Definition isEmpty (s : string) : bool :=
  match s with
  | EmptyString => true
  | String _ _ => false
  end.

(* ================================================================== *)
(** ** Constants (lines 16-22) *)

Definition runPrefix : string := "kuberang-".
Definition bbDeploymentName : string := runPrefix +++ "busybox".
Definition ngDeploymentName : string := runPrefix +++ "nginx".
Definition deploymentTimeout : Z := 300 * GoTime.Second.
Definition httpTimeout : Z := 1000 * GoTime.Millisecond.

(** The error values [CheckKubernetes] and [removeExisting] build with
    [errors.New]; [None] is Go's [nil]. *)
Definition error : Type := option string.

Definition errKubectl : string :=
  "Kubectl must be configured on this machine before running kuberang".
Definition errRemoveExisting : string :=
  "Failure removing existing kuberang deployments".
Definition errPreconditions : string := "Pre-conditions failed".
Definition errDeploy : string := "Failed to deploy test workloads".
Definition errGate : string :=
  "Failed to get required information from cluster".
Definition errRequired : string := "One or more required steps failed".

(* ================================================================== *)
(** ** The local variables of [CheckKubernetes] *)

(** [success], [podIPs], [ko], [serviceIP], [busyboxPodName] and [kubeOut]
    are assigned inside the closures handed to [retry] and read after them,
    so they are part of the state the closures run in. *)
Record Frame : Type := mkFrame {
  world : World;
  success : bool;
  podIPs : list string;
  ko : KubeOutput;
  serviceIP : string;
  busyboxPodName : string;
  kubeOut : KubeOutput
}.

Definition set_world (w : World) (f : Frame) : Frame :=
  mkFrame w (success f) (podIPs f) (ko f) (serviceIP f) (busyboxPodName f)
    (kubeOut f).
Definition set_success (b : bool) (f : Frame) : Frame :=
  mkFrame (world f) b (podIPs f) (ko f) (serviceIP f) (busyboxPodName f)
    (kubeOut f).
Definition set_podIPs (l : list string) (f : Frame) : Frame :=
  mkFrame (world f) (success f) l (ko f) (serviceIP f) (busyboxPodName f)
    (kubeOut f).
Definition set_ko (r : KubeOutput) (f : Frame) : Frame :=
  mkFrame (world f) (success f) (podIPs f) r (serviceIP f) (busyboxPodName f)
    (kubeOut f).
Definition set_serviceIP (s : string) (f : Frame) : Frame :=
  mkFrame (world f) (success f) (podIPs f) (ko f) s (busyboxPodName f)
    (kubeOut f).
Definition set_busyboxPodName (s : string) (f : Frame) : Frame :=
  mkFrame (world f) (success f) (podIPs f) (ko f) (serviceIP f) s (kubeOut f).
Definition set_kubeOut (r : KubeOutput) (f : Frame) : Frame :=
  mkFrame (world f) (success f) (podIPs f) (ko f) (serviceIP f)
    (busyboxPodName f) r.

(** The frame at line 29-30 and at the declarations of lines 62, 63, 90, 109
    and 135: [success := true], [podIPs := []string{}], and zero values. *)
Definition enter (w : World) : Frame :=
  mkFrame w true [] zeroKubeOutput "" "" zeroKubeOutput.

(** Running a function that does not see the locals. *)
Definition liftW {A} (m : M World A) : M Frame A :=
  fun f => let (a, w) := m (world f) in (a, set_world w f).

(** [for _, podIP := range podIPs { if podIP == "" { return false } }]
    (lines 72-76): true when the loop falls through. *)
Fixpoint noBlank (ips : list string) : bool :=
  match ips with
  | [] => true
  | ip :: rest => if isEmpty ip then false else noBlank rest
  end.

(* ================================================================== *)
(** ** The workflow *)

Section Workflow.

Variable env : Env.
Variable cfg : Config.

(** *** The outside world *)

(** One call of the Cluster Accessor: the environment answers from the
    trace so far, the call is recorded and the clock moves on.
    [RunKubectl] and its siblings are defined outside [mainworkflow.go];
    what they answer is left to the environment, and so is how long they
    take. *)
Definition invoke (c : Cmd) : M World KubeOutput :=
  fun w =>
    let r := respond env (trace w) c in
    (r, mkWorld (trace w ++ [Call c r])
                (clock w + Z.of_N (latency env (trace w) c))).

Definition RunKubectl (args : list string) : M World KubeOutput :=
  invoke (Kubectl args).
Definition RunGetService (name : string) : M World KubeOutput :=
  invoke (GetService name).
Definition RunGetDeployment (name : string) : M World KubeOutput :=
  invoke (GetDeployment name).
Definition RunGetNamespace (name : string) : M World KubeOutput :=
  invoke (GetNamespace name).
Definition RunGetNodes : M World KubeOutput :=
  invoke GetNodes.
Definition RunPod (name image : string) (count : Z) : M World KubeOutput :=
  invoke (StartPod name image count).

(** [_, err := client.Get(url)]; the result is [err == nil]. *)
Definition clientGet (url : string) : M World bool :=
  fun w =>
    let ok := httpGet env (trace w) url in
    (ok, mkWorld (trace w ++ [Http url ok])
                 (clock w + Z.of_N (httpLatency env (trace w) url))).

(** Writing to standard output; the functions of package [util] that do
    it are defined outside [mainworkflow.go], and the model keeps the kind
    of line and its message. *)
Definition println (l : Line) : M World unit :=
  fun w => (tt, mkWorld (trace w ++ [Out l]) (clock w)).

Definition PrettyPrintOk (msg : string) : M World unit := println (Ok msg).
Definition PrettyPrintErr (msg : string) : M World unit := println (Err msg).
Definition PrettyPrintErrorIgnored (msg : string) : M World unit :=
  println (ErrIgnored msg).

(** Lines 397-402. *)
Definition printFailureDetail (detail : string) : M World unit :=
  println (Detail detail).

(** [time.Now()].  The one clock of the model serves both as the wall
    clock that [UnixNano] reads and as the monotonic clock behind
    [time.Since]; its readings are integers, not bounded to an int64. *)
Definition timeNow : M World Z := gets clock.

(** [time.Since(start)] *)
Definition timeSince (start : Z) : M World Z :=
  now <- timeNow ;;
  ret (GoTime.Sub now start).

(** [time.Sleep(d)] pauses for at least [d]. *)
Definition timeSleep (d : Z) : M World unit :=
  fun w =>
    (tt, mkWorld (trace w ++ [Slept d])
                 (clock w + Z.max 0 d + Z.of_N (oversleep env (trace w)))).

(** *** Lines 393-395 *)
Definition nginxServiceNameAt (unixNano : Z) : string :=
  (runPrefix +++ "nginx") +++ "-" +++ fmt_d unixNano.

Definition nginxServiceName : M World string :=
  now <- timeNow ;;
  ret (nginxServiceNameAt now).

(** *** Lines 268-275 *)
Definition precheckKubectl : M World bool :=
  ko <- RunKubectl ["version"] ;;
  if negb (Success ko) then
    PrettyPrintErr "Configured kubectl exists" ;;
    printFailureDetail (CombinedOut ko) ;;
    ret false
  else ret true.

(** *** Lines 378-391 *)
Definition removeExisting (nginxServiceName : string) : M World error :=
  ko <- RunKubectl ["delete"; "--ignore-not-found=true";
                    "deployment/" +++ bbDeploymentName;
                    "deployment/" +++ ngDeploymentName;
                    "service/" +++ nginxServiceName] ;;
  if negb (Success ko) then
    PrettyPrintErr "Delete existing deployments if they exist" ;;
    printFailureDetail (CombinedOut ko) ;;
    ret (Some errRemoveExisting)
  else
    PrettyPrintOk "Delete existing deployments if they exist" ;;
    ret None.

(** *** Lines 306-322 *)
Definition precheckNamespace : M World bool :=
  if negb (isEmpty (Namespace cfg)) then
    ko <- RunGetNamespace (Namespace cfg) ;;
    if negb (Success ko) then
      PrettyPrintErr ("Configured kubernetes namespace `" +++ Namespace cfg
                      +++ "` exists") ;;
      printFailureDetail (CombinedOut ko) ;;
      ret false
    else if negb (String.eqb (NamespaceStatus ko) "Active") then
      PrettyPrintErr ("Configured kubernetes namespace `" +++ Namespace cfg
                      +++ "` exists") ;;
      ret false
    else
      PrettyPrintOk ("Configured kubernetes namespace `" +++ Namespace cfg
                     +++ "` exists") ;;
      ret true
  else ret true.

(** *** Lines 277-285 *)
Definition precheckServices (nginxServiceName : string) : M World bool :=
  ko <- RunGetService nginxServiceName ;;
  if Success ko then
    PrettyPrintErr "Nginx service does not already exist" ;;
    printFailureDetail (CombinedOut ko) ;;
    ret false
  else
    PrettyPrintOk "Nginx service does not already exist" ;;
    ret true.

(** *** Lines 287-304 *)
Definition precheckDeployments : M World bool :=
  ko <- RunGetDeployment bbDeploymentName ;;
  ret1 <- (if Success ko then
             PrettyPrintErr "BusyBox service does not already exist" ;;
             printFailureDetail (CombinedOut ko) ;;
             ret false
           else
             PrettyPrintOk "BusyBox service does not already exist" ;;
             ret true) ;;
  ko <- RunGetDeployment ngDeploymentName ;;
  if Success ko then
    PrettyPrintErr "Nginx service does not already exist" ;;
    printFailureDetail (CombinedOut ko) ;;
    ret false
  else
    PrettyPrintOk "Nginx service does not already exist" ;;
    ret ret1.

(** *** Lines 254-266 *)
Definition checkPreconditions (nginxServiceName : string) : M World bool :=
  b1 <- precheckNamespace ;;
  b2 <- precheckServices nginxServiceName ;;
  b3 <- precheckDeployments ;;
  ret (b1 && b2 && b3).

(** *** Lines 324-339 *)
Definition checkDeployments (busyboxCount nginxCount : Z) : M World bool :=
  ko <- RunGetDeployment bbDeploymentName ;;
  let ret1 :=
    if negb (Success ko) then false
    else if negb (ObservedReplicaCount ko =? busyboxCount) then false
    else true in
  ko <- RunGetDeployment ngDeploymentName ;;
  ret (if negb (Success ko) then false
       else if negb (ObservedReplicaCount ko =? nginxCount) then false
       else ret1).

(** *** Lines 341-352 *)

(** The loop [for time.Since(start) < deploymentTimeout { ... }].  Every
    round that does not return sleeps for a second, so the guard can hold
    at most 300 times; the loop is written by recursion on a number of
    rounds, and [None] stands for running out of them. *)
Fixpoint waitLoop (rounds : nat) (start busyboxCount nginxCount : Z)
  : M World (option bool) :=
  match rounds with
  | O => ret None
  | Datatypes.S rounds' =>
      elapsed <- timeSince start ;;
      if elapsed <? deploymentTimeout then
        ready <- checkDeployments busyboxCount nginxCount ;;
        if ready then
          PrettyPrintOk
            "Both deployments completed successfully within timeout" ;;
          ret (Some true)
        else
          timeSleep (1 * GoTime.Second) ;;
          waitLoop rounds' start busyboxCount nginxCount
      else
        PrettyPrintErr
          "Both deployments completed successfully within timeout" ;;
        ret (Some false)
  end.

(** 300 rounds in which the guard can hold and one in which it fails. *)
Definition waitRounds : nat := 301.

Definition waitForDeployments (busyboxCount nginxCount : Z) : M World bool :=
  start <- timeNow ;;
  r <- waitLoop waitRounds start busyboxCount nginxCount ;;
  ret (match r with Some b => b | None => false end).

(** *** Lines 221-252 *)
Definition deployTestWorkloads (registryURL ngServiceName : string)
  : M World bool :=
  let busyboxCount := 1 in
  ko <- RunKubectl ["run"; bbDeploymentName;
                    "--image=" +++ registryURL +++ "busybox:latest";
                    "--image-pull-policy=IfNotPresent"; "--"; "sleep";
                    "3600"] ;;
  if negb (Success ko) then
    PrettyPrintErr "Issued BusyBox start request" ;;
    printFailureDetail (CombinedOut ko) ;;
    ret false
  else
  PrettyPrintOk "Issued BusyBox start request" ;;
  nodes <- RunGetNodes ;;
  let nginxCount := NodeCount nodes in
  ko <- RunPod ngDeploymentName (registryURL +++ "nginx:stable-alpine")
                  nginxCount ;;
  if negb (Success ko) then
    PrettyPrintErr "Issued Nginx start request" ;;
    printFailureDetail (CombinedOut ko) ;;
    ret false
  else
  PrettyPrintOk "Issued Nginx start request" ;;
  ko <- RunKubectl ["expose"; "deployment"; ngDeploymentName;
                    "--name=" +++ ngServiceName; "--port=80"] ;;
  if negb (Success ko) then
    PrettyPrintErr "Issued expose Nginx service request" ;;
    printFailureDetail (CombinedOut ko) ;;
    ret false
  else
  PrettyPrintOk "Issued expose Nginx service request" ;;
  waitForDeployments busyboxCount nginxCount.

(** *** Lines 354-376 *)
Definition powerDown (nginxServiceName : string) : M World unit :=
  ko <- RunKubectl ["delete"; "service"; nginxServiceName] ;;
  (if Success ko then PrettyPrintOk "Powered down Nginx service"
   else PrettyPrintErr "Powered down Nginx service" ;;
        printFailureDetail (CombinedOut ko)) ;;
  ko <- RunKubectl ["delete"; "deployments"; bbDeploymentName] ;;
  (if Success ko then PrettyPrintOk "Powered down Busybox deployment"
   else PrettyPrintErr "Powered down Busybox deployment" ;;
        printFailureDetail (CombinedOut ko)) ;;
  ko <- RunKubectl ["delete"; "deployments"; ngDeploymentName] ;;
  (if Success ko then PrettyPrintOk "Powered down Nginx deployment"
   else PrettyPrintErr "Powered down Nginx deployment" ;;
        printFailureDetail (CombinedOut ko)).

(** *** [CheckKubernetes], lines 61-125: gathering the names and addresses *)

(** The closure of lines 64-80. *)
Definition grabPodIPs : M Frame bool :=
  r <- liftW (RunKubectl ["get"; "pods"; "-l"; "run=kuberang-nginx";
                          "-o"; "json"]) ;;
  modify (set_ko r) ;;
  if Success r then
    modify (set_podIPs (PodIPs r)) ;;
    ips <- gets podIPs ;;
    if (Z.of_nat (List.length ips) =? 0) then ret false
    else if negb (noBlank ips) then ret false
    else ret true
  else ret false.

(** The closure of lines 91-99. *)
Definition grabServiceIP (ngServiceName : string) : M Frame bool :=
  r <- liftW (RunGetService ngServiceName) ;;
  modify (set_ko r) ;;
  if Success r then
    modify (set_serviceIP (ServiceCluserIP r)) ;;
    ip <- gets serviceIP ;;
    if negb (isEmpty ip) then ret true else ret false
  else ret false.

(** The closure of lines 110-118. *)
Definition grabBusyboxPodName : M Frame bool :=
  r <- liftW (RunKubectl ["get"; "pods"; "-l"; "run=kuberang-busybox";
                          "-o"; "json"]) ;;
  modify (set_ko r) ;;
  if Success r then
    modify (set_busyboxPodName (FirstPodName r)) ;;
    name <- gets busyboxPodName ;;
    if negb (isEmpty name) then ret true else ret false
  else ret false.

(** The report that follows each of the three: lines 81-87, 100-106 and
    119-125. *)
Definition reportGrab (ok : bool) (label : string) : M Frame unit :=
  if ok then liftW (PrettyPrintOk label)
  else
    liftW (PrettyPrintErr label) ;;
    k <- gets ko ;;
    liftW (printFailureDetail (CombinedOut k)) ;;
    modify (set_success false).

Definition gatherInfo (ngServiceName : string) : M Frame unit :=
  ok <- retry 3 grabPodIPs ;;
  reportGrab ok "Grab nginx pod ip addresses" ;;
  ok <- retry 3 (grabServiceIP ngServiceName) ;;
  reportGrab ok "Grab nginx service ip address" ;;
  ok <- retry 3 grabBusyboxPodName ;;
  reportGrab ok "Grab BusyBox pod name".

(** *** [CheckKubernetes], lines 132-213: the seven checks *)

(** The body shared by the closures of checks 1, 2, 3 and 7:
    [kubeOut = RunKubectl("exec", busyboxPodName, "--", args...)] followed by
    [return kubeOut.Success]. *)
Definition execInBusybox (args : list string) : M Frame bool :=
  name <- gets busyboxPodName ;;
  r <- liftW (RunKubectl ("exec" :: name :: "--" :: args)) ;;
  modify (set_kubeOut r) ;;
  k <- gets kubeOut ;;
  ret (Success k).

(** Lines 135-146. *)
Definition check1 : M Frame unit :=
  ok <- retry 3 (ip <- gets serviceIP ;;
                 execInBusybox ["wget"; "-qO-"; ip]) ;;
  ip <- gets serviceIP ;;
  if ok then
    liftW (PrettyPrintOk ("Accessed Nginx service at " +++ ip
                          +++ " from BusyBox"))
  else
    k <- gets kubeOut ;;
    liftW (printFailureDetail (CombinedOut k)) ;;
    liftW (PrettyPrintErr ("Accessed Nginx service at " +++ ip
                           +++ " from BusyBox")) ;;
    modify (set_success false).

(** Lines 148-159. *)
Definition check2 (ngServiceName : string) : M Frame unit :=
  ok <- retry 6 (execInBusybox ["wget"; "-qO-"; ngServiceName]) ;;
  if ok then
    liftW (PrettyPrintOk ("Accessed Nginx service via DNS " +++ ngServiceName
                          +++ " from BusyBox"))
  else
    liftW (PrettyPrintErr ("Accessed Nginx service via DNS "
                           +++ ngServiceName +++ " from BusyBox")) ;;
    k <- gets kubeOut ;;
    liftW (printFailureDetail (CombinedOut k)) ;;
    modify (set_success false).

(** Lines 163-173, the body of the loop of check 3. *)
Definition check3At (podIP : string) : M Frame unit :=
  ok <- retry 3 (execInBusybox ["wget"; "-qO-"; podIP]) ;;
  if ok then
    liftW (PrettyPrintOk ("Accessed Nginx pod at " +++ podIP
                          +++ " from BusyBox"))
  else
    liftW (PrettyPrintErr ("Accessed Nginx pod at " +++ podIP
                           +++ " from BusyBox")) ;;
    k <- gets kubeOut ;;
    liftW (printFailureDetail (CombinedOut k)) ;;
    modify (set_success false).

(** Lines 161-174. *)
Definition check3 : M Frame unit :=
  ips <- gets podIPs ;;
  forRange ips check3At.

(** Lines 176-181.  The [ko] of this statement is a new variable that
    shadows the one of line 63. *)
Definition check4 : M Frame unit :=
  name <- gets busyboxPodName ;;
  ko' <- liftW (RunKubectl ["exec"; name; "--"; "wget"; "-qO-";
                            "Google.com"]) ;;
  name <- gets busyboxPodName ;;
  if isEmpty name || Success ko' then
    liftW (PrettyPrintOk "Accessed Google.com from BusyBox")
  else
    liftW (PrettyPrintErrorIgnored "Accessed Google.com from BusyBox").

(** Lines 188-192, the body of the loop of check 5. *)
Definition check5At (podIP : string) : M Frame unit :=
  ok <- liftW (clientGet ("http://" +++ podIP)) ;;
  if ok then
    liftW (PrettyPrintOk ("Accessed Nginx pod at " +++ podIP
                          +++ " from this node"))
  else
    liftW (PrettyPrintErrorIgnored ("Accessed Nginx pod at " +++ podIP
                                    +++ " from this node")).

(** Lines 186-193. *)
Definition check5 : M Frame unit :=
  ips <- gets podIPs ;;
  forRange ips check5At.

(** Lines 195-200. *)
Definition check6 : M Frame unit :=
  ok <- liftW (clientGet "http://google.com/") ;;
  if ok then liftW (PrettyPrintOk "Accessed Google.com from this node")
  else liftW (PrettyPrintErrorIgnored "Accessed Google.com from this node").

(** Lines 202-213. *)
Definition check7 : M Frame unit :=
  ok <- retry 3 (execInBusybox ["ping"; "-c"; "5"; "kubernetes"]) ;;
  if ok then
    liftW (PrettyPrintOk "Ping kubernetes service from BusyBox")
  else
    liftW (PrettyPrintErr "Ping kubernetes service from BusyBox") ;;
    k <- gets kubeOut ;;
    liftW (printFailureDetail (CombinedOut k)) ;;
    modify (set_success false).

Definition probeSequence (ngServiceName : string) : M Frame unit :=
  check1 ;;
  check2 ngServiceName ;;
  check3 ;;
  check4 ;;
  check5 ;;
  check6 ;;
  check7.

(** *** [CheckKubernetes], lines 56-218: everything after line 54 *)
Definition mainSteps (registryURL ngServiceName : string) : M Frame error :=
  deployed <- liftW (deployTestWorkloads registryURL ngServiceName) ;;
  if negb deployed then ret (Some errDeploy) else
  gatherInfo ngServiceName ;;
  ok <- gets success ;;
  if negb ok then ret (Some errGate) else
  probeSequence ngServiceName ;;
  ok <- gets success ;;
  if negb ok then ret (Some errRequired) else
  ret None.

(** *** [CheckKubernetes], lines 35-50: everything before line 52 *)
Definition preconditionStage (ngServiceName : string) : M World error :=
  found <- precheckKubectl ;;
  if negb found then ret (Some errKubectl) else
  PrettyPrintOk "Kubectl configured on this node" ;;
  e <- removeExisting ngServiceName ;;
  match e with
  | Some err => ret (Some err)
  | None =>
      ok <- checkPreconditions ngServiceName ;;
      if negb ok then ret (Some errPreconditions) else ret None
  end.

(** Running the part of the function that uses the locals. *)
Definition withLocals {A} (m : M Frame A) : M World A :=
  fun w => let (a, f) := m (enter w) in (a, world f).

(** *** Lines 26-219 *)

(** [defer powerDown(ngServiceName)] is registered at line 53 when
    [skipCleanup] is false; every [return] after that line runs it before
    the function hands its result to the caller. *)
Definition CheckKubernetes (skipCleanup : bool) : M World error :=
  ngServiceName <- nginxServiceName ;;
  let registryURL :=
    if negb (isEmpty (RegistryURL cfg)) then RegistryURL cfg +++ "/"
    else "" in
  e <- preconditionStage ngServiceName ;;
  match e with
  | Some err => ret (Some err)
  | None =>
      res <- withLocals (mainSteps registryURL ngServiceName) ;;
      when (negb skipCleanup) (powerDown ngServiceName) ;;
      ret res
  end.

End Workflow.

(* ================================================================== *)
(** ** A scripted cluster *)

(** An executable environment, used to run the workflow on concrete
    scenarios.  The cluster it plays keeps no state of its own: whether a
    resource exists is read off the commands issued so far. *)
Module Scripted.

Record Scenario : Type := mkScenario {
  stale : bool;              (* kuberang-nginx exists before the run *)
  lingers : bool;            (* what is deleted stays listed *)
  readyAfter : nat;          (* polls that see the workloads not ready *)
  withPodName : bool;        (* the busybox pod is listed *)
  deadPodIP : string;        (* a pod address that does not answer *)
  egress : bool;             (* the internet is reachable *)
  callTime : N               (* nanoseconds every cluster call takes *)
}.

Definition nodes : Z := 3.
Definition nginxIPs : list string := ["10.0.0.1"; "10.0.0.2"; "10.0.0.3"].
Definition clusterIP : string := "10.0.5.5".
Definition clientPod : string := "kuberang-busybox-abc".

Definition isCall (p : Cmd -> bool) (e : Event) : bool :=
  match e with
  | Call c _ => p c
  | _ => false
  end.

Definition issued (p : Cmd -> bool) (h : list Event) : bool :=
  existsb (isCall p) h.

Definition isDelete (c : Cmd) : bool :=
  match c with
  | Kubectl ("delete" :: _) => true
  | _ => false
  end.

Definition isRunBusybox (c : Cmd) : bool :=
  match c with
  | Kubectl ("run" :: _) => true
  | _ => false
  end.

Definition isRunNginx (c : Cmd) : bool :=
  match c with
  | StartPod _ _ _ => true
  | _ => false
  end.

Definition isExpose (c : Cmd) : bool :=
  match c with
  | Kubectl ("expose" :: _) => true
  | _ => false
  end.

Definition isPollNginx (c : Cmd) : bool :=
  match c with
  | GetDeployment name => String.eqb name ngDeploymentName
  | _ => false
  end.

Definition answer (ok : bool) : KubeOutput :=
  mkKubeOutput ok (if ok then "" else "not found") [] "" "" 0 0 "".

(** The number of times the nginx deployment was looked up after it was
    created. *)
Fixpoint pollsSinceCreation (h : list Event) (created : bool) : nat :=
  match h with
  | [] => O
  | e :: rest =>
      if created
      then (if isCall isPollNginx e then 1 else 0)
           + pollsSinceCreation rest true
      else pollsSinceCreation rest (isCall isRunNginx e)
  end%nat.

Definition respond (sc : Scenario) (h : list Event) (c : Cmd) : KubeOutput :=
  let ready := Nat.leb (readyAfter sc) (pollsSinceCreation h false) in
  match c with
  | Kubectl ["version"] => answer true
  | Kubectl ("delete" :: _) => answer true
  | Kubectl ("run" :: _) => answer true
  | Kubectl ("expose" :: _) => answer true
  | Kubectl ["get"; "pods"; "-l"; "run=kuberang-nginx"; "-o"; "json"] =>
      mkKubeOutput true "" nginxIPs "" "" 0 0 ""
  | Kubectl ["get"; "pods"; "-l"; "run=kuberang-busybox"; "-o"; "json"] =>
      mkKubeOutput true "" []
        (if withPodName sc then clientPod else "") "" 0 0 ""
  | Kubectl ["exec"; _; "--"; "wget"; "-qO-"; target] =>
      if String.eqb target "Google.com" then answer (egress sc)
      else answer (negb (String.eqb target (deadPodIP sc)))
  | Kubectl ("exec" :: _) => answer true
  | Kubectl _ => answer false
  | GetService _ =>
      if issued isExpose h then mkKubeOutput true "" [] "" clusterIP 0 0 ""
      else answer false
  | GetDeployment name =>
      if String.eqb name ngDeploymentName then
        if issued isRunNginx h then
          mkKubeOutput true "" [] "" "" (if ready then nodes else 0) 0 ""
        else answer (stale sc && (lingers sc || negb (issued isDelete h)))
      else
        if issued isRunBusybox h then
          mkKubeOutput true "" [] "" "" (if ready then 1 else 0) 0 ""
        else answer false
  | GetNamespace _ => mkKubeOutput true "" [] "" "" 0 0 "Active"
  | GetNodes => mkKubeOutput true "" [] "" "" 0 nodes ""
  | StartPod _ _ _ => answer true
  end.

Definition cluster (sc : Scenario) : Env :=
  mkEnv (respond sc)
        (fun _ _ => callTime sc)
        (fun _ _ => egress sc)
        (fun _ _ => 0%N)
        (fun _ => 0%N).

Definition healthy : Scenario := mkScenario false false 0 true "" true 0.

Definition config : Config := mkConfig "" "".

(** A run starts with an empty trace. *)
Definition boot (t0 : Z) : World := mkWorld [] t0.

End Scripted.

(* ================================================================== *)
(** ** Vocabulary of the properties *)

(** *** Calling a probe over and over *)

(** The state in which the call number [k] (from 0) of a sequence of calls
    of [probe] starts, and what that call returns. *)
Fixpoint stateBefore {S} (probe : M S bool) (k : nat) (s : S) : S :=
  match k with
  | O => s
  | Datatypes.S k' => stateBefore probe k' (snd (probe s))
  end.

Definition attempt {S} (probe : M S bool) (k : nat) (s : S) : bool :=
  fst (probe (stateBefore probe k s)).

(** The mock of section 8, a probe that fails [k] times and then succeeds;
    its state is the number of calls made so far. *)
Definition failsThenSucceeds (k : nat) : M nat bool :=
  fun calls => (Nat.leb k calls, Datatypes.S calls).

(** The same probe, counting its invocations in a second component of the
    state. *)
Definition counted {S} (probe : M S bool) : M (S * nat) bool :=
  fun sc =>
    let (b, s') := probe (fst sc) in
    (b, (s', Datatypes.S (snd sc))).

(** *** Service names *)

(** Reading back what [%d] printed. *)
Definition parse_d (s : string) : option Z :=
  option_map Z.of_int (NilZero.int_of_string s).

(** [s] without its prefix [p], when it starts with it. *)
Fixpoint stripPrefix (p s : string) : option string :=
  match p with
  | EmptyString => Some s
  | String a p' =>
      match s with
      | EmptyString => None
      | String b s' => if Ascii.eqb a b then stripPrefix p' s' else None
      end
  end.

(** The number at the end of a service name. *)
Definition serviceSuffix (name : string) : option Z :=
  match stripPrefix (ngDeploymentName +++ "-") name with
  | Some digits => parse_d digits
  | None => None
  end.

(** *** The readiness poll *)

(** A clock that only moves when the workflow sleeps: calls of the Cluster
    Accessor take no time and [time.Sleep] wakes up on the dot. *)
Definition instantaneous (env : Env) : Prop :=
  (forall h c, latency env h c = 0%N) /\ (forall h, oversleep env h = 0%N).

(** The world one round of the loop of [waitForDeployments] leaves when the
    workloads were not ready: after the check and the sleep. *)
Definition afterPoll (env : Env) (busyboxCount nginxCount : Z) (w : World)
  : World :=
  snd (timeSleep env (1 * GoTime.Second)
         (snd (checkDeployments env busyboxCount nginxCount w))).

(** The world in which poll number [k] (from 0) starts when no earlier poll
    ended the loop, and what that poll sees. *)
Fixpoint pollWorld (env : Env) (busyboxCount nginxCount : Z) (k : nat)
  (w : World) : World :=
  match k with
  | O => w
  | Datatypes.S k' =>
      pollWorld env busyboxCount nginxCount k'
        (afterPoll env busyboxCount nginxCount w)
  end.

Definition pollReady (env : Env) (busyboxCount nginxCount : Z) (k : nat)
  (w : World) : bool :=
  fst (checkDeployments env busyboxCount nginxCount
         (pollWorld env busyboxCount nginxCount k w)).

Module Scenes.
Import Scripted.

(** The moment the poll starts in a run whose requests were all accepted. *)
Definition requested (t0 : Z) : World :=
  mkWorld
    [Call (Kubectl ["run"; bbDeploymentName; "--image=busybox:latest";
                    "--image-pull-policy=IfNotPresent"; "--"; "sleep";
                    "3600"]) (answer true);
     Call GetNodes (mkKubeOutput true "" [] "" "" 0 nodes "");
     Call (StartPod ngDeploymentName "nginx:stable-alpine" nodes) (answer true);
     Call (Kubectl ["expose"; "deployment"; ngDeploymentName;
                    "--name=" +++ nginxServiceNameAt t0; "--port=80"])
          (answer true)]
    t0.

(** The workloads are ready at the third poll. *)
Definition slowStart : Scenario := mkScenario false false 2 true "" true 0.

(** The workloads never get ready. *)
Definition neverReady : Scenario := mkScenario false false 1000 true "" true 0.

(** One pod of three does not answer, and there is no way out of the
    cluster. *)
Definition deadPod : Scenario :=
  mkScenario false false 0 true "10.0.0.2" false 0.

(** Everything answers but the internet. *)
Definition walled : Scenario := mkScenario false false 0 true "" false 0.

(** A previous run left the nginx deployment behind. *)
Definition leftover : Scenario := mkScenario true false 0 true "" true 0.

(** The same, on a cluster that still lists it after the deletion. *)
Definition lingering : Scenario := mkScenario true true 0 true "" true 0.

(** The busybox pod never shows up in the listing. *)
Definition noClient : Scenario := mkScenario false false 0 false "" true 0.

(** Ready from the start, and every answer takes 200 s. *)
Definition sluggish : Scenario :=
  mkScenario false false 0 true "" true 200000000000.

Definition t0 : Z := 1761850000123456789.

End Scenes.

(** The reading of section 8 under which a poller that is shown the
    desired counts by a poll begun inside the window of 300 s returns true
    before the window has gone by. *)
Definition readyInsideReturnsInside (env : Env) (busyboxCount nginxCount : Z)
  (w : World) : Prop :=
  (exists k,
      pollReady env busyboxCount nginxCount k w = true
      /\ clock (pollWorld env busyboxCount nginxCount k w) - clock w
         < deploymentTimeout) ->
  fst (waitForDeployments env busyboxCount nginxCount w) = true
  /\ clock (snd (waitForDeployments env busyboxCount nginxCount w)) - clock w
     < deploymentTimeout.

(** *** Observing a run *)

(** The events a world gained between two moments of a run. *)
Definition since (before after : World) : list Event :=
  skipn (List.length (trace before)) (trace after).

(** What is kept of an event when the text of the answers is left out: the
    command with its success flag, the URL with its result, the line.  The
    dump of [printFailureDetail] and the sleeps are dropped. *)
Inductive Step : Type :=
| Ran (c : Cmd) (ok : bool)
| Fetched (url : string) (ok : bool)
| Said (l : Line).

Definition stepOf (e : Event) : list Step :=
  match e with
  | Call c r => [Ran c (Success r)]
  | Http url ok => [Fetched url ok]
  | Slept _ => []
  | Out (Detail _) => []
  | Out l => [Said l]
  end.

Definition observe (evs : list Event) : list Step := flat_map stepOf evs.

(** The commands among the events. *)
Definition commandOf (e : Event) : list Cmd :=
  match e with
  | Call c _ => [c]
  | _ => []
  end.

Definition commands (evs : list Event) : list Cmd := flat_map commandOf evs.

(** Requests that create something on the cluster: [kubectl run], [RunPod]
    and [kubectl expose]. *)
Definition isCreation (e : Event) : bool :=
  match e with
  | Call (Kubectl ("run" :: _)) _ => true
  | Call (Kubectl ("expose" :: _)) _ => true
  | Call (StartPod _ _ _) _ => true
  | _ => false
  end.

(** What the seven checks do to the outside: [kubectl exec] and HTTP
    requests. *)
Definition isProbe (e : Event) : bool :=
  match e with
  | Call (Kubectl ("exec" :: _)) _ => true
  | Http _ _ => true
  | _ => false
  end.

(** *** The script of the probe sequence *)

Definition execCmd (pod : string) (args : list string) : Cmd :=
  Kubectl ("exec" :: pod :: "--" :: args).

Definition wgetCmd (pod target : string) : Cmd :=
  execCmd pod ["wget"; "-qO-"; target].

Definition pingCmd (pod : string) : Cmd :=
  execCmd pod ["ping"; "-c"; "5"; "kubernetes"].

(** The outcome of a check that is retried: [Some j] when attempt number
    [j] (from 0) was the first to succeed, [None] when none did. *)
Definition passed (o : option nat) : bool :=
  match o with
  | Some _ => true
  | None => false
  end.

Definition within (n : nat) (o : option nat) : Prop :=
  match o with
  | Some j => (j < n)%nat
  | None => True
  end.

Definition attempts (c : Cmd) (n : nat) (o : option nat) : list Step :=
  match o with
  | Some j => repeat (Ran c false) j ++ [Ran c true]
  | None => repeat (Ran c false) n
  end.

Definition verdict (ok : bool) (label : string) : Line :=
  if ok then Ok label else Err label.

Definition tolerated (ok : bool) (label : string) : Line :=
  if ok then Ok label else ErrIgnored label.

(** A required check: its attempts, then its verdict. *)
Definition required (c : Cmd) (n : nat) (o : option nat) (label : string)
  : list Step :=
  attempts c n o ++ [Said (verdict (passed o) label)].

Record Outcomes : Type := mkOutcomes {
  byClusterIP : option nat;          (* check 1 *)
  byDNS : option nat;                (* check 2 *)
  byPodIP : list (option nat);       (* check 3, one per pod address *)
  egressFromPod : bool;              (* check 4 *)
  podsFromHost : list bool;          (* check 5, one per pod address *)
  egressFromHost : bool;             (* check 6 *)
  pingAPI : option nat               (* check 7 *)
}.

Definition wellFormed (ips : list string) (o : Outcomes) : Prop :=
  within 3 (byClusterIP o)
  /\ within 6 (byDNS o)
  /\ List.length (byPodIP o) = List.length ips
  /\ Forall (within 3) (byPodIP o)
  /\ List.length (podsFromHost o) = List.length ips
  /\ within 3 (pingAPI o).

Definition check3Script (pod : string) (x : string * option nat)
  : list Step :=
  required (wgetCmd pod (fst x)) 3 (snd x)
    ("Accessed Nginx pod at " +++ fst x +++ " from BusyBox").

Definition check5Script (x : string * bool) : list Step :=
  [Fetched ("http://" +++ fst x) (snd x);
   Said (tolerated (snd x)
           ("Accessed Nginx pod at " +++ fst x +++ " from this node"))].

Definition probeScript (ngServiceName pod ip : string) (ips : list string)
  (o : Outcomes) : list Step :=
  required (wgetCmd pod ip) 3 (byClusterIP o)
    ("Accessed Nginx service at " +++ ip +++ " from BusyBox")
  ++ required (wgetCmd pod ngServiceName) 6 (byDNS o)
       ("Accessed Nginx service via DNS " +++ ngServiceName
        +++ " from BusyBox")
  ++ flat_map (check3Script pod) (combine ips (byPodIP o))
  ++ [Ran (wgetCmd pod "Google.com") (egressFromPod o);
      Said (tolerated (isEmpty pod || egressFromPod o)
              "Accessed Google.com from BusyBox")]
  ++ flat_map check5Script (combine ips (podsFromHost o))
  ++ [Fetched "http://google.com/" (egressFromHost o);
      Said (tolerated (egressFromHost o)
              "Accessed Google.com from this node")]
  ++ required (pingCmd pod) 3 (pingAPI o)
       "Ping kubernetes service from BusyBox".

(** The required checks all passed. *)
Definition requiredPass (o : Outcomes) : bool :=
  passed (byClusterIP o) && passed (byDNS o)
  && forallb passed (byPodIP o) && passed (pingAPI o).

(** The script of teardown. *)
Definition teardownScript (ngServiceName : string) (b1 b2 b3 : bool)
  : list Step :=
  [Ran (Kubectl ["delete"; "service"; ngServiceName]) b1;
   Said (verdict b1 "Powered down Nginx service");
   Ran (Kubectl ["delete"; "deployments"; bbDeploymentName]) b2;
   Said (verdict b2 "Powered down Busybox deployment");
   Ran (Kubectl ["delete"; "deployments"; ngDeploymentName]) b3;
   Said (verdict b3 "Powered down Nginx deployment")].

(** *** Where a run stands *)

(** Lines 30-33. *)
Definition registryPrefix (cfg : Config) : string :=
  if negb (isEmpty (RegistryURL cfg)) then RegistryURL cfg +++ "/" else "".

(** The name the run started in world [w] gives its service. *)
Definition serviceOf (w : World) : string := nginxServiceNameAt (clock w).

(** The world in which line 56 is reached, when it is. *)
Definition cleared (env : Env) (cfg : Config) (w : World) : option World :=
  let (e, w1) := preconditionStage env cfg (serviceOf w) w in
  match e with
  | Some _ => None
  | None => Some w1
  end.

(** The frame in which line 127 is reached, when it is: the locals after
    the three pieces of information were fetched. *)
Definition gathered (env : Env) (cfg : Config) (w : World) : option Frame :=
  match cleared env cfg w with
  | None => None
  | Some w1 =>
      let (deployed, w2) :=
        deployTestWorkloads env (registryPrefix cfg) (serviceOf w) w1 in
      if deployed then Some (snd (gatherInfo env (serviceOf w) (enter w2)))
      else None
  end.

(** The frame in which line 132 is reached, when it is: the locals with
    which the seven checks run. *)
Definition atGate (env : Env) (cfg : Config) (w : World) : option Frame :=
  match gathered env cfg w with
  | Some f => if success f then Some f else None
  | None => None
  end.

(** What line 53 leaves to be done when the function returns in world
    [w']. *)
Definition deferred (env : Env) (skipCleanup : bool) (ngServiceName : string)
  (w' : World) : World :=
  if skipCleanup then w' else snd (powerDown env ngServiceName w').

(** The pod addresses are usable: there is one, and none is blank. *)
Definition usable (ips : list string) : bool :=
  negb (Z.of_nat (List.length ips) =? 0) && noBlank ips.

(** *** What a computation may emit *)

(** [m] only ever appends events that satisfy [P] to the trace, which the
    state holds under [tr]. *)
Definition emits {S A} (tr : S -> list Event) (P : Event -> Prop)
  (m : M S A) : Prop :=
  forall s, exists evs, tr (snd (m s)) = tr s ++ evs /\ Forall P evs.

(** The trace of a frame. *)
Definition traceF (f : Frame) : list Event := trace (world f).

(** Neither a creation request nor a probe. *)
Definition housekeeping (e : Event) : Prop :=
  isCreation e = false /\ isProbe e = false.

(** Not a probe. *)
Definition probeFree (e : Event) : Prop := isProbe e = false.

(** *** The readiness timeout and what follows it *)

Definition timeoutReport : Event :=
  Out (Err "Both deployments completed successfully within timeout").

(** A world whose latest event is the report of the readiness timeout. *)
Definition endsInTimeout (w : World) : Prop :=
  last (trace w) (Slept 0) = timeoutReport.

(** The requests of the information-gathering phase: the two pod listings
    are the only [kubectl get] commands of the workflow. *)
Definition isGather (e : Event) : bool :=
  match e with
  | Call (Kubectl ("get" :: _)) _ => true
  | _ => false
  end.

(** The reading of section 4.4 under which a readiness timeout does not end
    the run: once the deployment stage has ended in the timeout report, the
    run goes on to gather the pod addresses. *)
Definition proceedsAfterTimeout (env : Env) (cfg : Config)
  (skipCleanup : bool) (w : World) : Prop :=
  forall w1,
    cleared env cfg w = Some w1 ->
    let w2 :=
      snd (deployTestWorkloads env (registryPrefix cfg) (serviceOf w) w1) in
    endsInTimeout w2 ->
    existsb isGather
      (since w2 (snd (CheckKubernetes env cfg skipCleanup w))) = true.

(** *** A deployment left behind *)

(** The reading of section 8 under which a probe-target deployment that is
    on the cluster when the workflow starts - a lookup made then would find
    it - keeps the run from creating anything. *)
Definition staleTargetBlocksCreation (env : Env) (cfg : Config)
  (skipCleanup : bool) (w : World) : Prop :=
  Success (respond env (trace w) (GetDeployment ngDeploymentName)) = true ->
  existsb isCreation (since w (snd (CheckKubernetes env cfg skipCleanup w)))
  = false.

(** A lookup of a deployment. *)
Definition isLookup (e : Event) : bool :=
  match e with
  | Call (GetDeployment _) _ => true
  | _ => false
  end.

Definition lookupFree (e : Event) : Prop := isLookup e = false.

Definition anything (e : Event) : Prop := True.

(** The first thing [m] does is to emit an event that satisfies [Q]. *)
Definition startsWith {S A} (tr : S -> list Event) (Q : Event -> Prop)
  (m : M S A) : Prop :=
  forall s, exists e rest, tr (snd (m s)) = tr s ++ e :: rest /\ Q e.

(** *** The three requests of the information-gathering phase *)

Definition listNginxPods : Cmd :=
  Kubectl ["get"; "pods"; "-l"; "run=kuberang-nginx"; "-o"; "json"].

Definition listBusyboxPods : Cmd :=
  Kubectl ["get"; "pods"; "-l"; "run=kuberang-busybox"; "-o"; "json"].

(** All three pieces of information are there. *)
Definition informed (f : Frame) : bool :=
  usable (podIPs f) && negb (isEmpty (serviceIP f))
  && negb (isEmpty (busyboxPodName f)).

(** The requests of the phase: each of the three is sent between one and
    three times, and three times when what it asks for stays missing. *)
Definition fetchScript (ngServiceName : string) (k1 k2 k3 : nat)
  : list Cmd :=
  repeat listNginxPods k1 ++ repeat (GetService ngServiceName) k2
  ++ repeat listBusyboxPods k3.

Definition tries (k : nat) (found : bool) : Prop :=
  (1 <= k <= 3)%nat /\ (found = false -> k = 3%nat).

(** *** What the checks leave untouched *)

(** The three pieces of information are the same in both frames. *)
Definition sameKeys (f g : Frame) : Prop :=
  podIPs g = podIPs f /\ serviceIP g = serviceIP f
  /\ busyboxPodName g = busyboxPodName f.

(** So is the flag. *)
Definition sameLocals (f g : Frame) : Prop :=
  success g = success f /\ sameKeys f g.

(* ================================================================== *)
(** ** Further vocabulary *)

(** *** The answers the precondition stage wants *)

(** A line that reports a failure. *)
Definition isErrLine (e : Event) : bool :=
  match e with
  | Out (Err _) => true
  | _ => false
  end.

(** An answer that does not stand in the way of a run: a [kubectl] command
    has to succeed, the namespace has to be found with status "Active", and
    the lookups of the service and of the deployments have to find
    nothing. *)
Definition welcome (e : Event) : bool :=
  match e with
  | Call (Kubectl _) r => Success r
  | Call (GetNamespace _) r =>
      Success r && String.eqb (NamespaceStatus r) "Active"
  | Call (GetService _) r => negb (Success r)
  | Call (GetDeployment _) r => negb (Success r)
  | _ => true
  end.

Definition versionCmd : Cmd := Kubectl ["version"].

Definition removeCmd (ngServiceName : string) : Cmd :=
  Kubectl ["delete"; "--ignore-not-found=true";
           "deployment/" +++ bbDeploymentName;
           "deployment/" +++ ngDeploymentName;
           "service/" +++ ngServiceName].

(** The lookups of [checkPreconditions]. *)
Definition lookups (cfg : Config) (ngServiceName : string) : list Cmd :=
  (if isEmpty (Namespace cfg) then [] else [GetNamespace (Namespace cfg)])
  ++ [GetService ngServiceName; GetDeployment bbDeploymentName;
      GetDeployment ngDeploymentName].

(** A step of the stage: it went from [w] to [w'] by sending the commands
    [cs], and [ok] says both that all the answers were welcome and that no
    failure was reported. *)
Definition stepped (ok : bool) (cs : list Cmd) (w w' : World) : Prop :=
  exists evs,
    trace w' = trace w ++ evs
    /\ commands evs = cs
    /\ ok = forallb welcome evs
    /\ ok = negb (existsb isErrLine evs).

(** *** Deletions *)

Definition isDeleteCmd (c : Cmd) : bool :=
  match c with
  | Kubectl ("delete" :: _) => true
  | _ => false
  end.

Definition isDeletion (e : Event) : bool :=
  match e with
  | Call c _ => isDeleteCmd c
  | _ => false
  end.

(** Not a deletion. *)
Definition keeping (e : Event) : Prop := isDeletion e = false.

(** *** The deployment stage *)

Definition runBusyboxCmd (registryURL : string) : Cmd :=
  Kubectl ["run"; bbDeploymentName;
           "--image=" +++ registryURL +++ "busybox:latest";
           "--image-pull-policy=IfNotPresent"; "--"; "sleep"; "3600"].

Definition runNginxCmd (registryURL : string) (count : Z) : Cmd :=
  StartPod ngDeploymentName (registryURL +++ "nginx:stable-alpine") count.

Definition exposeCmd (ngServiceName : string) : Cmd :=
  Kubectl ["expose"; "deployment"; ngDeploymentName;
           "--name=" +++ ngServiceName; "--port=80"].

(** What is seen of the three requests: [upTo] is the number of requests
    that were accepted, [rn] the answer of [RunGetNodes]. *)
Definition requestScript (registryURL ngServiceName : string)
  (upTo : nat) (rn : KubeOutput) : list Step :=
  match upTo with
  | O =>
      [Ran (runBusyboxCmd registryURL) false;
       Said (Err "Issued BusyBox start request")]
  | 1%nat =>
      [Ran (runBusyboxCmd registryURL) true;
       Said (Ok "Issued BusyBox start request");
       Ran GetNodes (Success rn);
       Ran (runNginxCmd registryURL (NodeCount rn)) false;
       Said (Err "Issued Nginx start request")]
  | 2%nat =>
      [Ran (runBusyboxCmd registryURL) true;
       Said (Ok "Issued BusyBox start request");
       Ran GetNodes (Success rn);
       Ran (runNginxCmd registryURL (NodeCount rn)) true;
       Said (Ok "Issued Nginx start request");
       Ran (exposeCmd ngServiceName) false;
       Said (Err "Issued expose Nginx service request")]
  | _ =>
      [Ran (runBusyboxCmd registryURL) true;
       Said (Ok "Issued BusyBox start request");
       Ran GetNodes (Success rn);
       Ran (runNginxCmd registryURL (NodeCount rn)) true;
       Said (Ok "Issued Nginx start request");
       Ran (exposeCmd ngServiceName) true;
       Said (Ok "Issued expose Nginx service request")]
  end.

(** The lookups of [k] polls. *)
Fixpoint polls (k : nat) : list Cmd :=
  match k with
  | O => []
  | Datatypes.S k' =>
      GetDeployment bbDeploymentName :: GetDeployment ngDeploymentName
      :: polls k'
  end.

Definition isSleep (e : Event) : bool :=
  match e with
  | Slept _ => true
  | _ => false
  end.

Definition readyReport : Event :=
  Out (Ok "Both deployments completed successfully within timeout").

(** *** Counting what a run did *)

Definition isRan (s : Step) : bool :=
  match s with
  | Ran _ _ => true
  | _ => false
  end.

Definition isFetched (s : Step) : bool :=
  match s with
  | Fetched _ _ => true
  | _ => false
  end.

Definition isSaid (s : Step) : bool :=
  match s with
  | Said _ => true
  | _ => false
  end.

Definition count (p : Step -> bool) (l : list Step) : nat :=
  List.length (filter p l).

(** The events of one fetch of lines 64-125: the requests with their
    answers [rs], the line that reports the fetch and, when what was asked
    for is not there, the combined output of the last answer. *)
Definition fetchEvents (c : Cmd) (label : string) (rs : list KubeOutput)
  (found : bool) : list Event :=
  map (Call c) rs
  ++ (if found then [Out (Ok label)]
      else [Out (Err label);
            Out (Detail (CombinedOut (last rs zeroKubeOutput)))]).

(** *** Failure dumps *)

(** A dump is a call of [printFailureDetail]; its event keeps the text the
    call is handed, which the function passes to [fmt.Fprintf] as the
    format. *)
Definition isDump (e : Event) : bool :=
  match e with
  | Out (Detail _) => true
  | _ => false
  end.

(** The answer of the last cluster call among [evs]; [known] when there is
    none. *)
Fixpoint latest (known : option KubeOutput) (evs : list Event)
  : option KubeOutput :=
  match evs with
  | [] => known
  | Call _ r :: rest => latest (Some r) rest
  | _ :: rest => latest known rest
  end.

(** Every dump among [evs] is handed the combined output of the answer to
    the cluster call that precedes it most closely; [known] is the answer to
    the last call before [evs], if there was one. *)
Fixpoint dumpsLatest (known : option KubeOutput) (evs : list Event) : bool :=
  match evs with
  | [] => true
  | Call _ r :: rest => dumpsLatest (Some r) rest
  | Out (Detail d) :: rest =>
      match known with
      | Some r => String.eqb d (CombinedOut r)
      | None => false
      end && dumpsLatest known rest
  | _ :: rest => dumpsLatest known rest
  end.

(** [m] dumps nothing but the answer to the latest call, which is
    [known s] when [m] starts in [s]. *)
Definition candidFrom {S A} (tr : S -> list Event)
  (known : S -> option KubeOutput) (m : M S A) : Prop :=
  forall s, exists evs,
    tr (snd (m s)) = tr s ++ evs /\ dumpsLatest (known s) evs = true.

(** The same, with no call to go back to. *)
Definition candid {S A} (tr : S -> list Event) (m : M S A) : Prop :=
  candidFrom tr (fun _ => None) m.

(* ================================================================== *)
(** * Properties *)

Unset Implicit Arguments.

(** ** The Retry Engine *)

Section RetryContract.

Context {S : Type}.
Variable probe : M S bool.

(** What [retry] does, in full: it makes [calls] calls, all but possibly the
    last of which return false, and stops in the state the last one left. *)
Lemma retry_run (n : nat) (s : S) :
  exists calls : nat,
    (calls <= n)%nat
    /\ snd (retry n probe s) = stateBefore probe calls s
    /\ (forall i, (Datatypes.S i < calls)%nat -> attempt probe i s = false)
    /\ (fst (retry n probe s) = true ->
        exists i, calls = Datatypes.S i /\ attempt probe i s = true)
    /\ (fst (retry n probe s) = false ->
        calls = n /\ forall i, (i < n)%nat -> attempt probe i s = false)
    /\ forall c,
        retry n (counted probe) (s, c)
        = (fst (retry n probe s), (snd (retry n probe s), (c + calls)%nat)).
Proof.
  revert s; induction n as [|n IH]; intro s.
  - exists O; cbn; repeat split; try lia; try discriminate.
    intros c; now rewrite Nat.add_0_r.
  - cbn [retry]; unfold bind, counted; cbn [fst snd].
    destruct (probe s) as [b s1] eqn:Hp.
    destruct b.
    + exists 1%nat; cbn; repeat split; try lia; try discriminate.
      * now rewrite Hp.
      * intros _; exists O; split; [reflexivity|].
        unfold attempt; cbn; now rewrite Hp.
      * intros c; now rewrite Nat.add_1_r.
    + destruct (IH s1) as (k & Hle & Hst & Hfalse & Htrue & Hnone & Hcnt).
      assert (Hshift : forall i, attempt probe (Datatypes.S i) s
                                = attempt probe i s1).
      { intro i; unfold attempt; cbn; now rewrite Hp. }
      exists (Datatypes.S k); repeat split.
      * lia.
      * cbn; now rewrite Hp.
      * intros [|i] Hi.
        -- unfold attempt; cbn; now rewrite Hp.
        -- rewrite Hshift; apply Hfalse; lia.
      * intros Hb; destruct (Htrue Hb) as (i & -> & Hi).
        exists (Datatypes.S i); split; [reflexivity|]; now rewrite Hshift.
      * apply Hnone in H; lia.
      * destruct (Hnone H) as [_ Hall]; intros [|i] Hi.
        -- unfold attempt; cbn; now rewrite Hp.
        -- rewrite Hshift; apply Hall; lia.
      * intros c; rewrite Hcnt; do 2 f_equal; lia.
Qed.

End RetryContract.

(** C2.  For every number of attempts [n] and every probe, [retry n probe]
    returns true exactly when one of the first [n] sequential calls of the
    probe returns true; it calls the probe at most [n] times, never again
    after a call that returned true, and when all [n] calls return false it
    returns false after exactly [n] calls.  The calls are counted by running
    the same engine on the probe instrumented with a counter, which changes
    neither the result nor the final state. *)
Theorem retry_contract {S : Type} (probe : M S bool) (n : nat) (s : S) :
  let b := fst (retry n probe s) in
  let calls := snd (snd (retry n (counted probe) (s, O))) in
  fst (retry n (counted probe) (s, O)) = b
  /\ fst (snd (retry n (counted probe) (s, O))) = snd (retry n probe s)
  /\ (b = true <-> exists i, (i < n)%nat /\ attempt probe i s = true)
  /\ (calls <= n)%nat
  /\ (forall i, (i < n)%nat -> attempt probe i s = true ->
      (calls <= Datatypes.S i)%nat)
  /\ ((forall i, (i < n)%nat -> attempt probe i s = false) ->
      b = false /\ calls = n)
  /\ snd (retry n probe s) = stateBefore probe calls s.
Proof.
  cbv zeta.
  destruct (retry_run probe n s)
    as (k & Hle & Hst & Hfalse & Htrue & Hnone & Hcnt).
  rewrite (Hcnt O); cbn [fst snd]; rewrite Nat.add_0_l.
  repeat split; trivial.
  - intros Hb; destruct (Htrue Hb) as (i & -> & Hi).
    exists i; split; [lia|trivial].
  - intros (i & Hi & Hti).
    destruct (fst (retry n probe s)) eqn:Hb; [reflexivity|].
    destruct (Hnone eq_refl) as [_ Hall].
    rewrite (Hall i Hi) in Hti; discriminate.
  - intros i Hi Hti.
    destruct (Nat.le_gt_cases k (Datatypes.S i)) as [|Hlt]; [trivial|].
    rewrite (Hfalse i) in Hti; [discriminate|lia].
  - destruct (fst (retry n probe s)) eqn:Hb; [|reflexivity].
    destruct (Htrue eq_refl) as (i & -> & Hi).
    rewrite (H i) in Hi; [discriminate|lia].
  - destruct (fst (retry n probe s)) eqn:Hb.
    + destruct (Htrue eq_refl) as (i & -> & Hi).
      rewrite (H i) in Hi; [discriminate|lia].
    + now destruct (Hnone eq_refl).
Qed.

(** The mock that fails twice is retried until its third call; the mock
    that fails seven times is given up after five calls. *)
Lemma retry_contract_witness :
  fst (retry 5 (failsThenSucceeds 2) O) = true
  /\ snd (snd (retry 5 (counted (failsThenSucceeds 2)) (O, O))) = 3%nat
  /\ fst (retry 5 (failsThenSucceeds 7) O) = false
  /\ snd (snd (retry 5 (counted (failsThenSucceeds 7)) (O, O))) = 5%nat.
Proof.
  destruct (retry_contract (failsThenSucceeds 2) 5 O)
    as (_ & _ & Htrue & _ & Hstop & _ & _).
  destruct (retry_contract (failsThenSucceeds 7) 5 O)
    as (_ & _ & _ & _ & _ & Hnone & _).
  assert (Hall : forall i, (i < 5)%nat ->
                           attempt (failsThenSucceeds 7) i O = false).
  { intros i Hi; do 5 (destruct i as [|i]; [reflexivity|]); lia. }
  destruct (Hnone Hall) as [Hfalse Hcalls].
  split; [apply Htrue; exists 2%nat; split; [lia|reflexivity]|].
  split; [|split; assumption].
  apply Nat.le_antisymm; [apply (Hstop 2%nat); [lia|reflexivity]|].
  vm_compute; lia.
Defined.

(* ================================================================== *)
(** ** Resource names *)

Lemma parse_fmt_d (z : Z) : parse_d (fmt_d z) = Some z.
Proof.
  unfold parse_d, fmt_d.
  rewrite NilZero.isi.
  - cbn; now rewrite DecimalZ.of_to.
  - destruct z; cbn; try discriminate.
    intros [= H]; now apply DecimalPos.Unsigned.to_uint_nonnil in H.
  - destruct z; cbn; try discriminate.
    intros [= H]; now apply DecimalPos.Unsigned.to_uint_nonnil in H.
Qed.

Lemma serviceSuffix_at (t : Z) : serviceSuffix (nginxServiceNameAt t) = Some t.
Proof. unfold serviceSuffix; cbn; apply parse_fmt_d. Qed.

(** C9.  The two workload names are constants; the service name is the
    constant ["kuberang-nginx-"] followed by the nanosecond clock reading
    taken when the run starts, in decimal.  The number can be read back from
    the name, so a later start gives a larger suffix and a different name,
    also when both starts fall in the same second. *)
Theorem service_name_fresh (w w' : World)
  (Hlater : clock w < clock w') :
  bbDeploymentName = "kuberang-busybox"
  /\ ngDeploymentName = "kuberang-nginx"
  /\ fst (nginxServiceName w) = "kuberang-nginx-" +++ fmt_d (clock w)
  /\ snd (nginxServiceName w) = w
  /\ serviceSuffix (fst (nginxServiceName w)) = Some (clock w)
  /\ serviceSuffix (fst (nginxServiceName w')) = Some (clock w')
  /\ fst (nginxServiceName w) <> fst (nginxServiceName w').
Proof.
  repeat split; try apply serviceSuffix_at.
  change (nginxServiceNameAt (clock w) <> nginxServiceNameAt (clock w')).
  intro E.
  pose proof (serviceSuffix_at (clock w)) as H1.
  rewrite E, serviceSuffix_at in H1.
  injection H1; lia.
Qed.

(** Two starts half a second apart. *)
Lemma service_name_fresh_witness :
  1761850000123456789 < 1761850000623456789
  /\ fst (nginxServiceName (Scripted.boot 1761850000123456789))
     <> fst (nginxServiceName (Scripted.boot 1761850000623456789)).
Proof.
  split; [lia|].
  apply (service_name_fresh (Scripted.boot 1761850000123456789)
           (Scripted.boot 1761850000623456789)).
  cbn; lia.
Defined.

(* ================================================================== *)
(** ** The readiness poll *)

Section Poller.

Variable env : Env.
Variables busyboxCount nginxCount : Z.

Local Notation "'check'" := (checkDeployments env busyboxCount nginxCount).
Local Notation "'next'" := (afterPoll env busyboxCount nginxCount).
Local Notation "'loop'" := (fun rounds start =>
  waitLoop env rounds start busyboxCount nginxCount).

(** One poll is two lookups, and it is positive exactly when both succeed
    and report the desired counts. *)
Lemma checkDeployments_run (w : World) :
  let r1 := respond env (trace w) (GetDeployment bbDeploymentName) in
  let h1 := trace w ++ [Call (GetDeployment bbDeploymentName) r1] in
  let r2 := respond env h1 (GetDeployment ngDeploymentName) in
  check w
  = ((Success r1 && (ObservedReplicaCount r1 =? busyboxCount))
     && (Success r2 && (ObservedReplicaCount r2 =? nginxCount)),
     mkWorld (h1 ++ [Call (GetDeployment ngDeploymentName) r2])
       (clock w
        + Z.of_N (latency env (trace w) (GetDeployment bbDeploymentName))
        + Z.of_N (latency env h1 (GetDeployment ngDeploymentName)))).
Proof.
  cbv zeta; unfold checkDeployments, RunGetDeployment, invoke, bind, ret.
  cbn [trace clock].
  f_equal.
  destruct (Success (respond env (trace w) _)),
           (ObservedReplicaCount (respond env (trace w) _) =? busyboxCount),
           (Success (respond env (trace w ++ _) _)),
           (ObservedReplicaCount (respond env (trace w ++ _) _) =? nginxCount);
    reflexivity.
Qed.

Lemma check_clock (w : World) : clock w <= clock (snd (check w)).
Proof. rewrite checkDeployments_run; cbn; lia. Qed.

Lemma next_clock (w : World) : clock w + GoTime.Second <= clock (next w).
Proof.
  unfold afterPoll, timeSleep; cbn [snd clock].
  pose proof (check_clock w); unfold GoTime.Second in *; lia.
Qed.

Lemma check_clock_fast (w : World) :
  instantaneous env -> clock (snd (check w)) = clock w.
Proof.
  intros [Hl _]; rewrite checkDeployments_run; cbn; rewrite !Hl; lia.
Qed.

Lemma next_clock_fast (w : World) :
  instantaneous env -> clock (next w) = clock w + GoTime.Second.
Proof.
  intros Hi; unfold afterPoll, timeSleep; cbn [snd clock].
  rewrite (check_clock_fast w Hi); destruct Hi as [_ Hs]; rewrite Hs.
  unfold GoTime.Second; lia.
Qed.

Lemma pollWorld_clock_fast (k : nat) (w : World) :
  instantaneous env ->
  clock (pollWorld env busyboxCount nginxCount k w)
  = clock w + Z.of_nat k * GoTime.Second.
Proof.
  intros Hi; revert w; induction k as [|k IH]; intro w.
  - cbn; lia.
  - cbn [pollWorld]; rewrite IH, next_clock_fast by trivial; lia.
Qed.

(** On a clock that does not run backwards the saturation of [Sub] does not
    show in the guard of the loop. *)
Lemma guard_since (start now : Z) :
  start <= now ->
  (GoTime.Sub now start <? deploymentTimeout)
  = (now - start <? deploymentTimeout).
Proof.
  intros Hle; unfold GoTime.Sub, GoTime.maxDuration, GoTime.minDuration.
  cbv zeta.
  destruct (2 ^ 63 - 1 <? now - start) eqn:Hmax.
  - apply Z.ltb_lt in Hmax.
    transitivity false; [reflexivity|symmetry].
    apply Z.ltb_ge; unfold deploymentTimeout, GoTime.Second; lia.
  - destruct (now - start <? - 2 ^ 63) eqn:Hmin; [|reflexivity].
    apply Z.ltb_lt in Hmin; lia.
Qed.

(** One round of the loop. *)
Lemma waitLoop_round (rounds : nat) (start : Z) (w : World) :
  start <= clock w ->
  loop (Datatypes.S rounds) start w
  = if clock w - start <? deploymentTimeout then
      if fst (check w) then
        (Some true,
         snd (PrettyPrintOk
                "Both deployments completed successfully within timeout"
                (snd (check w))))
      else loop rounds start (next w)
    else
      (Some false,
       snd (PrettyPrintErr
              "Both deployments completed successfully within timeout" w)).
Proof.
  intros Hle.
  cbn [waitLoop]; unfold bind at 1; unfold timeSince, timeNow, gets, bind, ret.
  rewrite (guard_since _ _ Hle).
  destruct (clock w - start <? deploymentTimeout); [|reflexivity].
  unfold afterPoll.
  destruct (checkDeployments env busyboxCount nginxCount w) as [ready w1].
  cbn [fst snd]; destruct ready; reflexivity.
Qed.

(** The rounds of [waitRounds] are enough, whatever the calls answer and
    however long they take, and the loop gives up only once the window has
    gone by. *)
Lemma waitLoop_returns (rounds : nat) (start : Z) (w : World) :
  (1 <= rounds)%nat ->
  start <= clock w ->
  (301 - Z.of_nat rounds) * GoTime.Second <= clock w - start ->
  exists b,
    fst (loop rounds start w) = Some b
    /\ start <= clock (snd (loop rounds start w))
    /\ (b = false ->
        deploymentTimeout <= clock (snd (loop rounds start w)) - start).
Proof.
  revert w; induction rounds as [|rounds IH]; intros w Hpos Hle Hel; [lia|].
  rewrite (waitLoop_round rounds start w Hle).
  destruct (clock w - start <? deploymentTimeout) eqn:Hguard.
  - apply Z.ltb_lt in Hguard.
    destruct (fst (check w)).
    + exists true; cbn [fst snd PrettyPrintOk println clock];
        pose proof (check_clock w); repeat split; [lia|discriminate].
    + pose proof (next_clock w) as Hn.
      apply IH; unfold deploymentTimeout, GoTime.Second in *; lia.
  - apply Z.ltb_ge in Hguard.
    exists false; cbn [fst snd PrettyPrintErr println clock];
      repeat split; lia.
Qed.

(** With a clock that only moves in the sleeps, the loop polls at
    [start], [start + 1s], ... and stops at the first poll that finds the
    workloads ready, or after the 300th. *)
Lemma waitLoop_fast (Hfast : instantaneous env) (start : Z) :
  forall (n rounds k : nat) (w : World),
    clock w = start + Z.of_nat k * GoTime.Second ->
    (k + n = 300)%nat ->
    (n < rounds)%nat ->
    (forall j,
        (j < n)%nat ->
        pollReady env busyboxCount nginxCount j w = true ->
        (forall i, (i < j)%nat ->
                   pollReady env busyboxCount nginxCount i w = false) ->
        fst (loop rounds start w) = Some true
        /\ clock (snd (loop rounds start w))
           = start + Z.of_nat (k + j) * GoTime.Second)
    /\ ((forall j, (j < n)%nat ->
                   pollReady env busyboxCount nginxCount j w = false) ->
        fst (loop rounds start w) = Some false
        /\ clock (snd (loop rounds start w)) = start + 300 * GoTime.Second).
Proof.
  induction n as [|n IH]; intros rounds k w Hclock Hk Hrounds;
    (destruct rounds as [|rounds]; [lia|]);
    (rewrite waitLoop_round by (unfold GoTime.Second in *; lia)).
  - assert (Hguard : (clock w - start <? deploymentTimeout) = false).
    { apply Z.ltb_ge; unfold deploymentTimeout, GoTime.Second in *; lia. }
    rewrite Hguard; split; [intros j Hj; lia|].
    intros _; cbn [fst snd PrettyPrintErr println clock];
      split; [reflexivity|].
    rewrite Hclock; replace (Z.of_nat k) with 300 by lia; reflexivity.
  - assert (Hguard : (clock w - start <? deploymentTimeout) = true).
    { apply Z.ltb_lt; unfold deploymentTimeout, GoTime.Second in *; lia. }
    rewrite Hguard.
    change (fst (check w)) with (pollReady env busyboxCount nginxCount 0 w).
    destruct (pollReady env busyboxCount nginxCount 0 w) eqn:Hfirst.
    + split.
      * intros [|j] Hj Hready Hbefore.
        -- cbn [fst snd PrettyPrintOk println clock]; split; [reflexivity|].
           rewrite check_clock_fast, Hclock, Nat.add_0_r by trivial; lia.
        -- rewrite (Hbefore O) in Hfirst by lia; discriminate.
      * intros Hall; rewrite (Hall O) in Hfirst by lia; discriminate.
    + destruct (IH rounds (Datatypes.S k) (next w)) as [IHready IHnever];
        [rewrite next_clock_fast, Hclock by trivial; lia | lia | lia |].
      split.
      * intros [|j] Hj Hready Hbefore.
        -- rewrite Hready in Hfirst; discriminate.
        -- replace (k + Datatypes.S j)%nat with (Datatypes.S k + j)%nat by lia.
           apply IHready; [lia|exact Hready|].
           intros i Hi; apply (Hbefore (Datatypes.S i)); lia.
      * intros Hall; apply IHnever.
        intros j Hj; apply (Hall (Datatypes.S j)); lia.
Qed.

Lemma pollWorld_clock (k : nat) (w : World) :
  clock w + Z.of_nat k * GoTime.Second
  <= clock (pollWorld env busyboxCount nginxCount k w).
Proof.
  revert w; induction k as [|k IH]; intro w.
  - cbn; lia.
  - cbn [pollWorld]; pose proof (IH (next w)); pose proof (next_clock w); lia.
Qed.

(** Whatever the calls answer and however long they take, the loop says
    yes only out of a poll that started inside the window. *)
Lemma waitLoop_true_inside (start : Z) (rounds : nat) (w : World) :
  start <= clock w ->
  fst (loop rounds start w) = Some true ->
  exists k,
    pollReady env busyboxCount nginxCount k w = true
    /\ (forall i, (i < k)%nat ->
                  pollReady env busyboxCount nginxCount i w = false)
    /\ clock (pollWorld env busyboxCount nginxCount k w) - start
       < deploymentTimeout.
Proof.
  revert w; induction rounds as [|rounds IH]; intros w Hle; [discriminate|].
  rewrite (waitLoop_round rounds start w Hle).
  destruct (clock w - start <? deploymentTimeout) eqn:Hguard; [|discriminate].
  apply Z.ltb_lt in Hguard.
  destruct (fst (check w)) eqn:Hfirst.
  - intros _; exists O; repeat split; trivial; intros i Hi; lia.
  - intros Hyes.
    pose proof (next_clock w) as Hn.
    destruct (IH (next w)) as (k & Hk & Hbefore & Hin);
      [unfold GoTime.Second in *; lia | exact Hyes |].
    exists (Datatypes.S k); repeat split; trivial.
    intros [|i] Hi; [exact Hfirst|apply Hbefore; lia].
Qed.

End Poller.

Lemma first_true_below (p : nat -> bool) (n : nat) :
  (exists k, (k < n)%nat /\ p k = true) ->
  exists k, (k < n)%nat /\ p k = true
            /\ forall i, (i < k)%nat -> p i = false.
Proof.
  induction n as [|n IH]; intros (k & Hk & Hp); [lia|].
  destruct (existsb p (seq 0 n)) eqn:Hex.
  - apply existsb_exists in Hex; destruct Hex as (j & Hj & Hpj).
    apply in_seq in Hj.
    destruct IH as (m & Hm & Hpm & Hmin); [exists j; split; [lia|trivial]|].
    exists m; repeat split; trivial; lia.
  - assert (Hnone : forall i, (i < n)%nat -> p i = false).
    { intros i Hi; destruct (p i) eqn:Hpi; [|reflexivity].
      rewrite <- Hex; symmetry; apply existsb_exists.
      exists i; split; [apply in_seq; lia|trivial]. }
    assert (k = n) as ->.
    { destruct (Nat.eq_dec k n); [trivial|].
      rewrite Hnone in Hp by lia; discriminate. }
    exists n; repeat split; trivial; lia.
Qed.

Section PollerAnyClock.

Variable env : Env.
Variables busyboxCount nginxCount : Z.

Lemma pollWorld_S (k : nat) (w : World) :
  pollWorld env busyboxCount nginxCount (Datatypes.S k) w
  = afterPoll env busyboxCount nginxCount
      (pollWorld env busyboxCount nginxCount k w).
Proof.
  revert w; induction k as [|k IH]; intro w; [reflexivity|].
  change (pollWorld env busyboxCount nginxCount (Datatypes.S (Datatypes.S k))
            w)
    with (pollWorld env busyboxCount nginxCount (Datatypes.S k)
            (afterPoll env busyboxCount nginxCount w)).
  now rewrite IH.
Qed.

Lemma pollWorld_mono (j k : nat) (w : World) :
  (j <= k)%nat ->
  clock (pollWorld env busyboxCount nginxCount j w)
  <= clock (pollWorld env busyboxCount nginxCount k w).
Proof.
  induction 1 as [|k _ IH]; [lia|].
  rewrite pollWorld_S.
  pose proof (next_clock env busyboxCount nginxCount
                (pollWorld env busyboxCount nginxCount k w)).
  unfold GoTime.Second in *; lia.
Qed.

(** Whatever the calls answer and however long they take, the loop says
    yes at the end of the first poll that finds the workloads ready, when
    that poll starts inside the window. *)
Lemma waitLoop_first_ready (start : Z) :
  forall (k rounds : nat) (w : World),
    start <= clock w ->
    (k < rounds)%nat ->
    pollReady env busyboxCount nginxCount k w = true ->
    (forall i, (i < k)%nat ->
               pollReady env busyboxCount nginxCount i w = false) ->
    clock (pollWorld env busyboxCount nginxCount k w) - start
    < deploymentTimeout ->
    waitLoop env rounds start busyboxCount nginxCount w
    = (Some true,
       snd (PrettyPrintOk
              "Both deployments completed successfully within timeout"
              (snd (checkDeployments env busyboxCount nginxCount
                      (pollWorld env busyboxCount nginxCount k w))))).
Proof.
  induction k as [|k IH]; intros rounds w Hle Hr Hready Hbefore Hin;
    (destruct rounds as [|rounds]; [lia|]);
    rewrite (waitLoop_round env busyboxCount nginxCount rounds start w Hle).
  - cbn [pollWorld] in Hin; apply Z.ltb_lt in Hin; rewrite Hin.
    change (fst (checkDeployments env busyboxCount nginxCount w))
      with (pollReady env busyboxCount nginxCount 0 w).
    now rewrite Hready.
  - pose proof (pollWorld_mono 0 (Datatypes.S k) w) as Hm.
    cbn [pollWorld] in Hm.
    assert (Hguard : (clock w - start <? deploymentTimeout) = true).
    { apply Z.ltb_lt; cbn [pollWorld] in Hin; lia. }
    rewrite Hguard.
    change (fst (checkDeployments env busyboxCount nginxCount w))
      with (pollReady env busyboxCount nginxCount 0 w).
    rewrite (Hbefore O) by lia.
    pose proof (next_clock env busyboxCount nginxCount w) as Hn.
    apply IH;
      [unfold GoTime.Second in *; lia | lia | exact Hready | | exact Hin].
    intros i Hi; apply (Hbefore (Datatypes.S i)); lia.
Qed.

End PollerAnyClock.

(** C8.  A poll looks up both workloads and is positive when both lookups
    succeed with the desired replica counts; after a poll that is not, the
    loop sleeps for a second, so that polls start at least a second apart.
    The loop always ends within the rounds it is given.  Whatever the
    cluster answers and however long its answers take,
    [waitForDeployments] returns true exactly when a poll that starts less
    than [deploymentTimeout] (300 s) after the start finds the workloads
    ready, and it does so at the end of the first such poll - inside the
    window or later, by the time the two lookups of that poll take; it
    returns false only when at least 300 s have gone by.  On a clock that
    only moves in the sleeps, poll [k] starts exactly [k] seconds after the
    start; if one of the polls [0..299] finds the workloads ready the
    function returns true, at the time of the first such poll and so before
    the timeout; if none does it returns false exactly 300 s after the
    start. *)
Theorem readiness_poll (env : Env) (busyboxCount nginxCount : Z) (w : World) :
  let done := waitForDeployments env busyboxCount nginxCount w in
  let ready := pollReady env busyboxCount nginxCount in
  let poll := pollWorld env busyboxCount nginxCount in
  (forall v : World,
      let r1 := respond env (trace v) (GetDeployment bbDeploymentName) in
      let h1 := trace v ++ [Call (GetDeployment bbDeploymentName) r1] in
      let r2 := respond env h1 (GetDeployment ngDeploymentName) in
      fst (checkDeployments env busyboxCount nginxCount v)
      = ((Success r1 && (ObservedReplicaCount r1 =? busyboxCount))
         && (Success r2 && (ObservedReplicaCount r2 =? nginxCount)))
      /\ trace (snd (checkDeployments env busyboxCount nginxCount v))
         = h1 ++ [Call (GetDeployment ngDeploymentName) r2])
  /\ fst (waitLoop env waitRounds (clock w) busyboxCount nginxCount w) <> None
  /\ (fst done = false -> deploymentTimeout <= clock (snd done) - clock w)
  /\ (fst done = true ->
      exists k, (k < 300)%nat /\ ready k w = true
        /\ (forall i, (i < k)%nat -> ready i w = false)
        /\ clock (poll k w) - clock w < deploymentTimeout)
  /\ (forall k : nat,
        clock (poll k w) + 1 * GoTime.Second
        <= clock (poll (Datatypes.S k) w))
  /\ (fst done = true <->
      exists k, ready k w = true
                /\ clock (poll k w) - clock w < deploymentTimeout)
  /\ (forall k : nat,
        ready k w = true ->
        (forall i, (i < k)%nat -> ready i w = false) ->
        clock (poll k w) - clock w < deploymentTimeout ->
        fst done = true
        /\ clock (snd done)
           = clock (snd (checkDeployments env busyboxCount nginxCount
                           (poll k w))))
  /\ (instantaneous env ->
      (forall k : nat,
          clock (poll k w) = clock w + Z.of_nat k * (1 * GoTime.Second))
      /\ ((exists k, (k < 300)%nat /\ ready k w = true) ->
          fst done = true
          /\ clock (snd done) - clock w < deploymentTimeout
          /\ exists k, (k < 300)%nat /\ ready k w = true
                /\ (forall i, (i < k)%nat -> ready i w = false)
                /\ clock (snd done) = clock w + Z.of_nat k * GoTime.Second)
      /\ ((forall k, (k < 300)%nat -> ready k w = false) ->
          fst done = false
          /\ clock (snd done) = clock w + deploymentTimeout)).
Proof.
  cbv zeta.
  assert (Hrun : forall x,
    waitForDeployments env busyboxCount nginxCount x
    = (match fst (waitLoop env waitRounds (clock x) busyboxCount nginxCount x)
       with Some b => b | None => false end,
       snd (waitLoop env waitRounds (clock x) busyboxCount nginxCount x))).
  { intro x; unfold waitForDeployments, timeNow, gets, bind, ret.
    now destruct
      (waitLoop env waitRounds (clock x) busyboxCount nginxCount x). }
  assert (Hfirst : forall k : nat,
    pollReady env busyboxCount nginxCount k w = true ->
    (forall i, (i < k)%nat ->
               pollReady env busyboxCount nginxCount i w = false) ->
    clock (pollWorld env busyboxCount nginxCount k w) - clock w
    < deploymentTimeout ->
    fst (waitForDeployments env busyboxCount nginxCount w) = true
    /\ clock (snd (waitForDeployments env busyboxCount nginxCount w))
       = clock (snd (checkDeployments env busyboxCount nginxCount
                       (pollWorld env busyboxCount nginxCount k w)))).
  { intros k Hk Hbefore Hin.
    pose proof (pollWorld_clock env busyboxCount nginxCount k w) as Hc.
    rewrite Hrun.
    rewrite (waitLoop_first_ready env busyboxCount nginxCount (clock w) k
               waitRounds w); trivial; [split; reflexivity|lia|].
    unfold waitRounds, deploymentTimeout, GoTime.Second in *; lia. }
  assert (Htrue :
    fst (waitForDeployments env busyboxCount nginxCount w) = true ->
    exists k, (k < 300)%nat
      /\ pollReady env busyboxCount nginxCount k w = true
      /\ (forall i, (i < k)%nat ->
                    pollReady env busyboxCount nginxCount i w = false)
      /\ clock (pollWorld env busyboxCount nginxCount k w) - clock w
         < deploymentTimeout).
  { rewrite Hrun; cbn [fst]; intros Hyes.
    destruct (waitLoop_true_inside env busyboxCount nginxCount (clock w)
                waitRounds w) as (k & Hk & Hbefore & Hin); [lia| |].
    { destruct (fst (waitLoop env waitRounds (clock w) busyboxCount
                       nginxCount w)) as [[|]|]; trivial; discriminate. }
    exists k; repeat split; trivial.
    pose proof (pollWorld_clock env busyboxCount nginxCount k w).
    unfold deploymentTimeout, GoTime.Second in *; lia. }
  split; [|split; [|split; [|split; [|split; [|split; [|split]]]]]].
  - intro v; rewrite checkDeployments_run; cbn; split; reflexivity.
  - destruct (waitLoop_returns env busyboxCount nginxCount
                waitRounds (clock w) w) as (b & Hb & _);
      [unfold waitRounds; lia | lia | unfold waitRounds; cbn; lia |].
    rewrite Hb; discriminate.
  - rewrite Hrun; cbn [fst snd].
    destruct (waitLoop_returns env busyboxCount nginxCount
                waitRounds (clock w) w) as (b & Hb & _ & Hlate);
      [unfold waitRounds; lia | lia | unfold waitRounds; cbn; lia |].
    rewrite Hb; exact Hlate.
  - exact Htrue.
  - intro k; rewrite pollWorld_S.
    pose proof (next_clock env busyboxCount nginxCount
                  (pollWorld env busyboxCount nginxCount k w)).
    unfold GoTime.Second in *; lia.
  - split.
    + intros Hyes; destruct (Htrue Hyes) as (k & _ & Hk & _ & Hin).
      exists k; split; assumption.
    + intros (k & Hk & Hin).
      destruct (first_true_below
                  (fun j => pollReady env busyboxCount nginxCount j w)
                  (Datatypes.S k))
        as (j & Hj & Hrj & Hmin); [exists k; split; [lia|exact Hk]|].
      apply (Hfirst j Hrj Hmin).
      pose proof (pollWorld_mono env busyboxCount nginxCount j k w).
      lia.
  - exact Hfirst.
  - rewrite Hrun; cbn [fst snd].
    intros Hfast.
    destruct (waitLoop_fast env busyboxCount nginxCount Hfast (clock w)
                300 waitRounds 0 w) as [Hready Hnever];
      [cbn; lia | lia | unfold waitRounds; lia |].
    split; [|split].
    + intro k; rewrite pollWorld_clock_fast by trivial; lia.
    + intros Hex.
      destruct (first_true_below
                  (fun k => pollReady env busyboxCount nginxCount k w) 300 Hex)
        as (k & Hk & Hrk & Hmin).
      destruct (Hready k Hk Hrk Hmin) as [Hres Hclk].
      rewrite Hres, Hclk; cbn [Nat.add].
      repeat split.
      * unfold deploymentTimeout, GoTime.Second; lia.
      * exists k; repeat split; trivial.
    + intros Hall; destruct (Hnever Hall) as [Hres Hclk].
      rewrite Hres, Hclk; split; reflexivity.
Qed.

(** The scripted cluster whose workloads are ready at the third poll: the
    function returns true two seconds after it started. *)
Lemma readiness_poll_witness :
  let env := Scripted.cluster Scenes.slowStart in
  let w := Scenes.requested Scenes.t0 in
  instantaneous env
  /\ (exists k, (k < 300)%nat /\ pollReady env 1 3 k w = true)
  /\ fst (waitForDeployments env 1 3 w) = true
  /\ clock (snd (waitForDeployments env 1 3 w)) - clock w < deploymentTimeout.
Proof.
  cbv zeta.
  assert (Hfast : instantaneous (Scripted.cluster Scenes.slowStart))
    by (split; reflexivity).
  assert (Hex : exists k, (k < 300)%nat
      /\ pollReady (Scripted.cluster Scenes.slowStart) 1 3 k
           (Scenes.requested Scenes.t0) = true)
    by (exists 2%nat; split; [lia | vm_compute; reflexivity]).
  destruct (readiness_poll (Scripted.cluster Scenes.slowStart) 1 3
              (Scenes.requested Scenes.t0))
    as (_ & _ & _ & _ & _ & _ & _ & Hpoll).
  destruct (Hpoll Hfast) as (_ & Hready & _).
  destruct (Hready Hex) as (Hres & Hclk & _).
  repeat split; assumption.
Defined.

(** C8, as the specification words it, does not hold: the guard of the loop
    is read before a poll and not after it.  On a cluster whose workloads
    are ready from the start and whose every answer takes 200 s, the first
    poll starts at once, finds them ready and returns true - 400 s after the
    start, when the window of 300 s has gone by. *)
Lemma slow_answers_return_late :
  ~ readyInsideReturnsInside (Scripted.cluster Scenes.sluggish) 1 3
      (Scenes.requested Scenes.t0).
Proof.
  intros H; destruct H as [_ Hlate].
  - exists O; split; vm_compute; reflexivity.
  - vm_compute in Hlate; discriminate Hlate.
Qed.

(** What that run does. *)
Lemma slow_answers_run :
  let done := waitForDeployments (Scripted.cluster Scenes.sluggish) 1 3
                (Scenes.requested Scenes.t0) in
  fst done = true
  /\ clock (snd done) - Scenes.t0 = 400 * GoTime.Second.
Proof. split; vm_compute; reflexivity. Qed.

(* ================================================================== *)
(** ** Traces *)

Lemma since_app (w w' : World) (evs : list Event) :
  trace w' = trace w ++ evs -> since w w' = evs.
Proof.
  intros H; unfold since; rewrite H, skipn_app, skipn_all, Nat.sub_diag.
  reflexivity.
Qed.

Lemma observe_app (a b : list Event) :
  observe (a ++ b) = observe a ++ observe b.
Proof. apply flat_map_app. Qed.

Lemma commands_app (a b : list Event) :
  commands (a ++ b) = commands a ++ commands b.
Proof. apply flat_map_app. Qed.

(** How [CheckKubernetes] is put together from its stages. *)
Lemma CheckKubernetes_stages (env : Env) (cfg : Config) (skipCleanup : bool)
  (w : World) :
  CheckKubernetes env cfg skipCleanup w
  = let (e, w1) := preconditionStage env cfg (serviceOf w) w in
    match e with
    | Some err => (Some err, w1)
    | None =>
        let (res, f) :=
          mainSteps env (registryPrefix cfg) (serviceOf w) (enter w1) in
        (res, deferred env skipCleanup (serviceOf w) (world f))
    end.
Proof.
  unfold CheckKubernetes, nginxServiceName, timeNow, gets, bind, ret,
    serviceOf, registryPrefix, withLocals, deferred, when.
  destruct (preconditionStage env cfg (nginxServiceNameAt (clock w)) w)
    as [[err|] w1]; [reflexivity|].
  destruct (mainSteps env _ _ (enter w1)) as [res f].
  destruct skipCleanup; cbn [negb]; [reflexivity|].
  now destruct (powerDown env (nginxServiceNameAt (clock w)) (world f)).
Qed.

(** *** What the stages may emit *)

Section Emits.

Context {S : Type}.
Variable tr : S -> list Event.
Variable P : Event -> Prop.

Lemma emits_ret {A} (a : A) : emits tr P (ret a).
Proof. intro s; exists []; cbn; rewrite app_nil_r; auto. Qed.

Lemma emits_gets {A} (f : S -> A) : emits tr P (gets f).
Proof. intro s; exists []; cbn; rewrite app_nil_r; auto. Qed.

Lemma emits_bind {A B} (m : M S A) (k : A -> M S B) :
  emits tr P m -> (forall a, emits tr P (k a)) -> emits tr P (bind m k).
Proof.
  intros Hm Hk s; unfold bind.
  destruct (Hm s) as (e1 & H1 & F1).
  destruct (m s) as [a s1]; cbn [snd] in *.
  destruct (Hk a s1) as (e2 & H2 & F2).
  exists (e1 ++ e2); split.
  - now rewrite H2, H1, app_assoc.
  - now apply Forall_app.
Qed.

Lemma emits_modify (f : S -> S) :
  (forall s, tr (f s) = tr s) -> emits tr P (modify f).
Proof. intros H s; exists []; cbn; rewrite H, app_nil_r; auto. Qed.

Lemma emits_retry (n : nat) (probe : M S bool) :
  emits tr P probe -> emits tr P (retry n probe).
Proof.
  intros Hp; induction n as [|n IH]; cbn [retry].
  - apply emits_ret.
  - apply emits_bind; [exact Hp|].
    intros [|]; [apply emits_ret|exact IH].
Qed.

Lemma emits_forRange {A} (xs : list A) (body : A -> M S unit) :
  (forall x, emits tr P (body x)) -> emits tr P (forRange xs body).
Proof.
  intros Hb; induction xs as [|x xs IH]; cbn [forRange].
  - apply emits_ret.
  - apply emits_bind; [apply Hb|intros _; exact IH].
Qed.

End Emits.

Lemma emits_weaken {S A} (tr : S -> list Event) (P Q : Event -> Prop)
  (m : M S A) :
  (forall e, P e -> Q e) -> emits tr P m -> emits tr Q m.
Proof.
  intros HPQ Hm s; destruct (Hm s) as (evs & H & F).
  exists evs; split; [exact H|].
  eapply Forall_impl; [|exact F]; exact HPQ.
Qed.

Section EmitsWorld.

Variable env : Env.
Variable P : Event -> Prop.

Lemma emits_invoke (c : Cmd) :
  (forall r, P (Call c r)) -> emits trace P (invoke env c).
Proof.
  intros H w; exists [Call c (respond env (trace w) c)]; cbn; auto.
Qed.

Lemma emits_println (l : Line) : P (Out l) -> emits trace P (println l).
Proof. intros H w; exists [Out l]; cbn; auto. Qed.

Lemma emits_clientGet (url : string) :
  (forall ok, P (Http url ok)) -> emits trace P (clientGet env url).
Proof.
  intros H w; exists [Http url (httpGet env (trace w) url)]; cbn; auto.
Qed.

Lemma emits_timeSleep (d : Z) : P (Slept d) -> emits trace P (timeSleep env d).
Proof. intros H w; exists [Slept d]; cbn; auto. Qed.

Lemma emits_liftW {A} (m : M World A) :
  emits trace P m -> emits traceF P (liftW m).
Proof.
  intros Hm f; destruct (Hm (world f)) as (evs & H & F).
  exists evs; split; [|exact F].
  unfold liftW, traceF; destruct (m (world f)); exact H.
Qed.

End EmitsWorld.

(** The walk through a function body, by the shape of what comes next. *)
Ltac emits_walk :=
  repeat lazymatch goal with
    | |- emits _ _ (ret _) => apply emits_ret
    | |- emits _ _ (gets _) => apply emits_gets
    | |- emits _ _ (liftW _) => apply emits_liftW
    | |- emits _ _ (retry _ _) => apply emits_retry
    | |- emits _ _ (forRange _ _) => apply emits_forRange; intro
    | |- emits _ _ (modify _) => apply emits_modify; intro; reflexivity
    | |- emits _ _ (println _) =>
        apply emits_println; repeat split; reflexivity
    | |- emits _ _ (timeSleep _ _) =>
        apply emits_timeSleep; repeat split; reflexivity
    | |- emits _ _ (invoke _ _) =>
        apply emits_invoke; intro; repeat split; reflexivity
    | |- emits _ _ (clientGet _ _) =>
        apply emits_clientGet; intro; repeat split; reflexivity
    | |- emits _ _ (bind _ _) => apply emits_bind; [|intro]
    | |- emits _ _ (if ?c then _ else _) => destruct c
    | |- emits _ _ (match ?x with _ => _ end) => destruct x
    end.

Section StagesEmit.

Variable env : Env.
Variable cfg : Config.

Lemma preconditionStage_emits (ngServiceName : string) :
  emits trace housekeeping (preconditionStage env cfg ngServiceName).
Proof.
  unfold preconditionStage, precheckKubectl, removeExisting,
    checkPreconditions, precheckNamespace, precheckServices,
    precheckDeployments, RunKubectl, RunGetNamespace, RunGetService,
    RunGetDeployment, PrettyPrintOk, PrettyPrintErr, printFailureDetail.
  emits_walk.
Qed.

Lemma powerDown_emits (ngServiceName : string) :
  emits trace housekeeping (powerDown env ngServiceName).
Proof.
  unfold powerDown, RunKubectl, PrettyPrintOk, PrettyPrintErr,
    printFailureDetail.
  emits_walk.
Qed.

Lemma waitForDeployments_emits (busyboxCount nginxCount : Z) :
  emits trace housekeeping (waitForDeployments env busyboxCount nginxCount).
Proof.
  unfold waitForDeployments.
  apply emits_bind; [apply emits_gets|intro start].
  apply emits_bind; [|intro; apply emits_ret].
  induction waitRounds as [|n IH]; cbn [waitLoop]; [apply emits_ret|].
  unfold timeSince, timeNow, checkDeployments, RunGetDeployment,
    PrettyPrintOk, PrettyPrintErr.
  emits_walk; exact IH.
Qed.

Lemma deployTestWorkloads_emits (registryURL ngServiceName : string) :
  emits trace probeFree (deployTestWorkloads env registryURL ngServiceName).
Proof.
  unfold deployTestWorkloads, RunKubectl, RunGetNodes, RunPod,
    PrettyPrintOk, PrettyPrintErr, printFailureDetail.
  emits_walk.
  eapply emits_weaken; [|apply waitForDeployments_emits].
  now intros e [_ H].
Qed.

Lemma gatherInfo_emits (ngServiceName : string) :
  emits traceF housekeeping (gatherInfo env ngServiceName).
Proof.
  unfold gatherInfo, grabPodIPs, grabServiceIP, grabBusyboxPodName,
    reportGrab, RunKubectl, RunGetService, PrettyPrintOk, PrettyPrintErr,
    printFailureDetail.
  emits_walk.
Qed.

End StagesEmit.

(* ================================================================== *)
(** ** Teardown *)

(** [powerDown] issues its three deletions one after the other, whatever
    each of them answers. *)
Lemma powerDown_script (env : Env) (ngServiceName : string) (v : World) :
  exists b1 b2 b3 evs,
    trace (snd (powerDown env ngServiceName v)) = trace v ++ evs
    /\ observe evs = teardownScript ngServiceName b1 b2 b3.
Proof.
  unfold powerDown, RunKubectl, invoke, PrettyPrintOk, PrettyPrintErr,
    printFailureDetail, println, bind, ret.
  cbn [trace clock snd].
  set (r1 := respond env (trace v) _).
  set (h1 := trace v ++ [Call _ r1]).
  exists (Success r1).
  destruct (Success r1) eqn:E1; cbn [trace clock snd];
    match goal with
    | |- context [respond env ?h (Kubectl ["delete"; "deployments";
                                            bbDeploymentName])] =>
        set (r2 := respond env h (Kubectl ["delete"; "deployments";
                                           bbDeploymentName]));
        exists (Success r2);
        destruct (Success r2) eqn:E2; cbn [trace clock snd]
    end;
    match goal with
    | |- context [respond env ?h (Kubectl ["delete"; "deployments";
                                            ngDeploymentName])] =>
        set (r3 := respond env h (Kubectl ["delete"; "deployments";
                                           ngDeploymentName]));
        exists (Success r3);
        destruct (Success r3) eqn:E3; cbn [trace clock snd]
    end;
    subst h1; repeat rewrite <- app_assoc;
    eexists; (split; [reflexivity|]);
    cbn; rewrite ?E1, ?E2, ?E3; reflexivity.
Qed.

(** The results [mainSteps] can return. *)
Lemma mainSteps_results (env : Env) (registryURL ngServiceName : string)
  (f : Frame) :
  In (fst (mainSteps env registryURL ngServiceName f))
     [Some errDeploy; Some errGate; Some errRequired; None].
Proof.
  unfold mainSteps, bind, ret, gets.
  destruct (liftW _ f) as [[|] f1]; cbn [negb]; [|cbn; auto].
  destruct (gatherInfo env ngServiceName f1) as [[] f2].
  destruct (success f2); cbn [negb]; [|cbn; auto].
  destruct (probeSequence env ngServiceName f2) as [[] f3].
  destruct (success f3); cbn; auto.
Qed.

(** C6.  When the precondition stage lets the run through and teardown is
    not suppressed, [CheckKubernetes] returns what the rest of its body
    returns - a deployment failure, a failed gate, failed required checks or
    success - and in every case only after [powerDown] ran in the world the
    body left.  [powerDown] requests the deletion of the service under the
    name of this run, of the busybox deployment and of the nginx deployment,
    in this order and whatever the earlier deletions answered. *)
Theorem teardown_on_every_exit (env : Env) (cfg : Config) (w w1 : World)
  (Hcleared : cleared env cfg w = Some w1) :
  let body := mainSteps env (registryPrefix cfg) (serviceOf w) (enter w1) in
  let w' := snd (CheckKubernetes env cfg false w) in
  fst (CheckKubernetes env cfg false w) = fst body
  /\ In (fst body) [Some errDeploy; Some errGate; Some errRequired; None]
  /\ w' = snd (powerDown env (serviceOf w) (world (snd body)))
  /\ trace w' = trace (world (snd body)) ++ since (world (snd body)) w'
  /\ exists b1 b2 b3,
       observe (since (world (snd body)) w')
       = teardownScript (serviceOf w) b1 b2 b3.
Proof.
  cbv zeta; rewrite CheckKubernetes_stages.
  unfold cleared in Hcleared.
  destruct (preconditionStage env cfg (serviceOf w) w) as [[err|] v];
    [discriminate|].
  injection Hcleared as ->.
  pose proof (mainSteps_results env (registryPrefix cfg) (serviceOf w)
                (enter w1)) as Hres.
  destruct (mainSteps env (registryPrefix cfg) (serviceOf w) (enter w1))
    as [res f].
  cbn [fst snd deferred] in *.
  destruct (powerDown_script env (serviceOf w) (world f))
    as (b1 & b2 & b3 & evs & Htrace & Hobs).
  rewrite (since_app _ _ _ Htrace).
  repeat split; trivial.
  exists b1, b2, b3; exact Hobs.
Qed.

(** A run that fails in the probe sequence - one pod does not answer - and
    still ends with the three deletions. *)
Lemma teardown_on_every_exit_witness :
  let env := Scripted.cluster Scenes.deadPod in
  let w := Scripted.boot Scenes.t0 in
  fst (CheckKubernetes env Scripted.config false w) = Some errRequired
  /\ exists w2 b1 b2 b3,
       trace (snd (CheckKubernetes env Scripted.config false w))
       = trace w2
         ++ since w2 (snd (CheckKubernetes env Scripted.config false w))
       /\ observe
            (since w2 (snd (CheckKubernetes env Scripted.config false w)))
          = teardownScript (serviceOf w) b1 b2 b3.
Proof.
  cbv zeta.
  destruct (teardown_on_every_exit (Scripted.cluster Scenes.deadPod)
              Scripted.config (Scripted.boot Scenes.t0)
              (snd (preconditionStage (Scripted.cluster Scenes.deadPod)
                      Scripted.config
                      (serviceOf (Scripted.boot Scenes.t0))
                      (Scripted.boot Scenes.t0))))
    as (_ & _ & _ & Htrace & b1 & b2 & b3 & Hobs).
  - vm_compute; reflexivity.
  - split; [vm_compute; reflexivity|].
    eexists; exists b1, b2, b3; split; [exact Htrace|exact Hobs].
Defined.

(* ================================================================== *)
(** ** The readiness timeout *)

Lemma waitLoop_true_ends (env : Env) (busyboxCount nginxCount start : Z)
  (rounds : nat) (v : World) :
  fst (waitLoop env rounds start busyboxCount nginxCount v) = Some true ->
  last (trace (snd (waitLoop env rounds start busyboxCount nginxCount v)))
       (Slept 0)
  = Out (Ok "Both deployments completed successfully within timeout").
Proof.
  revert v; induction rounds as [|rounds IH]; intro v; [discriminate|].
  cbn [waitLoop]; unfold bind at 1; unfold timeSince, timeNow, gets, bind, ret.
  destruct (GoTime.Sub (clock v) start <? deploymentTimeout);
    [|discriminate].
  destruct (checkDeployments env busyboxCount nginxCount v) as [[|] v1].
  - intros _; cbn; apply last_last.
  - unfold timeSleep; apply IH.
Qed.

(** [deployTestWorkloads] returns true only out of a poll that found the
    workloads ready. *)
Lemma deployTestWorkloads_true_ends (env : Env)
  (registryURL ngServiceName : string) (v : World) :
  fst (deployTestWorkloads env registryURL ngServiceName v) = true ->
  last (trace (snd (deployTestWorkloads env registryURL ngServiceName v)))
       (Slept 0)
  = Out (Ok "Both deployments completed successfully within timeout").
Proof.
  unfold deployTestWorkloads, RunKubectl, RunGetNodes, RunPod, invoke,
    PrettyPrintOk, PrettyPrintErr, printFailureDetail, println, bind, ret.
  cbn [trace clock].
  destruct (Success (respond env (trace v) _)); cbn [negb];
    [|discriminate].
  match goal with
  | |- context [Success ?r] => destruct (Success r); cbn [negb];
                               [|discriminate]
  end.
  match goal with
  | |- context [Success ?r] => destruct (Success r); cbn [negb];
                               [|discriminate]
  end.
  unfold waitForDeployments, timeNow, gets, bind, ret.
  match goal with
  | |- context [waitLoop env ?n ?s ?b ?g ?x] =>
      pose proof (waitLoop_true_ends env b g s n x) as Hloop;
      destruct (waitLoop env n s b g x) as [[[|]|] v']
  end; cbn [fst snd] in *; try discriminate.
  intros _; apply Hloop; reflexivity.
Qed.

(** C3, as the code has it.  When the deployment stage ends in the report
    of the readiness timeout, [deployTestWorkloads] has returned false and
    [CheckKubernetes] returns "Failed to deploy test workloads" at once:
    after the report the run does nothing but the deferred teardown (the
    three deletions, or nothing at all when cleanup is skipped). *)
Theorem readiness_timeout_aborts (env : Env) (cfg : Config)
  (skipCleanup : bool) (w w1 : World)
  (Hcleared : cleared env cfg w = Some w1) :
  let dep := deployTestWorkloads env (registryPrefix cfg) (serviceOf w) w1 in
  let final := snd (CheckKubernetes env cfg skipCleanup w) in
  endsInTimeout (snd dep) ->
  fst dep = false
  /\ fst (CheckKubernetes env cfg skipCleanup w) = Some errDeploy
  /\ final = deferred env skipCleanup (serviceOf w) (snd dep)
  /\ trace final = trace (snd dep) ++ since (snd dep) final
  /\ existsb isGather (since (snd dep) final) = false
  /\ existsb isProbe (since (snd dep) final) = false
  /\ exists b1 b2 b3,
       observe (since (snd dep) final)
       = if skipCleanup then []
         else teardownScript (serviceOf w) b1 b2 b3.
Proof.
  cbv zeta; intros Hend.
  assert (Hfalse : fst (deployTestWorkloads env (registryPrefix cfg)
                          (serviceOf w) w1) = false).
  { destruct (fst (deployTestWorkloads env (registryPrefix cfg)
                     (serviceOf w) w1)) eqn:Hd; [|reflexivity].
    apply deployTestWorkloads_true_ends in Hd.
    unfold endsInTimeout, timeoutReport in Hend.
    rewrite Hd in Hend; discriminate. }
  rewrite CheckKubernetes_stages.
  unfold cleared in Hcleared.
  destruct (preconditionStage env cfg (serviceOf w) w) as [[err|] v];
    [discriminate|].
  injection Hcleared as ->.
  unfold mainSteps, bind, ret, liftW; cbn [world enter].
  destruct (deployTestWorkloads env (registryPrefix cfg) (serviceOf w) w1)
    as [d w2]; cbn [fst snd] in *; subst d; cbn [negb fst snd world set_world].
  split; [reflexivity|]; split; [reflexivity|]; split; [reflexivity|].
  destruct skipCleanup; cbn [deferred].
  - assert (Hnil : since w2 w2 = [])
      by (apply since_app; now rewrite app_nil_r).
    rewrite Hnil, app_nil_r.
    do 3 (split; [reflexivity|]).
    exists true, true, true; reflexivity.
  - destruct (powerDown_script env (serviceOf w) w2)
      as (b1 & b2 & b3 & evs & Htrace & Hobs).
    rewrite (since_app _ _ _ Htrace).
    destruct (powerDown_emits env (serviceOf w) w2) as (evs' & Htrace' & Hk).
    rewrite Htrace in Htrace'; apply app_inv_head in Htrace'; subst evs'.
    split; [exact Htrace|].
    split; [|split].
    + clear - Htrace.
      revert Htrace.
      unfold powerDown, RunKubectl, invoke, PrettyPrintOk, PrettyPrintErr,
        printFailureDetail, println, bind, ret; cbn [trace clock snd].
      repeat match goal with
             | |- context [if Success ?r then _ else _] =>
                 destruct (Success r); cbn [trace clock snd]
             end;
        repeat rewrite <- app_assoc; intros H; apply app_inv_head in H;
        subst evs; reflexivity.
    + apply Bool.not_true_is_false; intros Hex.
      apply existsb_exists in Hex; destruct Hex as (e & Hin & He).
      rewrite Forall_forall in Hk; destruct (Hk e Hin) as [_ Hnp].
      rewrite Hnp in He; discriminate.
    + exists b1, b2, b3; exact Hobs.
Qed.

(** On the cluster whose workloads never get ready the poll gives up after
    300 polls and the run ends there, with an error and the teardown. *)
Lemma readiness_timeout_aborts_witness :
  let env := Scripted.cluster Scenes.neverReady in
  let w := Scripted.boot Scenes.t0 in
  fst (CheckKubernetes env Scripted.config false w) = Some errDeploy
  /\ clock (snd (CheckKubernetes env Scripted.config false w))
     = Scenes.t0 + deploymentTimeout.
Proof.
  cbv zeta.
  destruct (readiness_timeout_aborts (Scripted.cluster Scenes.neverReady)
              Scripted.config false (Scripted.boot Scenes.t0)
              (snd (preconditionStage (Scripted.cluster Scenes.neverReady)
                      Scripted.config
                      (serviceOf (Scripted.boot Scenes.t0))
                      (Scripted.boot Scenes.t0))))
    as (_ & Hres & _).
  - vm_compute; reflexivity.
  - vm_compute; reflexivity.
  - split; [exact Hres|vm_compute; reflexivity].
Defined.

(** C3, as the specification words it, does not hold: on the cluster whose
    workloads never get ready the deployment stage ends in the timeout
    report and the run never asks for the pod addresses. *)
Lemma timeout_ends_the_run :
  ~ proceedsAfterTimeout (Scripted.cluster Scenes.neverReady)
      Scripted.config false (Scripted.boot Scenes.t0).
Proof.
  intros H.
  specialize (H (snd (preconditionStage (Scripted.cluster Scenes.neverReady)
                        Scripted.config
                        (serviceOf (Scripted.boot Scenes.t0))
                        (Scripted.boot Scenes.t0)))).
  cbv zeta in H.
  assert (Hgather : existsb isGather
    (since
       (snd (deployTestWorkloads (Scripted.cluster Scenes.neverReady)
               (registryPrefix Scripted.config)
               (serviceOf (Scripted.boot Scenes.t0))
               (snd (preconditionStage (Scripted.cluster Scenes.neverReady)
                       Scripted.config
                       (serviceOf (Scripted.boot Scenes.t0))
                       (Scripted.boot Scenes.t0)))))
       (snd (CheckKubernetes (Scripted.cluster Scenes.neverReady)
               Scripted.config false (Scripted.boot Scenes.t0)))) = false)
    by (vm_compute; reflexivity).
  rewrite H in Hgather; [discriminate| |]; vm_compute; reflexivity.
Qed.

(* ================================================================== *)
(** ** Preconditions *)


Section Preconditions.

Variable env : Env.
Variable cfg : Config.

Lemma precheckKubectl_emits : emits trace lookupFree (precheckKubectl env).
Proof.
  unfold precheckKubectl, RunKubectl, PrettyPrintErr, printFailureDetail.
  emits_walk.
Qed.

Lemma removeExisting_emits (ngServiceName : string) :
  emits trace lookupFree (removeExisting env ngServiceName).
Proof.
  unfold removeExisting, RunKubectl, PrettyPrintOk, PrettyPrintErr,
    printFailureDetail.
  emits_walk.
Qed.

Lemma precheckNamespace_emits :
  emits trace lookupFree (precheckNamespace env cfg).
Proof.
  unfold precheckNamespace, RunGetNamespace, PrettyPrintOk, PrettyPrintErr,
    printFailureDetail.
  emits_walk.
Qed.

Lemma precheckServices_emits (ngServiceName : string) :
  emits trace lookupFree (precheckServices env ngServiceName).
Proof.
  unfold precheckServices, RunGetService, PrettyPrintOk, PrettyPrintErr,
    printFailureDetail.
  emits_walk.
Qed.

(** [precheckDeployments] returns false when its lookup of the nginx
    deployment succeeds. *)
Lemma precheckDeployments_found (v : World) :
  exists evs,
    trace (snd (precheckDeployments env v)) = trace v ++ evs
    /\ forall r,
        In (Call (GetDeployment ngDeploymentName) r) evs ->
        Success r = true ->
        fst (precheckDeployments env v) = false.
Proof.
  unfold precheckDeployments, RunGetDeployment, invoke, PrettyPrintOk,
    PrettyPrintErr, printFailureDetail, println, bind, ret.
  cbn [trace clock fst snd].
  set (r1 := respond env (trace v) (GetDeployment bbDeploymentName)).
  destruct (Success r1) eqn:E1; cbn [trace clock fst snd];
    match goal with
    | |- context [respond env ?h (GetDeployment ngDeploymentName)] =>
        set (r2 := respond env h (GetDeployment ngDeploymentName))
    end;
    destruct (Success r2) eqn:E2; cbn [trace clock fst snd];
    repeat rewrite <- app_assoc;
    (eexists; split; [reflexivity|]);
    cbn [app In]; intros r Hin Hr;
    repeat match goal with
           | H : _ \/ _ |- _ => destruct H
           | H : False |- _ => destruct H
           | H : Out _ = Call _ _ |- _ => discriminate H
           | H : Call (GetDeployment bbDeploymentName) _ = Call _ _ |- _ =>
               discriminate H
           | H : Call (GetDeployment ngDeploymentName) _ = Call _ _ |- _ =>
               injection H as H
           end;
    try reflexivity; congruence.
Qed.

Lemma preconditionStage_found (ngServiceName : string) (w : World)
  (r : KubeOutput) :
  In (Call (GetDeployment ngDeploymentName) r)
     (since w (snd (preconditionStage env cfg ngServiceName w))) ->
  Success r = true ->
  fst (preconditionStage env cfg ngServiceName w) = Some errPreconditions.
Proof.
  assert (Hclean : forall evs,
             Forall lookupFree evs ->
             ~ In (Call (GetDeployment ngDeploymentName) r) evs).
  { intros evs F Hin; rewrite Forall_forall in F.
    specialize (F _ Hin); discriminate F. }
  destruct (preconditionStage env cfg ngServiceName w) as [res wf] eqn:Hrun.
  cbn [fst snd].
  unfold preconditionStage, checkPreconditions, bind, ret in Hrun.
  destruct (precheckKubectl_emits w) as (e1 & H1 & F1).
  destruct (precheckKubectl env w) as [found wa]; cbn [snd] in H1.
  destruct found; cbn [negb] in Hrun.
  2:{ injection Hrun as <- <-.
      rewrite (since_app _ _ _ H1); intros Hin _.
      now apply Hclean in Hin. }
  unfold PrettyPrintOk, println in Hrun.
  match type of Hrun with
  | context [removeExisting env ngServiceName ?x] =>
      destruct (removeExisting_emits ngServiceName x) as (e2 & H2 & F2);
      destruct (removeExisting env ngServiceName x) as [err wb]
  end; cbn [snd trace] in H2.
  destruct err as [err|].
  { injection Hrun as <- <-.
    assert (Hs : since w wb
                 = e1 ++ [Out (Ok "Kubectl configured on this node")] ++ e2)
      by (apply since_app; rewrite H2, H1, <- !app_assoc; reflexivity).
    rewrite Hs; intros Hin _.
    rewrite !in_app_iff in Hin; destruct Hin as [Hin|[Hin|Hin]].
    - now apply Hclean in Hin.
    - destruct Hin as [Hin|[]]; discriminate Hin.
    - now apply Hclean in Hin. }
  destruct (precheckNamespace_emits wb) as (e3 & H3 & F3).
  destruct (precheckNamespace env cfg wb) as [b1 wc]; cbn [snd] in H3.
  destruct (precheckServices_emits ngServiceName wc) as (e4 & H4 & F4).
  destruct (precheckServices env ngServiceName wc) as [b2 wd]; cbn [snd] in H4.
  destruct (precheckDeployments_found wd) as (e5 & H5 & Hfound).
  destruct (precheckDeployments env wd) as [b3 we]; cbn [fst snd] in *.
  assert (Hs : since w we
               = e1 ++ [Out (Ok "Kubectl configured on this node")]
                   ++ e2 ++ e3 ++ e4 ++ e5).
  { apply since_app; rewrite H5, H4, H3, H2, H1, <- !app_assoc; reflexivity. }
  assert (Hwf : wf = we) by (destruct (negb (b1 && b2 && b3)); congruence).
  subst wf; rewrite Hs; intros Hin Hr.
  rewrite !in_app_iff in Hin.
  destruct Hin as [Hin|[Hin|[Hin|[Hin|[Hin|Hin]]]]];
    try (now apply Hclean in Hin).
  - destruct Hin as [Hin|[]]; discriminate Hin.
  - rewrite (Hfound r Hin Hr), !andb_false_r in Hrun; cbn [negb] in Hrun.
    congruence.
Qed.

End Preconditions.

(** *** The first request after the precondition stage *)

Lemma startsWith_bind {S A B} (tr : S -> list Event) (Q : Event -> Prop)
  (m : M S A) (k : A -> M S B) :
  startsWith tr Q m -> (forall a, emits tr anything (k a)) ->
  startsWith tr Q (bind m k).
Proof.
  intros Hm Hk s; unfold bind.
  destruct (Hm s) as (e & rest & H1 & Qe).
  destruct (m s) as [a s1]; cbn [snd] in *.
  destruct (Hk a s1) as (e2 & H2 & _).
  exists e, (rest ++ e2); split; [|exact Qe].
  now rewrite H2, H1, <- app_assoc.
Qed.

Lemma startsWith_invoke (env : Env) (Q : Event -> Prop) (c : Cmd) :
  (forall r, Q (Call c r)) -> startsWith trace Q (invoke env c).
Proof.
  intros H w; exists (Call c (respond env (trace w) c)), []; cbn; auto.
Qed.

Lemma startsWith_liftW {A} (Q : Event -> Prop) (m : M World A) :
  startsWith trace Q m -> startsWith traceF Q (liftW m).
Proof.
  intros Hm f; destruct (Hm (world f)) as (e & rest & H & Qe).
  exists e, rest; split; [|exact Qe].
  unfold liftW, traceF; destruct (m (world f)); exact H.
Qed.

Section AfterPreconditions.

Variable env : Env.

Lemma deployTestWorkloads_starts (registryURL ngServiceName : string) :
  startsWith trace (fun e => isCreation e = true)
    (deployTestWorkloads env registryURL ngServiceName).
Proof.
  unfold deployTestWorkloads, RunKubectl at 1.
  apply startsWith_bind; [apply startsWith_invoke; reflexivity|].
  intro ko; unfold RunKubectl, RunGetNodes, RunPod, PrettyPrintOk,
              PrettyPrintErr, printFailureDetail.
  emits_walk.
  eapply emits_weaken; [|apply waitForDeployments_emits].
  intros e _; exact I.
Qed.

Lemma probeSequence_emits (ngServiceName : string) :
  emits traceF anything (probeSequence env ngServiceName).
Proof.
  unfold probeSequence, check1, check2, check3, check3At, check4, check5,
    check5At, check6, check7, execInBusybox, RunKubectl, PrettyPrintOk,
    PrettyPrintErr, PrettyPrintErrorIgnored, printFailureDetail.
  emits_walk.
Qed.

Lemma mainSteps_starts (registryURL ngServiceName : string) :
  startsWith traceF (fun e => isCreation e = true)
    (mainSteps env registryURL ngServiceName).
Proof.
  unfold mainSteps.
  apply startsWith_bind;
    [apply startsWith_liftW, deployTestWorkloads_starts|].
  intros [|]; cbn [negb]; [|apply emits_ret].
  apply emits_bind.
  - eapply emits_weaken; [|apply gatherInfo_emits]; intros e _; exact I.
  - intros _; apply emits_bind; [apply emits_gets|].
    intros [|]; cbn [negb]; [|apply emits_ret].
    apply emits_bind; [apply probeSequence_emits|].
    intros _; emits_walk.
Qed.

Lemma deferred_extends (skipCleanup : bool) (ngServiceName : string)
  (v : World) :
  exists evs,
    trace (deferred env skipCleanup ngServiceName v) = trace v ++ evs
    /\ Forall housekeeping evs.
Proof.
  destruct skipCleanup; cbn [deferred].
  - exists []; now rewrite app_nil_r.
  - apply powerDown_emits.
Qed.

End AfterPreconditions.

Lemma before_first {A} (p : A -> bool) (l1 l2 e rest : list A) (x c : A) :
  l1 ++ x :: l2 = e ++ c :: rest ->
  existsb p l1 = false -> p x = false -> p c = true ->
  In x e.
Proof.
  revert e; induction l1 as [|a l1 IH]; intros [|b e] Heq Hl1 Hx Hc;
    cbn in Heq; injection Heq as Hhead Htail; subst.
  - rewrite Hx in Hc; discriminate.
  - now left.
  - cbn in Hl1; rewrite Hc in Hl1; discriminate.
  - right; apply (IH e Htail); trivial.
    cbn in Hl1; now apply orb_false_elim in Hl1.
Qed.

Lemma housekeeping_no_creation (evs : list Event) :
  Forall housekeeping evs -> existsb isCreation evs = false.
Proof.
  intros F; apply Bool.not_true_is_false; intros Hex.
  apply existsb_exists in Hex; destruct Hex as (e & Hin & He).
  rewrite Forall_forall in F; destruct (F e Hin) as [Hc _].
  rewrite Hc in He; discriminate.
Qed.

(** C7, as the code has it.  [CheckKubernetes] first asks the cluster to
    delete what an earlier run left, and looks the workloads up only then.
    When a lookup of the probe-target deployment made before any creation
    request finds it, the run ends with "Pre-conditions failed" and issues
    no creation request at all. *)
Theorem found_target_blocks_creation (env : Env) (cfg : Config)
  (skipCleanup : bool) (w : World) (pre post : list Event) (r : KubeOutput)
  (Hrun : since w (snd (CheckKubernetes env cfg skipCleanup w))
          = pre ++ Call (GetDeployment ngDeploymentName) r :: post)
  (Hfound : Success r = true)
  (Hbefore : existsb isCreation pre = false) :
  fst (CheckKubernetes env cfg skipCleanup w) = Some errPreconditions
  /\ existsb isCreation (since w (snd (CheckKubernetes env cfg skipCleanup w)))
     = false.
Proof.
  rewrite CheckKubernetes_stages in *.
  destruct (preconditionStage_emits env cfg (serviceOf w) w)
    as (e1 & H1 & F1).
  pose proof (preconditionStage_found env cfg (serviceOf w) w r) as Hstage.
  destruct (preconditionStage env cfg (serviceOf w) w) as [[err|] w1];
    cbn [fst snd] in *.
  - rewrite (since_app _ _ _ H1) in *.
    split; [|now apply housekeeping_no_creation].
    rewrite Hstage; trivial.
    rewrite Hrun; apply in_elt.
  - exfalso.
    destruct (mainSteps_starts env (registryPrefix cfg) (serviceOf w)
                (enter w1)) as (c & rest & H2 & Hc).
    destruct (mainSteps env (registryPrefix cfg) (serviceOf w) (enter w1))
      as [res f]; cbn [fst snd] in *.
    destruct (deferred_extends env skipCleanup (serviceOf w) (world f))
      as (e3 & H3 & _).
    unfold traceF in H2; cbn [world enter] in H2.
    assert (Hall : since w (deferred env skipCleanup (serviceOf w) (world f))
                   = e1 ++ c :: (rest ++ e3)).
    { apply since_app; rewrite H3, H2, H1, <- !app_assoc; reflexivity. }
    rewrite Hall in Hrun; symmetry in Hrun.
    assert (Hin : In (Call (GetDeployment ngDeploymentName) r) e1)
      by (apply (before_first isCreation _ _ _ _ _ _ Hrun); trivial).
    rewrite <- (since_app _ _ _ H1) in Hin.
    specialize (Hstage Hin Hfound); discriminate.
Qed.

(** On the cluster that still lists the deployment after the deletion, the
    lookup of the precondition check is the ninth event of the run. *)
Lemma found_target_blocks_creation_witness :
  let env := Scripted.cluster Scenes.lingering in
  let w := Scripted.boot Scenes.t0 in
  fst (CheckKubernetes env Scripted.config false w) = Some errPreconditions
  /\ existsb isCreation
       (since w (snd (CheckKubernetes env Scripted.config false w))) = false.
Proof.
  cbv zeta.
  apply (found_target_blocks_creation (Scripted.cluster Scenes.lingering)
           Scripted.config false (Scripted.boot Scenes.t0)
           (firstn 8 (since (Scripted.boot Scenes.t0)
                        (snd (CheckKubernetes
                                (Scripted.cluster Scenes.lingering)
                                Scripted.config false
                                (Scripted.boot Scenes.t0)))))
           (skipn 9 (since (Scripted.boot Scenes.t0)
                       (snd (CheckKubernetes
                               (Scripted.cluster Scenes.lingering)
                               Scripted.config false
                               (Scripted.boot Scenes.t0)))))
           (Scripted.answer true)).
  - vm_compute; reflexivity.
  - reflexivity.
  - vm_compute; reflexivity.
Defined.

(** C7, as the specification words it, does not hold: the deployment that
    is there when the run starts is deleted by [removeExisting], the
    precondition check no longer finds it, and the run creates its
    workloads. *)
Lemma stale_target_is_removed :
  ~ staleTargetBlocksCreation (Scripted.cluster Scenes.leftover)
      Scripted.config false (Scripted.boot Scenes.t0).
Proof.
  intros H.
  assert (Hcreated : existsb isCreation
    (since (Scripted.boot Scenes.t0)
       (snd (CheckKubernetes (Scripted.cluster Scenes.leftover)
               Scripted.config false (Scripted.boot Scenes.t0)))) = true)
    by (vm_compute; reflexivity).
  rewrite H in Hcreated; [discriminate|].
  vm_compute; reflexivity.
Qed.

(* ================================================================== *)
(** ** Gathering the names and addresses *)

Section Gathering.

Variable env : Env.

Lemma last_cons_default {A} (a d : A) (l : list A) :
  last (a :: l) d = last l a.
Proof.
  revert a d; induction l as [|b l IH]; intros a d; [reflexivity|].
  change (last (a :: b :: l) d) with (last (b :: l) d).
  now rewrite !IH.
Qed.

(** A probe that sends one and the same command at every call, keeps what
    [Keep] says and reports whether what it was after is there ([Good]):
    [retry] sends the command until it is there, at most [n] times. *)
Lemma retry_fetch (probe : M Frame bool) (c : Cmd) (Keep : Frame -> Prop)
  (Good : Frame -> bool) :
  (forall g, Keep g -> Good g = false ->
     (exists r, traceF (snd (probe g)) = traceF g ++ [Call c r]
                /\ ko (snd (probe g)) = r)
     /\ Keep (snd (probe g))
     /\ fst (probe g) = Good (snd (probe g))) ->
  forall n g, Keep g -> Good g = false ->
    exists k evs,
      traceF (snd (retry n probe g)) = traceF g ++ evs
      /\ commands evs = repeat c k
      /\ (k <= n)%nat
      /\ Keep (snd (retry n probe g))
      /\ fst (retry n probe g) = Good (snd (retry n probe g))
      /\ (fst (retry n probe g) = false -> k = n)
      /\ (fst (retry n probe g) = true -> (1 <= k)%nat)
      /\ exists rs, evs = map (Call c) rs
                    /\ List.length rs = k
                    /\ ko (snd (retry n probe g)) = last rs (ko g).
Proof.
  intros Hstep; induction n as [|n IH]; intros g Hk Hg.
  - exists O, []; cbn; rewrite app_nil_r.
    repeat match goal with |- _ /\ _ => split end;
      auto; try discriminate; exists []; auto.
  - cbn [retry]; unfold bind.
    destruct (Hstep g Hk Hg) as ((r & Ht & Hko) & Hk1 & Hres).
    destruct (probe g) as [b g1]; cbn [fst snd] in *.
    destruct b.
    + exists 1%nat, [Call c r]; cbn.
      repeat match goal with |- _ /\ _ => split end;
        auto; try lia; try discriminate; exists [r]; auto.
    + destruct (IH g1 Hk1 (eq_sym Hres))
        as (k & evs & Ht2 & Hc & Hle & Hk2 & Hres2 & Hall & Hone & rs
            & Hev & Hlen & Hlast).
      exists (Datatypes.S k), (Call c r :: evs).
      split; [now rewrite Ht2, Ht, <- app_assoc|].
      split; [change (commands (Call c r :: evs)) with (c :: commands evs);
              now rewrite Hc|].
      split; [lia|]; split; [exact Hk2|]; split; [exact Hres2|].
      split; [intros H; rewrite (Hall H); reflexivity|].
      split; [intros _; lia|].
      exists (r :: rs); split; [now rewrite Hev|].
      split; [cbn [List.length]; now rewrite Hlen|].
      now rewrite last_cons_default, Hlast, Hko.
Qed.

Lemma grabPodIPs_step (s0 : bool) (ip0 name0 : string) (g : Frame) :
  let Keep := fun x : Frame =>
    success x = s0 /\ serviceIP x = ip0 /\ busyboxPodName x = name0 in
  Keep g -> usable (podIPs g) = false ->
  (exists r, traceF (snd (grabPodIPs env g))
             = traceF g ++ [Call listNginxPods r]
             /\ ko (snd (grabPodIPs env g)) = r)
  /\ Keep (snd (grabPodIPs env g))
  /\ fst (grabPodIPs env g) = usable (podIPs (snd (grabPodIPs env g))).
Proof.
  cbv zeta; intros (H1 & H2 & H3) Hbad.
  unfold grabPodIPs, liftW, RunKubectl, invoke, bind, ret, gets, modify,
    traceF.
  fold listNginxPods.
  set (r := respond env (trace (world g)) listNginxPods).
  cbn [world set_world set_ko set_podIPs podIPs trace fst snd].
  destruct (Success r); cbn [world set_world set_ko set_podIPs podIPs trace
                               fst snd success serviceIP busyboxPodName].
  - unfold usable.
    destruct (Z.of_nat (List.length (PodIPs r)) =? 0) eqn:E1;
      [|destruct (noBlank (PodIPs r)) eqn:E2];
      cbn; rewrite ?E1, ?E2; cbn; eauto 10.
  - rewrite Hbad; eauto 10.
Qed.

Lemma grabServiceIP_step (ngServiceName : string) (s0 : bool)
  (ips0 : list string) (name0 : string) (g : Frame) :
  let Keep := fun x : Frame =>
    success x = s0 /\ podIPs x = ips0 /\ busyboxPodName x = name0 in
  Keep g -> negb (isEmpty (serviceIP g)) = false ->
  (exists r, traceF (snd (grabServiceIP env ngServiceName g))
             = traceF g ++ [Call (GetService ngServiceName) r]
             /\ ko (snd (grabServiceIP env ngServiceName g)) = r)
  /\ Keep (snd (grabServiceIP env ngServiceName g))
  /\ fst (grabServiceIP env ngServiceName g)
     = negb (isEmpty (serviceIP (snd (grabServiceIP env ngServiceName g)))).
Proof.
  cbv zeta; intros (H1 & H2 & H3) Hbad.
  unfold grabServiceIP, liftW, RunGetService, invoke, bind, ret, gets,
    modify, traceF.
  set (r := respond env (trace (world g)) (GetService ngServiceName)).
  cbn [world set_world set_ko set_serviceIP serviceIP trace fst snd].
  destruct (Success r); cbn [world set_world set_ko set_serviceIP serviceIP
                               trace fst snd success podIPs busyboxPodName].
  - destruct (isEmpty (ServiceCluserIP r)) eqn:E1;
      cbn; rewrite ?E1; cbn; eauto 10.
  - rewrite Hbad; eauto 10.
Qed.

Lemma grabBusyboxPodName_step (s0 : bool) (ips0 : list string)
  (ip0 : string) (g : Frame) :
  let Keep := fun x : Frame =>
    success x = s0 /\ podIPs x = ips0 /\ serviceIP x = ip0 in
  Keep g -> negb (isEmpty (busyboxPodName g)) = false ->
  (exists r, traceF (snd (grabBusyboxPodName env g))
             = traceF g ++ [Call listBusyboxPods r]
             /\ ko (snd (grabBusyboxPodName env g)) = r)
  /\ Keep (snd (grabBusyboxPodName env g))
  /\ fst (grabBusyboxPodName env g)
     = negb (isEmpty (busyboxPodName (snd (grabBusyboxPodName env g)))).
Proof.
  cbv zeta; intros (H1 & H2 & H3) Hbad.
  unfold grabBusyboxPodName, liftW, RunKubectl, invoke, bind, ret, gets,
    modify, traceF.
  fold listBusyboxPods.
  set (r := respond env (trace (world g)) listBusyboxPods).
  cbn [world set_world set_ko set_busyboxPodName busyboxPodName trace
       fst snd].
  destruct (Success r);
    cbn [world set_world set_ko set_busyboxPodName busyboxPodName trace
         fst snd success podIPs serviceIP].
  - destruct (isEmpty (FirstPodName r)) eqn:E1;
      cbn; rewrite ?E1; cbn; eauto 10.
  - rewrite Hbad; eauto 10.
Qed.

(** The report after a fetch: a line (and a dump), and the flag. *)
Lemma reportGrab_run (ok : bool) (label : string) (g : Frame) :
  exists evs,
    traceF (snd (reportGrab ok label g)) = traceF g ++ evs
    /\ commands evs = []
    /\ success (snd (reportGrab ok label g)) = success g && ok
    /\ podIPs (snd (reportGrab ok label g)) = podIPs g
    /\ serviceIP (snd (reportGrab ok label g)) = serviceIP g
    /\ busyboxPodName (snd (reportGrab ok label g)) = busyboxPodName g
    /\ evs = if ok then [Out (Ok label)]
             else [Out (Err label); Out (Detail (CombinedOut (ko g)))].
Proof.
  unfold reportGrab, liftW, PrettyPrintOk, PrettyPrintErr,
    printFailureDetail, println, bind, ret, gets, modify, traceF.
  destruct ok; cbn; rewrite <- ?app_assoc;
    (eexists; split; [reflexivity|]);
    rewrite ?andb_true_r, ?andb_false_r; auto 10.
Qed.

Lemma last_any_default {A} (d d' : A) (l : list A) :
  l <> [] -> last l d = last l d'.
Proof.
  destruct l as [|a l]; [now intros H|intros _].
  now rewrite !last_cons_default.
Qed.

Lemma dump_default (ok : bool) (label : string) (rs : list KubeOutput)
  (d : KubeOutput) :
  (ok = false -> List.length rs = 3%nat) ->
  (if ok then [Out (Ok label)]
   else [Out (Err label); Out (Detail (CombinedOut (last rs d)))])
  = if ok then [Out (Ok label)]
    else [Out (Err label);
          Out (Detail (CombinedOut (last rs zeroKubeOutput)))].
Proof.
  destruct ok; [reflexivity|intros H].
  rewrite (last_any_default d zeroKubeOutput); [reflexivity|].
  intros ->; specialize (H eq_refl); discriminate.
Qed.

(** What the phase leaves: the requests it sent, and a flag that says
    whether everything it asked for is there. *)
Lemma gatherInfo_run (ngServiceName : string) (f0 : Frame) :
  success f0 = true ->
  usable (podIPs f0) = false ->
  isEmpty (serviceIP f0) = true ->
  isEmpty (busyboxPodName f0) = true ->
  let f := snd (gatherInfo env ngServiceName f0) in
  exists k1 k2 k3 evs,
    traceF f = traceF f0 ++ evs
    /\ commands evs = fetchScript ngServiceName k1 k2 k3
    /\ tries k1 (usable (podIPs f))
    /\ tries k2 (negb (isEmpty (serviceIP f)))
    /\ tries k3 (negb (isEmpty (busyboxPodName f)))
    /\ success f = informed f
    /\ exists rs1 rs2 rs3,
         List.length rs1 = k1 /\ List.length rs2 = k2
         /\ List.length rs3 = k3
         /\ evs = fetchEvents listNginxPods "Grab nginx pod ip addresses"
                    rs1 (usable (podIPs f))
                  ++ fetchEvents (GetService ngServiceName)
                       "Grab nginx service ip address" rs2
                       (negb (isEmpty (serviceIP f)))
                  ++ fetchEvents listBusyboxPods "Grab BusyBox pod name"
                       rs3 (negb (isEmpty (busyboxPodName f))).
Proof.
  intros Hs Hips Hip Hname; cbv zeta.
  unfold gatherInfo, bind.
  (* the pod addresses *)
  destruct (retry_fetch (grabPodIPs env) listNginxPods
              (fun x => success x = true /\ serviceIP x = serviceIP f0
                        /\ busyboxPodName x = busyboxPodName f0)
              (fun x => usable (podIPs x))
              (grabPodIPs_step true (serviceIP f0) (busyboxPodName f0))
              3 f0 (conj Hs (conj eq_refl eq_refl)) Hips)
    as (k1 & e1 & Ht1 & Hc1 & Hle1 & (Hs1 & Hip1 & Hn1) & Hok1 & Hall1
        & Hone1 & rs1 & He1 & Hl1 & Hko1).
  destruct (retry 3 (grabPodIPs env) f0) as [ok1 g1]; cbn [fst snd] in *.
  destruct (reportGrab_run ok1 "Grab nginx pod ip addresses" g1)
    as (r1 & Hr1 & Hrc1 & Hrs1 & Hrips1 & Hrip1 & Hrn1 & Hrl1).
  destruct (reportGrab ok1 "Grab nginx pod ip addresses" g1) as [[] g2];
    cbn [fst snd] in *.
  (* the address of the service *)
  destruct (retry_fetch (grabServiceIP env ngServiceName)
              (GetService ngServiceName)
              (fun x => success x = success g2 /\ podIPs x = podIPs g2
                        /\ busyboxPodName x = busyboxPodName g2)
              (fun x => negb (isEmpty (serviceIP x)))
              (grabServiceIP_step ngServiceName (success g2) (podIPs g2)
                 (busyboxPodName g2))
              3 g2 (conj eq_refl (conj eq_refl eq_refl)))
    as (k2 & e2 & Ht2 & Hc2 & Hle2 & (Hs2 & Hips2 & Hn2) & Hok2 & Hall2
        & Hone2 & rs2 & He2 & Hl2 & Hko2).
  { now rewrite Hrip1, Hip1, Hip. }
  destruct (retry 3 (grabServiceIP env ngServiceName) g2) as [ok2 g3];
    cbn [fst snd] in *.
  destruct (reportGrab_run ok2 "Grab nginx service ip address" g3)
    as (r2 & Hr2 & Hrc2 & Hrs2 & Hrips2 & Hrip2 & Hrn2 & Hrl2).
  destruct (reportGrab ok2 "Grab nginx service ip address" g3) as [[] g4];
    cbn [fst snd] in *.
  (* the name of the client pod *)
  destruct (retry_fetch (grabBusyboxPodName env) listBusyboxPods
              (fun x => success x = success g4 /\ podIPs x = podIPs g4
                        /\ serviceIP x = serviceIP g4)
              (fun x => negb (isEmpty (busyboxPodName x)))
              (grabBusyboxPodName_step (success g4) (podIPs g4)
                 (serviceIP g4))
              3 g4 (conj eq_refl (conj eq_refl eq_refl)))
    as (k3 & e3 & Ht3 & Hc3 & Hle3 & (Hs3 & Hips3 & Hip3) & Hok3 & Hall3
        & Hone3 & rs3 & He3 & Hl3 & Hko3).
  { now rewrite Hrn2, Hn2, Hrn1, Hn1, Hname. }
  destruct (retry 3 (grabBusyboxPodName env) g4) as [ok3 g5];
    cbn [fst snd] in *.
  destruct (reportGrab_run ok3 "Grab BusyBox pod name" g5)
    as (r3 & Hr3 & Hrc3 & Hrs3 & Hrips3 & Hrip3 & Hrn3 & Hrl3).
  destruct (reportGrab ok3 "Grab BusyBox pod name" g5) as [[] g6];
    cbn [fst snd] in *.
  (* what the final frame holds *)
  assert (Hips6 : podIPs g6 = podIPs g1) by congruence.
  assert (Hip6 : serviceIP g6 = serviceIP g3) by congruence.
  exists k1, k2, k3, (e1 ++ r1 ++ e2 ++ r2 ++ e3 ++ r3).
  split; [rewrite Hr3, Ht3, Hr2, Ht2, Hr1, Ht1, <- !app_assoc; reflexivity|].
  split.
  { rewrite !commands_app, Hc1, Hc2, Hc3, Hrc1, Hrc2, Hrc3.
    unfold fetchScript; cbn [app]; now rewrite !app_nil_r. }
  rewrite Hips6, Hip6, Hrn3, <- Hok1, <- Hok2, <- Hok3.
  assert (Htries : forall k ok, (k <= 3)%nat -> (ok = false -> k = 3%nat) ->
                                (ok = true -> (1 <= k)%nat) -> tries k ok).
  { intros k [|] Hle Hall Hone; split; try lia; auto; discriminate. }
  do 3 (split; [apply Htries; assumption|]).
  split.
  { unfold informed.
    rewrite Hips6, Hip6, Hrn3, <- Hok1, <- Hok2, <- Hok3.
    rewrite Hrs3, Hs3, Hrs2, Hs2, Hrs1, Hs1; reflexivity. }
  exists rs1, rs2, rs3; do 3 (split; [assumption|]).
  unfold fetchEvents; rewrite <- !app_assoc.
  rewrite He1, He2, He3, Hrl1, Hrl2, Hrl3, Hko1, Hko2, Hko3.
  rewrite (dump_default ok1 _ rs1 (ko f0)),
    (dump_default ok2 _ rs2 (ko g2)), (dump_default ok3 _ rs3 (ko g4));
    [reflexivity|..]; intros H; subst; auto.
Qed.

End Gathering.

(* ================================================================== *)
(** ** The gate *)

Lemma mainSteps_run (env : Env) (registryURL ngServiceName : string)
  (w1 : World) :
  mainSteps env registryURL ngServiceName (enter w1)
  = let (deployed, w2) :=
      deployTestWorkloads env registryURL ngServiceName w1 in
    if deployed then
      let f := snd (gatherInfo env ngServiceName (enter w2)) in
      if success f then
        let f' := snd (probeSequence env ngServiceName f) in
        (if success f' then None else Some errRequired, f')
      else (Some errGate, f)
    else (Some errDeploy, enter w2).
Proof.
  unfold mainSteps, bind, ret, gets, liftW; cbn [world enter].
  destruct (deployTestWorkloads env registryURL ngServiceName w1)
    as [[|] w2]; cbn [negb]; [|reflexivity].
  change (set_world w2 (enter w1)) with (enter w2).
  destruct (gatherInfo env ngServiceName (enter w2)) as [[] f]; cbn [snd].
  destruct (success f); cbn [negb]; [|reflexivity].
  destruct (probeSequence env ngServiceName f) as [[] f']; cbn [snd].
  destruct (success f'); reflexivity.
Qed.

(** [CheckKubernetes] seen from line 127. *)
Lemma CheckKubernetes_gathered (env : Env) (cfg : Config)
  (skipCleanup : bool) (w : World) (f : Frame) :
  gathered env cfg w = Some f ->
  CheckKubernetes env cfg skipCleanup w
  = if success f then
      let f' := snd (probeSequence env (serviceOf w) f) in
      (if success f' then None else Some errRequired,
       deferred env skipCleanup (serviceOf w) (world f'))
    else (Some errGate, deferred env skipCleanup (serviceOf w) (world f)).
Proof.
  unfold gathered, cleared; intros Hg.
  rewrite CheckKubernetes_stages.
  destruct (preconditionStage env cfg (serviceOf w) w) as [[err|] w1];
    [discriminate|].
  rewrite mainSteps_run.
  destruct (deployTestWorkloads env (registryPrefix cfg) (serviceOf w) w1)
    as [[|] w2]; [|discriminate].
  injection Hg as <-.
  cbv zeta.
  destruct (success (snd (gatherInfo env (serviceOf w) (enter w2))));
    reflexivity.
Qed.

(** What happened before line 127. *)
Lemma gathered_trace (env : Env) (cfg : Config) (w : World) (f : Frame) :
  gathered env cfg w = Some f ->
  exists before fetch k1 k2 k3,
    trace (world f) = trace w ++ before ++ fetch
    /\ Forall probeFree before
    /\ Forall probeFree fetch
    /\ commands fetch = fetchScript (serviceOf w) k1 k2 k3
    /\ tries k1 (usable (podIPs f))
    /\ tries k2 (negb (isEmpty (serviceIP f)))
    /\ tries k3 (negb (isEmpty (busyboxPodName f)))
    /\ success f = informed f.
Proof.
  unfold gathered, cleared; intros Hg.
  destruct (preconditionStage_emits env cfg (serviceOf w) w)
    as (e1 & H1 & F1).
  destruct (preconditionStage env cfg (serviceOf w) w) as [[err|] w1];
    [discriminate|]; cbn [snd] in H1.
  destruct (deployTestWorkloads_emits env (registryPrefix cfg) (serviceOf w)
              w1) as (e2 & H2 & F2).
  destruct (deployTestWorkloads env (registryPrefix cfg) (serviceOf w) w1)
    as [[|] w2]; [|discriminate]; cbn [snd] in H2.
  injection Hg as <-.
  destruct (gatherInfo_run env (serviceOf w) (enter w2))
    as (k1 & k2 & k3 & evs & Ht & Hc & T1 & T2 & T3 & Hs & _);
    try reflexivity.
  destruct (gatherInfo_emits env (serviceOf w) (enter w2))
    as (evs' & Ht' & F3).
  rewrite Ht in Ht'; apply app_inv_head in Ht'; subst evs'.
  exists (e1 ++ e2), evs, k1, k2, k3.
  unfold traceF in Ht; cbn [world enter] in Ht.
  split; [rewrite Ht, H2, H1, <- !app_assoc; reflexivity|].
  split.
  { apply Forall_app; split; [|exact F2].
    eapply Forall_impl; [|exact F1]; now intros e [_ H]. }
  split; [eapply Forall_impl; [|exact F3]; now intros e [_ H]|].
  auto 10.
Qed.

Lemma probeFree_no_probe (evs : list Event) :
  Forall probeFree evs -> existsb isProbe evs = false.
Proof.
  intros F; apply Bool.not_true_is_false; intros Hex.
  apply existsb_exists in Hex; destruct Hex as (e & Hin & He).
  rewrite Forall_forall in F; rewrite (F e Hin) in He; discriminate.
Qed.

(** The teardown that line 53 leaves to be done, seen from outside. *)
Lemma deferred_script (env : Env) (skipCleanup : bool)
  (ngServiceName : string) (v : World) :
  exists evs b1 b2 b3,
    trace (deferred env skipCleanup ngServiceName v) = trace v ++ evs
    /\ Forall probeFree evs
    /\ observe evs = if skipCleanup then []
                     else teardownScript ngServiceName b1 b2 b3.
Proof.
  destruct skipCleanup; cbn [deferred].
  - exists [], true, true, true; rewrite app_nil_r; repeat split; constructor.
  - destruct (powerDown_script env ngServiceName v)
      as (b1 & b2 & b3 & evs & Ht & Hobs).
    destruct (powerDown_emits env ngServiceName v) as (evs' & Ht' & F).
    rewrite Ht in Ht'; apply app_inv_head in Ht'; subst evs'.
    exists evs, b1, b2, b3; repeat split; trivial.
    eapply Forall_impl; [|exact F]; now intros e [_ H].
Qed.

(** The run whose gate stays shut. *)
Lemma gate_shut (env : Env) (cfg : Config) (skipCleanup : bool) (w : World)
  (f : Frame) :
  gathered env cfg w = Some f ->
  success f = false ->
  let final := snd (CheckKubernetes env cfg skipCleanup w) in
  fst (CheckKubernetes env cfg skipCleanup w) = Some errGate
  /\ final = deferred env skipCleanup (serviceOf w) (world f)
  /\ existsb isProbe (since w final) = false
  /\ exists b1 b2 b3,
       observe (since (world f) final)
       = if skipCleanup then []
         else teardownScript (serviceOf w) b1 b2 b3.
Proof.
  intros Hgathered Hshut; cbv zeta.
  destruct (gathered_trace env cfg w f Hgathered)
    as (before & fetch & k1 & k2 & k3 & Ht & Fb & Ff & _).
  rewrite (CheckKubernetes_gathered env cfg skipCleanup w f Hgathered).
  rewrite Hshut; cbn [fst snd].
  destruct (deferred_script env skipCleanup (serviceOf w) (world f))
    as (td & b1 & b2 & b3 & Htd & Ftd & Hobs).
  split; [reflexivity|]; split; [reflexivity|]; split.
  - assert (Hall : since w (deferred env skipCleanup (serviceOf w) (world f))
                   = before ++ fetch ++ td)
      by (apply since_app; rewrite Htd, Ht, <- !app_assoc; reflexivity).
    rewrite Hall; apply probeFree_no_probe.
    repeat (apply Forall_app; split); trivial.
  - exists b1, b2, b3; now rewrite (since_app _ _ _ Htd).
Qed.

(** C4.  The probe sequence is entered only with all three pieces of
    information.  Each is fetched with [retry 3]: the pod listing for the
    nginx pods, the service lookup and the pod listing for busybox are each
    sent at least once and at most three times, and three times when what
    they ask for is still missing.  The flag tested at line 128 is true
    exactly when there is a pod address and none is blank, the cluster
    address of the service is not empty and the name of the client pod is
    not empty.  When one of them is missing, [CheckKubernetes] returns
    "Failed to get required information from cluster", the whole run holds
    no [kubectl exec] and no HTTP request, and what follows the gate is the
    teardown alone (nothing when cleanup is skipped). *)
Theorem information_gate (env : Env) (cfg : Config) (skipCleanup : bool)
  (w : World) (f : Frame) (Hgathered : gathered env cfg w = Some f) :
  let final := snd (CheckKubernetes env cfg skipCleanup w) in
  success f = informed f
  /\ (exists before fetch k1 k2 k3,
        since w (world f) = before ++ fetch
        /\ existsb isProbe (before ++ fetch) = false
        /\ commands fetch = fetchScript (serviceOf w) k1 k2 k3
        /\ tries k1 (usable (podIPs f))
        /\ tries k2 (negb (isEmpty (serviceIP f)))
        /\ tries k3 (negb (isEmpty (busyboxPodName f))))
  /\ (informed f = false ->
      fst (CheckKubernetes env cfg skipCleanup w) = Some errGate
      /\ final = deferred env skipCleanup (serviceOf w) (world f)
      /\ existsb isProbe (since w final) = false
      /\ exists b1 b2 b3,
           observe (since (world f) final)
           = if skipCleanup then []
             else teardownScript (serviceOf w) b1 b2 b3).
Proof.
  cbv zeta.
  destruct (gathered_trace env cfg w f Hgathered)
    as (before & fetch & k1 & k2 & k3 & Ht & Fb & Ff & Hc & T1 & T2 & T3 & Hs).
  split; [exact Hs|]; split.
  - exists before, fetch, k1, k2, k3.
    split; [now apply since_app|].
    split; [apply probeFree_no_probe, Forall_app; now split|].
    auto.
  - intros Hmissing.
    apply (gate_shut env cfg skipCleanup w f Hgathered).
    now rewrite Hs.
Qed.

(** The busybox pod never shows up: the gate stays shut after three
    listings. *)
Lemma information_gate_witness :
  let env := Scripted.cluster Scenes.noClient in
  let w := Scripted.boot Scenes.t0 in
  fst (CheckKubernetes env Scripted.config false w) = Some errGate
  /\ existsb isProbe
       (since w (snd (CheckKubernetes env Scripted.config false w))) = false.
Proof.
  cbv zeta.
  destruct (gathered (Scripted.cluster Scenes.noClient) Scripted.config
              (Scripted.boot Scenes.t0)) as [f|] eqn:Hg;
    [|vm_compute in Hg; discriminate Hg].
  destruct (information_gate (Scripted.cluster Scenes.noClient)
              Scripted.config false (Scripted.boot Scenes.t0) f Hg)
    as (_ & _ & Hshut).
  destruct Hshut as (Hres & _ & Hquiet & _).
  - vm_compute in Hg; injection Hg as <-; reflexivity.
  - split; assumption.
Defined.

(* ================================================================== *)
(** ** The probe sequence *)

Section Probes.

Variable env : Env.

Lemma sameKeys_refl (f : Frame) : sameKeys f f.
Proof. repeat split. Qed.

Lemma sameKeys_trans (f g h : Frame) :
  sameKeys f g -> sameKeys g h -> sameKeys f h.
Proof. unfold sameKeys; intuition congruence. Qed.

(** One [kubectl exec] in the client pod. *)
Lemma execInBusybox_run (args : list string) (g : Frame) :
  let c := execCmd (busyboxPodName g) args in
  let r := respond env (traceF g) c in
  fst (execInBusybox env args g) = Success r
  /\ traceF (snd (execInBusybox env args g)) = traceF g ++ [Call c r]
  /\ sameLocals g (snd (execInBusybox env args g)).
Proof. cbv zeta; repeat split. Qed.

(** The attempts of a check that is retried. *)
Lemma retry_exec (probe : M Frame bool) (args : list string) (f : Frame) :
  (forall g, sameLocals f g -> probe g = execInBusybox env args g) ->
  forall n g, sameLocals f g ->
    exists o evs,
      within n o
      /\ fst (retry n probe g) = passed o
      /\ traceF (snd (retry n probe g)) = traceF g ++ evs
      /\ observe evs = attempts (execCmd (busyboxPodName f) args) n o
      /\ sameLocals f (snd (retry n probe g)).
Proof.
  intros Hprobe; induction n as [|n IH]; intros g Hg.
  - exists None, []; cbn; rewrite app_nil_r; auto.
  - cbn [retry]; unfold bind; rewrite (Hprobe g Hg).
    destruct (execInBusybox_run args g) as (Hres & Ht & Hl).
    destruct (execInBusybox env args g) as [b g1]; cbn [fst snd] in *.
    assert (Hg1 : sameLocals f g1).
    { destruct Hg as (? & ? & ? & ?), Hl as (? & ? & ? & ?).
      repeat split; congruence. }
    assert (Hpod : busyboxPodName g = busyboxPodName f) by apply Hg.
    rewrite Hpod in Ht, Hres.
    set (c := execCmd (busyboxPodName f) args) in *.
    set (r := respond env (traceF g) c) in *.
    destruct b; unfold ret.
    + exists (Some O), [Call c r].
      cbn [within passed fst snd attempts repeat app observe flat_map stepOf].
      rewrite <- Hres.
      split; [lia|]; split; [reflexivity|]; split; [exact Ht|].
      split; [reflexivity|exact Hg1].
    + destruct (IH g1 Hg1) as (o & evs & Hw & Hp & Ht1 & Hobs & Hl1).
      exists (option_map Datatypes.S o), (Call c r :: evs).
      split; [destruct o; cbn in *; trivial; lia|].
      split; [destruct o; exact Hp|].
      split; [rewrite Ht1, Ht, <- app_assoc; reflexivity|].
      split; [|exact Hl1].
      change (observe (Call c r :: evs))
        with (stepOf (Call c r) ++ observe evs).
      cbn [stepOf app]; rewrite <- Hres, Hobs.
      destruct o; reflexivity.
Qed.

(** A required check: the attempts, then the report. *)
Lemma required_run (probe : M Frame bool) (args : list string) (n : nat)
  (label : string) (report : bool -> M Frame unit) (f : Frame) :
  (forall g, sameLocals f g -> probe g = execInBusybox env args g) ->
  (forall ok g, sameLocals f g ->
     exists evs,
       traceF (snd (report ok g)) = traceF g ++ evs
       /\ observe evs = [Said (verdict ok label)]
       /\ success (snd (report ok g)) = success g && ok
       /\ sameKeys g (snd (report ok g))) ->
  exists o evs,
    within n o
    /\ traceF (snd (bind (retry n probe) report f)) = traceF f ++ evs
    /\ observe evs
       = required (execCmd (busyboxPodName f) args) n o label
    /\ success (snd (bind (retry n probe) report f))
       = success f && passed o
    /\ sameKeys f (snd (bind (retry n probe) report f)).
Proof.
  intros Hprobe Hreport; unfold bind.
  destruct (retry_exec probe args f Hprobe n f)
    as (o & e1 & Hw & Hp & Ht1 & Hobs1 & Hl1);
    [repeat split|].
  destruct (retry n probe f) as [ok g1]; cbn [fst snd] in *.
  destruct (Hreport ok g1 Hl1) as (e2 & Ht2 & Hobs2 & Hs2 & Hk2).
  exists o, (e1 ++ e2).
  split; [exact Hw|].
  split; [rewrite Ht2, Ht1, <- app_assoc; reflexivity|].
  split; [rewrite observe_app, Hobs1, Hobs2, Hp; reflexivity|].
  split; [rewrite Hs2, Hp; f_equal; apply Hl1|].
  eapply sameKeys_trans; [apply Hl1|exact Hk2].
Qed.

(** The two shapes of the report of a required check. *)
Ltac report_run :=
  intros ok g _;
  unfold liftW, PrettyPrintOk, PrettyPrintErr, printFailureDetail, println,
    bind, ret, gets, modify, traceF;
  destruct ok; cbn; rewrite <- ?app_assoc;
  (eexists; split; [reflexivity|]);
  rewrite ?andb_true_r, ?andb_false_r; repeat split.

Lemma check1_run (f : Frame) :
  exists o evs,
    within 3 o
    /\ traceF (snd (check1 env f)) = traceF f ++ evs
    /\ observe evs
       = required (wgetCmd (busyboxPodName f) (serviceIP f)) 3 o
           ("Accessed Nginx service at " +++ serviceIP f +++ " from BusyBox")
    /\ success (snd (check1 env f)) = success f && passed o
    /\ sameKeys f (snd (check1 env f)).
Proof.
  unfold check1, wgetCmd.
  apply required_run.
  - intros g (_ & _ & Hip & _); unfold bind at 1, gets at 1.
    now rewrite Hip.
  - intros ok g (_ & _ & Hip & _).
    unfold liftW, PrettyPrintOk, PrettyPrintErr, printFailureDetail, println,
      bind, ret, gets, modify, traceF.
    rewrite Hip.
    destruct ok; cbn; rewrite <- ?app_assoc;
      (eexists; split; [reflexivity|]);
      rewrite ?andb_true_r, ?andb_false_r; repeat split.
Qed.

Lemma check2_run (ngServiceName : string) (f : Frame) :
  exists o evs,
    within 6 o
    /\ traceF (snd (check2 env ngServiceName f)) = traceF f ++ evs
    /\ observe evs
       = required (wgetCmd (busyboxPodName f) ngServiceName) 6 o
           ("Accessed Nginx service via DNS " +++ ngServiceName
            +++ " from BusyBox")
    /\ success (snd (check2 env ngServiceName f)) = success f && passed o
    /\ sameKeys f (snd (check2 env ngServiceName f)).
Proof.
  unfold check2, wgetCmd.
  apply required_run; [reflexivity|report_run].
Qed.

Lemma check3At_run (podIP : string) (f : Frame) :
  exists o evs,
    within 3 o
    /\ traceF (snd (check3At env podIP f)) = traceF f ++ evs
    /\ observe evs = check3Script (busyboxPodName f) (podIP, o)
    /\ success (snd (check3At env podIP f)) = success f && passed o
    /\ sameKeys f (snd (check3At env podIP f)).
Proof.
  unfold check3At, check3Script, wgetCmd; cbn [fst snd].
  apply required_run; [reflexivity|report_run].
Qed.

Lemma check7_run (f : Frame) :
  exists o evs,
    within 3 o
    /\ traceF (snd (check7 env f)) = traceF f ++ evs
    /\ observe evs
       = required (pingCmd (busyboxPodName f)) 3 o
           "Ping kubernetes service from BusyBox"
    /\ success (snd (check7 env f)) = success f && passed o
    /\ sameKeys f (snd (check7 env f)).
Proof.
  unfold check7, pingCmd.
  apply required_run; [reflexivity|report_run].
Qed.

(** Check 3 goes through all the pod addresses, whatever each gives. *)
Lemma check3_loop (ips : list string) :
  forall g,
    exists os evs,
      List.length os = List.length ips
      /\ Forall (within 3) os
      /\ traceF (snd (forRange ips (check3At env) g)) = traceF g ++ evs
      /\ observe evs
         = flat_map (check3Script (busyboxPodName g)) (combine ips os)
      /\ success (snd (forRange ips (check3At env) g))
         = success g && forallb passed os
      /\ sameKeys g (snd (forRange ips (check3At env) g)).
Proof.
  induction ips as [|ip ips IH]; intro g.
  - exists [], []; cbn; rewrite app_nil_r, andb_true_r.
    repeat split; constructor.
  - cbn [forRange]; unfold bind.
    destruct (check3At_run ip g) as (o & e1 & Hw & Ht1 & Hobs1 & Hs1 & Hk1).
    destruct (check3At env ip g) as [[] g1]; cbn [fst snd] in *.
    destruct (IH g1) as (os & e2 & Hlen & Hall & Ht2 & Hobs2 & Hs2 & Hk2).
    exists (o :: os), (e1 ++ e2).
    split; [cbn; now rewrite Hlen|].
    split; [now constructor|].
    split; [rewrite Ht2, Ht1, <- app_assoc; reflexivity|].
    split.
    { rewrite observe_app, Hobs1, Hobs2.
      destruct Hk1 as (_ & _ & Hpod); rewrite Hpod; reflexivity. }
    split; [rewrite Hs2, Hs1, <- andb_assoc; reflexivity|].
    eapply sameKeys_trans; eassumption.
Qed.

Lemma check3_run (f : Frame) :
  exists os evs,
    List.length os = List.length (podIPs f)
    /\ Forall (within 3) os
    /\ traceF (snd (check3 env f)) = traceF f ++ evs
    /\ observe evs
       = flat_map (check3Script (busyboxPodName f)) (combine (podIPs f) os)
    /\ success (snd (check3 env f)) = success f && forallb passed os
    /\ sameKeys f (snd (check3 env f)).
Proof. unfold check3, bind, gets; apply check3_loop. Qed.

(** Check 4: one attempt, and a verdict that does not touch the flag. *)
Lemma check4_run (f : Frame) :
  exists r,
    traceF (snd (check4 env f))
    = traceF f
      ++ [Call (wgetCmd (busyboxPodName f) "Google.com") r;
          Out (tolerated (isEmpty (busyboxPodName f) || Success r)
                 "Accessed Google.com from BusyBox")]
    /\ success (snd (check4 env f)) = success f
    /\ sameKeys f (snd (check4 env f)).
Proof.
  unfold check4, liftW, RunKubectl, invoke, PrettyPrintOk,
    PrettyPrintErrorIgnored, println, bind, ret, gets, traceF.
  cbn [world set_world trace clock fst snd busyboxPodName].
  fold (wgetCmd (busyboxPodName f) "Google.com").
  set (r := respond env (trace (world f)) _).
  exists r.
  destruct (isEmpty (busyboxPodName f) || Success r);
    cbn; rewrite <- app_assoc; repeat split.
Qed.

Lemma check5At_run (podIP : string) (g : Frame) :
  exists ok,
    traceF (snd (check5At env podIP g))
    = traceF g
      ++ [Http ("http://" +++ podIP) ok;
          Out (tolerated ok
                 ("Accessed Nginx pod at " +++ podIP +++ " from this node"))]
    /\ success (snd (check5At env podIP g)) = success g
    /\ sameKeys g (snd (check5At env podIP g)).
Proof.
  unfold check5At, liftW, clientGet, PrettyPrintOk, PrettyPrintErrorIgnored,
    println, bind, ret, traceF.
  cbn [world set_world trace clock fst snd].
  set (ok := httpGet env (trace (world g)) _).
  exists ok.
  destruct ok; cbn; rewrite <- app_assoc; repeat split.
Qed.

Lemma check5_loop (ips : list string) :
  forall g,
    exists oks evs,
      List.length oks = List.length ips
      /\ traceF (snd (forRange ips (check5At env) g)) = traceF g ++ evs
      /\ observe evs = flat_map check5Script (combine ips oks)
      /\ success (snd (forRange ips (check5At env) g)) = success g
      /\ sameKeys g (snd (forRange ips (check5At env) g)).
Proof.
  induction ips as [|ip ips IH]; intro g.
  - exists [], []; cbn; rewrite app_nil_r; repeat split.
  - cbn [forRange]; unfold bind.
    destruct (check5At_run ip g) as (ok & Ht1 & Hs1 & Hk1).
    destruct (check5At env ip g) as [[] g1]; cbn [fst snd] in *.
    destruct (IH g1) as (oks & e2 & Hlen & Ht2 & Hobs2 & Hs2 & Hk2).
    exists (ok :: oks); eexists.
    split; [cbn; now rewrite Hlen|].
    split; [rewrite Ht2, Ht1, <- app_assoc; reflexivity|].
    split; [rewrite observe_app, Hobs2; destruct ok; reflexivity|].
    split; [congruence|].
    eapply sameKeys_trans; eassumption.
Qed.

Lemma check5_run (f : Frame) :
  exists oks evs,
    List.length oks = List.length (podIPs f)
    /\ traceF (snd (check5 env f)) = traceF f ++ evs
    /\ observe evs = flat_map check5Script (combine (podIPs f) oks)
    /\ success (snd (check5 env f)) = success f
    /\ sameKeys f (snd (check5 env f)).
Proof. unfold check5, bind, gets; apply check5_loop. Qed.

Lemma check6_run (f : Frame) :
  exists ok,
    traceF (snd (check6 env f))
    = traceF f
      ++ [Http "http://google.com/" ok;
          Out (tolerated ok "Accessed Google.com from this node")]
    /\ success (snd (check6 env f)) = success f
    /\ sameKeys f (snd (check6 env f)).
Proof.
  unfold check6, liftW, clientGet, PrettyPrintOk, PrettyPrintErrorIgnored,
    println, bind, ret, traceF.
  cbn [world set_world trace clock fst snd].
  set (ok := httpGet env (trace (world f)) _).
  exists ok.
  destruct ok; cbn; rewrite <- app_assoc; repeat split.
Qed.

(** The whole sequence: every check is run, in order, whatever the earlier
    ones gave; the flag is lowered by the required checks alone. *)
Lemma probeSequence_script (ngServiceName : string) (f : Frame) :
  exists o evs,
    wellFormed (podIPs f) o
    /\ traceF (snd (probeSequence env ngServiceName f)) = traceF f ++ evs
    /\ observe evs
       = probeScript ngServiceName (busyboxPodName f) (serviceIP f)
           (podIPs f) o
    /\ success (snd (probeSequence env ngServiceName f))
       = success f && requiredPass o
    /\ sameKeys f (snd (probeSequence env ngServiceName f)).
Proof.
  unfold probeSequence, bind.
  destruct (check1_run f) as (o1 & e1 & W1 & T1 & O1 & S1 & K1).
  destruct (check1 env f) as [[] g1]; cbn [fst snd] in *.
  destruct (check2_run ngServiceName g1) as (o2 & e2 & W2 & T2 & O2 & S2 & K2).
  destruct (check2 env ngServiceName g1) as [[] g2]; cbn [fst snd] in *.
  destruct (check3_run g2) as (o3 & e3 & L3 & W3 & T3 & O3 & S3 & K3).
  destruct (check3 env g2) as [[] g3]; cbn [fst snd] in *.
  destruct (check4_run g3) as (r4 & T4 & S4 & K4).
  destruct (check4 env g3) as [[] g4]; cbn [fst snd] in *.
  destruct (check5_run g4) as (o5 & e5 & L5 & T5 & O5 & S5 & K5).
  destruct (check5 env g4) as [[] g5]; cbn [fst snd] in *.
  destruct (check6_run g5) as (ok6 & T6 & S6 & K6).
  destruct (check6 env g5) as [[] g6]; cbn [fst snd] in *.
  destruct (check7_run g6) as (o7 & e7 & W7 & T7 & O7 & S7 & K7).
  destruct (check7 env g6) as [[] g7]; cbn [fst snd] in *.
  pose proof (sameKeys_trans _ _ _ K1 K2) as K12.
  pose proof (sameKeys_trans _ _ _ K12 K3) as K13.
  pose proof (sameKeys_trans _ _ _ K13 K4) as K14.
  pose proof (sameKeys_trans _ _ _ K14 K5) as K15.
  pose proof (sameKeys_trans _ _ _ K15 K6) as K16.
  pose proof (sameKeys_trans _ _ _ K16 K7) as K17.
  destruct K1 as (I1 & P1 & N1), K12 as (I2 & P2 & N2),
    K13 as (I3 & P3 & N3), K14 as (I4 & P4 & N4), K15 as (I5 & P5 & N5),
    K16 as (I6 & P6 & N6).
  exists (mkOutcomes o1 o2 o3 (Success r4) o5 ok6 o7); eexists.
  split.
  { unfold wellFormed; cbn.
    rewrite L3, L5, I2, I4; auto 10. }
  split.
  { rewrite T7, T6, T5, T4, T3, T2, T1, <- !app_assoc; reflexivity. }
  split.
  { rewrite !observe_app, O1, O2, O3, O5, O7.
    unfold probeScript; cbn [byClusterIP byDNS byPodIP egressFromPod
                              podsFromHost egressFromHost pingAPI].
    rewrite N1, N2, N3, N6, I2, I4.
    destruct (isEmpty (busyboxPodName f) || Success r4), ok6; reflexivity. }
  split; [|exact K17].
  unfold requiredPass; cbn.
  rewrite S7, S6, S5, S4, S3, S2, S1, <- !andb_assoc; reflexivity.
Qed.

End Probes.

(* ================================================================== *)
(** ** The verdict *)

Lemma atGate_gathered (env : Env) (cfg : Config) (w : World) (f : Frame) :
  atGate env cfg w = Some f ->
  gathered env cfg w = Some f /\ success f = true.
Proof.
  unfold atGate.
  destruct (gathered env cfg w) as [g|]; [|discriminate].
  destruct (success g) eqn:Hs; [|discriminate].
  intros [= <-]; auto.
Qed.

(** [CheckKubernetes] seen from line 132. *)
Lemma CheckKubernetes_atGate (env : Env) (cfg : Config) (skipCleanup : bool)
  (w : World) (f : Frame) :
  atGate env cfg w = Some f ->
  exists o evs,
    wellFormed (podIPs f) o
    /\ trace (world (snd (probeSequence env (serviceOf w) f)))
       = trace (world f) ++ evs
    /\ observe evs
       = probeScript (serviceOf w) (busyboxPodName f) (serviceIP f)
           (podIPs f) o
    /\ sameKeys f (snd (probeSequence env (serviceOf w) f))
    /\ CheckKubernetes env cfg skipCleanup w
       = (if requiredPass o then None else Some errRequired,
          deferred env skipCleanup (serviceOf w)
            (world (snd (probeSequence env (serviceOf w) f)))).
Proof.
  intros Hgate; destruct (atGate_gathered env cfg w f Hgate) as [Hg Hs].
  destruct (probeSequence_script env (serviceOf w) f)
    as (o & evs & Hw & Ht & Hobs & Hsucc & Hk).
  exists o, evs.
  do 4 (split; [assumption|]).
  rewrite (CheckKubernetes_gathered env cfg skipCleanup w f Hg), Hs.
  cbv zeta; rewrite Hsucc, Hs; reflexivity.
Qed.

Lemma forallb_passed (os : list (option nat)) :
  forallb passed os = true <-> Forall (fun o => passed o = true) os.
Proof. rewrite forallb_forall, Forall_forall; reflexivity. Qed.

(** C1.  In a run that gets through the gate, every one of the seven checks
    is run and reports its verdict; [CheckKubernetes] returns nil exactly
    when check 1, check 2, check 3 for every pod address and check 7 passed,
    and "One or more required steps failed" otherwise.  What checks 4, 5 and
    6 gave does not enter the result: they report a failure as ignored and
    leave the flag alone. *)
Theorem aggregate_result (env : Env) (cfg : Config) (skipCleanup : bool)
  (w : World) (f : Frame) (Hgate : atGate env cfg w = Some f) :
  let f' := snd (probeSequence env (serviceOf w) f) in
  let result := fst (CheckKubernetes env cfg skipCleanup w) in
  exists o,
    wellFormed (podIPs f) o
    /\ observe (since (world f) (world f'))
       = probeScript (serviceOf w) (busyboxPodName f) (serviceIP f)
           (podIPs f) o
    /\ snd (CheckKubernetes env cfg skipCleanup w)
       = deferred env skipCleanup (serviceOf w) (world f')
    /\ result = (if requiredPass o then None else Some errRequired)
    /\ (result = None <->
        passed (byClusterIP o) = true
        /\ passed (byDNS o) = true
        /\ Forall (fun r => passed r = true) (byPodIP o)
        /\ passed (pingAPI o) = true).
Proof.
  cbv zeta.
  destruct (CheckKubernetes_atGate env cfg skipCleanup w f Hgate)
    as (o & evs & Hw & Ht & Hobs & _ & Hrun).
  exists o; rewrite Hrun, (since_app _ _ _ Ht); cbn [fst snd].
  do 4 (split; [trivial|]).
  split; [intros H; repeat split|].
  - unfold requiredPass in H.
    destruct (passed (byClusterIP o)); [reflexivity|discriminate].
  - unfold requiredPass in H.
    destruct (passed (byClusterIP o)), (passed (byDNS o));
      try reflexivity; discriminate.
  - apply forallb_passed.
    unfold requiredPass in H.
    destruct (passed (byClusterIP o)), (passed (byDNS o)),
      (forallb passed (byPodIP o)); try reflexivity; discriminate.
  - unfold requiredPass in H.
    destruct (passed (byClusterIP o)), (passed (byDNS o)),
      (forallb passed (byPodIP o)), (passed (pingAPI o));
      try reflexivity; discriminate.
  - intros (H1 & H2 & H3 & H7).
    apply forallb_passed in H3.
    unfold requiredPass; now rewrite H1, H2, H3, H7.
Qed.

(** The cluster without a way out: checks 4, 5 and 6 fail, the required
    checks pass and the run succeeds. *)
Lemma aggregate_result_witness :
  let env := Scripted.cluster Scenes.walled in
  let w := Scripted.boot Scenes.t0 in
  fst (CheckKubernetes env Scripted.config false w) = None
  /\ In (Out (ErrIgnored "Accessed Google.com from BusyBox"))
        (trace (snd (CheckKubernetes env Scripted.config false w)))
  /\ exists o, requiredPass o = true /\ wellFormed Scripted.nginxIPs o.
Proof.
  cbv zeta.
  assert (Hnil : fst (CheckKubernetes (Scripted.cluster Scenes.walled)
                        Scripted.config false (Scripted.boot Scenes.t0))
                 = None) by (vm_compute; reflexivity).
  split; [exact Hnil|].
  split; [vm_compute; tauto|].
  destruct (atGate (Scripted.cluster Scenes.walled) Scripted.config
              (Scripted.boot Scenes.t0)) as [f|] eqn:Hg;
    [|vm_compute in Hg; discriminate Hg].
  destruct (aggregate_result (Scripted.cluster Scenes.walled)
              Scripted.config false (Scripted.boot Scenes.t0) f Hg)
    as (o & Hw & _ & _ & Hres & _).
  exists o; split.
  - rewrite Hnil in Hres; destruct (requiredPass o);
      [reflexivity|discriminate Hres].
  - vm_compute in Hg; injection Hg as <-; exact Hw.
Defined.

(* ================================================================== *)
(** ** Check 3 *)

Lemma attempts_length (c : Cmd) (n : nat) (o : option nat) :
  within n o -> (1 <= n)%nat ->
  (1 <= List.length (attempts c n o) <= n)%nat.
Proof.
  destruct o as [j|]; cbn [within attempts]; intros Hw Hn.
  - rewrite length_app, repeat_length; cbn; lia.
  - rewrite repeat_length; lia.
Qed.

Lemma attempts_command (c : Cmd) (n : nat) (o : option nat) :
  Forall (fun s => exists ok, s = Ran c ok) (attempts c n o).
Proof.
  destruct o as [j|]; cbn [attempts].
  - apply Forall_app; split.
    + apply Forall_forall; intros s Hs; apply repeat_spec in Hs; eauto.
    + constructor; eauto.
  - apply Forall_forall; intros s Hs; apply repeat_spec in Hs; eauto.
Qed.

Lemma combine_fst {A B} (l : list A) (l' : list B) :
  List.length l' = List.length l -> map fst (combine l l') = l.
Proof.
  revert l'; induction l as [|a l IH]; intros [|b l'] Hlen;
    try discriminate; [reflexivity|].
  cbn; f_equal; apply IH; now injection Hlen.
Qed.

Lemma failed_somewhere (os : list (option nat)) :
  In None os -> forallb passed os = false.
Proof.
  intros Hin; apply Bool.not_true_is_false; intros Hall.
  rewrite forallb_forall in Hall; specialize (Hall None Hin); discriminate.
Qed.

(** C5.  In a run that gets through the gate, check 3 takes the pod
    addresses one by one, in the order of the list: for each of them
    between one and three [wget] attempts from the client pod and then its
    verdict, whatever the other addresses gave.  Check 7 comes after all of
    them, with at least one ping.  When the check fails for one address,
    [CheckKubernetes] returns "One or more required steps failed". *)
Theorem pod_checks_continue (env : Env) (cfg : Config) (skipCleanup : bool)
  (w : World) (f : Frame) (Hgate : atGate env cfg w = Some f) :
  let f' := snd (probeSequence env (serviceOf w) f) in
  let pod := busyboxPodName f in
  exists o head middle,
    wellFormed (podIPs f) o
    /\ observe (since (world f) (world f'))
       = head
         ++ flat_map (check3Script pod) (combine (podIPs f) (byPodIP o))
         ++ middle
         ++ required (pingCmd pod) 3 (pingAPI o)
              "Ping kubernetes service from BusyBox"
    /\ map fst (combine (podIPs f) (byPodIP o)) = podIPs f
    /\ (forall x, In x (combine (podIPs f) (byPodIP o)) ->
        check3Script pod x
        = attempts (wgetCmd pod (fst x)) 3 (snd x)
          ++ [Said (verdict (passed (snd x))
                      ("Accessed Nginx pod at " +++ fst x
                       +++ " from BusyBox"))]
        /\ (1 <= List.length (attempts (wgetCmd pod (fst x)) 3 (snd x))
            <= 3)%nat
        /\ Forall (fun s => exists ok, s = Ran (wgetCmd pod (fst x)) ok)
             (attempts (wgetCmd pod (fst x)) 3 (snd x)))
    /\ (1 <= List.length (attempts (pingCmd pod) 3 (pingAPI o)) <= 3)%nat
    /\ (In None (byPodIP o) ->
        fst (CheckKubernetes env cfg skipCleanup w) = Some errRequired).
Proof.
  cbv zeta.
  destruct (CheckKubernetes_atGate env cfg skipCleanup w f Hgate)
    as (o & evs & Hw & Ht & Hobs & _ & Hrun).
  destruct Hw as (W1 & W2 & L3 & W3 & L5 & W7).
  exists o,
    (required (wgetCmd (busyboxPodName f) (serviceIP f)) 3 (byClusterIP o)
       ("Accessed Nginx service at " +++ serviceIP f +++ " from BusyBox")
     ++ required (wgetCmd (busyboxPodName f) (serviceOf w)) 6 (byDNS o)
          ("Accessed Nginx service via DNS " +++ serviceOf w
           +++ " from BusyBox")),
    ([Ran (wgetCmd (busyboxPodName f) "Google.com") (egressFromPod o);
      Said (tolerated (isEmpty (busyboxPodName f) || egressFromPod o)
              "Accessed Google.com from BusyBox")]
     ++ flat_map check5Script (combine (podIPs f) (podsFromHost o))
     ++ [Fetched "http://google.com/" (egressFromHost o);
         Said (tolerated (egressFromHost o)
                 "Accessed Google.com from this node")]).
  split; [repeat split; assumption|].
  split.
  { rewrite (since_app _ _ _ Ht), Hobs; unfold probeScript.
    rewrite <- !app_assoc; reflexivity. }
  split; [now apply combine_fst|].
  split.
  { intros [ip r] Hin; cbn [fst snd].
    split; [reflexivity|].
    assert (Hr : within 3 r).
    { rewrite Forall_forall in W3; apply W3.
      now apply in_combine_r in Hin. }
    split; [apply attempts_length; [exact Hr|lia]|apply attempts_command]. }
  split; [apply attempts_length; [exact W7|lia]|].
  intros Hfail; rewrite Hrun; cbn [fst].
  unfold requiredPass; rewrite (failed_somewhere _ Hfail).
  now rewrite andb_false_r.
Qed.

(** Three pods, the second of which does not answer: the other two are
    reached, the ping is made, and the run fails. *)
Lemma pod_checks_continue_witness :
  let env := Scripted.cluster Scenes.deadPod in
  let w := Scripted.boot Scenes.t0 in
  let final := snd (CheckKubernetes env Scripted.config false w) in
  fst (CheckKubernetes env Scripted.config false w) = Some errRequired
  /\ commands
       (filter (fun e => match e with
                         | Call (Kubectl ("exec" :: _)) r => Success r
                         | _ => false
                         end) (trace final))
     = [wgetCmd Scripted.clientPod Scripted.clusterIP;
        wgetCmd Scripted.clientPod (serviceOf w);
        wgetCmd Scripted.clientPod "10.0.0.1";
        wgetCmd Scripted.clientPod "10.0.0.3";
        pingCmd Scripted.clientPod]
  /\ exists o, List.length (byPodIP o) = 3%nat.
Proof.
  cbv zeta.
  split; [vm_compute; reflexivity|].
  split; [vm_compute; reflexivity|].
  destruct (atGate (Scripted.cluster Scenes.deadPod) Scripted.config
              (Scripted.boot Scenes.t0)) as [f|] eqn:Hg;
    [|vm_compute in Hg; discriminate Hg].
  destruct (pod_checks_continue (Scripted.cluster Scenes.deadPod)
              Scripted.config false (Scripted.boot Scenes.t0) f Hg)
    as (o & _ & _ & (_ & _ & Hlen & _) & _).
  exists o; rewrite Hlen.
  vm_compute in Hg; injection Hg as <-; reflexivity.
Defined.

(* ================================================================== *)
(** ** What the checks run with *)

Lemma isEmpty_false (s : string) : isEmpty s = false -> s <> "".
Proof. destruct s; [discriminate|intros _; discriminate]. Qed.

Lemma noBlank_Forall (ips : list string) :
  noBlank ips = true -> Forall (fun ip => ip <> "") ips.
Proof.
  induction ips as [|ip ips IH]; cbn [noBlank]; intros H; [constructor|].
  destruct (isEmpty ip) eqn:E; [discriminate|].
  constructor; [now apply isEmpty_false|auto].
Qed.

Lemma usable_spec (ips : list string) :
  usable ips = true -> ips <> [] /\ Forall (fun ip => ip <> "") ips.
Proof.
  unfold usable; intros H; apply andb_prop in H; destruct H as [Hlen Hnb].
  split; [|now apply noBlank_Forall].
  intros ->; discriminate.
Qed.

(** No check runs in a run that does not get through the gate. *)
Lemma probes_only_past_gate (env : Env) (cfg : Config) (skipCleanup : bool)
  (w : World) :
  atGate env cfg w = None ->
  existsb isProbe (since w (snd (CheckKubernetes env cfg skipCleanup w)))
  = false.
Proof.
  unfold atGate.
  destruct (gathered env cfg w) as [f|] eqn:Hg.
  - destruct (success f) eqn:Hs; [discriminate|]; intros _.
    apply (gate_shut env cfg skipCleanup w f Hg Hs).
  - intros _; revert Hg; unfold gathered, cleared.
    rewrite CheckKubernetes_stages.
    destruct (preconditionStage_emits env cfg (serviceOf w) w)
      as (e1 & H1 & F1).
    assert (Q1 : Forall probeFree e1)
      by (eapply Forall_impl; [|exact F1]; now intros e [_ H]).
    destruct (preconditionStage env cfg (serviceOf w) w) as [[err|] w1];
      cbn [snd] in *.
    + intros _; rewrite (since_app _ _ _ H1).
      now apply probeFree_no_probe.
    + rewrite mainSteps_run.
      destruct (deployTestWorkloads_emits env (registryPrefix cfg)
                  (serviceOf w) w1) as (e2 & H2 & F2).
      destruct (deployTestWorkloads env (registryPrefix cfg) (serviceOf w) w1)
        as [[|] w2]; [discriminate|]; intros _; cbn [fst snd world enter] in *.
      destruct (deferred_script env skipCleanup (serviceOf w) w2)
        as (td & b1 & b2 & b3 & Htd & Ftd & _).
      assert (Hall : since w (deferred env skipCleanup (serviceOf w) w2)
                     = e1 ++ e2 ++ td)
        by (apply since_app; rewrite Htd, H2, H1, <- !app_assoc; reflexivity).
      rewrite Hall; apply probeFree_no_probe.
      repeat (apply Forall_app; split); trivial.
Qed.

(** C10.  A run that does not reach the probe sequence sends no
    [kubectl exec] and no HTTP request.  A run that reaches it does so with
    at least one pod address, no blank pod address, a service address and a
    client pod name that are not empty; the checks leave the three as they
    are, and all their requests are made with them.  The verdict of check 4
    is the answer of its [wget]: the alternative [busyboxPodName == ""] of
    line 177 never holds when the line is reached. *)
Theorem probes_run_informed (env : Env) (cfg : Config) (skipCleanup : bool)
  (w : World) :
  let final := snd (CheckKubernetes env cfg skipCleanup w) in
  (atGate env cfg w = None -> existsb isProbe (since w final) = false)
  /\ forall f,
      atGate env cfg w = Some f ->
      let f' := snd (probeSequence env (serviceOf w) f) in
      podIPs f <> []
      /\ Forall (fun ip => ip <> "") (podIPs f)
      /\ serviceIP f <> ""
      /\ busyboxPodName f <> ""
      /\ sameKeys f f'
      /\ final = deferred env skipCleanup (serviceOf w) (world f')
      /\ exists o,
           observe (since (world f) (world f'))
           = probeScript (serviceOf w) (busyboxPodName f) (serviceIP f)
               (podIPs f) o
           /\ isEmpty (busyboxPodName f) || egressFromPod o
              = egressFromPod o.
Proof.
  cbv zeta; split; [apply probes_only_past_gate|].
  intros f Hgate.
  destruct (atGate_gathered env cfg w f Hgate) as [Hg Hs].
  destruct (gathered_trace env cfg w f Hg)
    as (before & fetch & k1 & k2 & k3 & H).
  destruct H as (_ & _ & _ & _ & _ & _ & _ & Hinf).
  rewrite Hs in Hinf; symmetry in Hinf; unfold informed in Hinf.
  apply andb_prop in Hinf; destruct Hinf as [Hinf Hname].
  apply andb_prop in Hinf; destruct Hinf as [Hips Hip].
  apply negb_true_iff in Hname, Hip.
  destruct (usable_spec _ Hips) as [Hne Hnb].
  destruct (CheckKubernetes_atGate env cfg skipCleanup w f Hgate)
    as (o & evs & _ & Ht & Hobs & Hk & Hrun).
  split; [exact Hne|]; split; [exact Hnb|].
  split; [now apply isEmpty_false|]; split; [now apply isEmpty_false|].
  split; [exact Hk|]; split; [now rewrite Hrun|].
  exists o; rewrite (since_app _ _ _ Ht), Hname; auto.
Qed.

(** The healthy cluster: the probes run with the three addresses and the
    pod name the cluster gave. *)
Lemma probes_run_informed_witness :
  let env := Scripted.cluster Scripted.healthy in
  let w := Scripted.boot Scenes.t0 in
  exists f,
    atGate env Scripted.config w = Some f
    /\ podIPs f = Scripted.nginxIPs
    /\ busyboxPodName f <> ""
    /\ serviceIP f <> "".
Proof.
  cbv zeta.
  destruct (atGate (Scripted.cluster Scripted.healthy) Scripted.config
              (Scripted.boot Scenes.t0)) as [f|] eqn:Hg;
    [|vm_compute in Hg; discriminate Hg].
  destruct (probes_run_informed (Scripted.cluster Scripted.healthy)
              Scripted.config false (Scripted.boot Scenes.t0))
    as (_ & Hinformed).
  destruct (Hinformed f Hg) as (_ & _ & Hip & Hname & _).
  exists f; repeat split; trivial.
  vm_compute in Hg; injection Hg as <-; reflexivity.
Defined.

(* ================================================================== *)
(** * Further properties *)

(** ** The precondition stage, step by step *)

Section PreconditionSteps.

Variable env : Env.
Variable cfg : Config.

Lemma precheckKubectl_stepped (w : World) :
  stepped (fst (precheckKubectl env w)) [versionCmd] w
    (snd (precheckKubectl env w)).
Proof.
  unfold stepped, precheckKubectl, RunKubectl, invoke, PrettyPrintErr,
    printFailureDetail, println, bind, ret.
  cbn [trace clock fst snd].
  destruct (Success (respond env (trace w) (Kubectl ["version"]))) eqn:E;
    cbn [negb trace clock fst snd]; rewrite <- ?app_assoc;
    (eexists; split; [reflexivity|]); cbn; rewrite E; auto.
Qed.

Lemma removeExisting_stepped (ngServiceName : string) (w : World) :
  stepped (match fst (removeExisting env ngServiceName w) with
           | None => true
           | Some _ => false
           end)
    [removeCmd ngServiceName] w (snd (removeExisting env ngServiceName w))
  /\ (forall err, fst (removeExisting env ngServiceName w) = Some err ->
                  err = errRemoveExisting).
Proof.
  unfold stepped, removeExisting, RunKubectl, invoke, PrettyPrintOk,
    PrettyPrintErr, printFailureDetail, println, bind, ret.
  fold (removeCmd ngServiceName).
  cbn [trace clock fst snd].
  destruct (Success (respond env (trace w) (removeCmd ngServiceName))) eqn:E;
    cbn [negb trace clock fst snd]; rewrite <- ?app_assoc;
    (split; [eexists; split; [reflexivity|]; cbn; rewrite E; auto|]);
    intros err [= <-]; reflexivity.
Qed.

Lemma precheckNamespace_stepped (w : World) :
  stepped (fst (precheckNamespace env cfg w))
    (if isEmpty (Namespace cfg) then [] else [GetNamespace (Namespace cfg)])
    w (snd (precheckNamespace env cfg w)).
Proof.
  unfold stepped, precheckNamespace, RunGetNamespace, invoke, PrettyPrintOk,
    PrettyPrintErr, printFailureDetail, println, bind, ret.
  destruct (isEmpty (Namespace cfg)); cbn [negb trace clock fst snd].
  - exists []; rewrite app_nil_r; auto.
  - destruct (Success (respond env (trace w) _)) eqn:E;
      cbn [negb trace clock fst snd];
      [destruct (String.eqb (NamespaceStatus (respond env (trace w) _))
                   "Active") eqn:E2; cbn [negb trace clock fst snd]|];
      rewrite <- ?app_assoc;
      (eexists; split; [reflexivity|]); cbn; rewrite E, ?E2; auto.
Qed.

Lemma precheckServices_stepped (ngServiceName : string) (w : World) :
  stepped (fst (precheckServices env ngServiceName w))
    [GetService ngServiceName] w (snd (precheckServices env ngServiceName w)).
Proof.
  unfold stepped, precheckServices, RunGetService, invoke, PrettyPrintOk,
    PrettyPrintErr, printFailureDetail, println, bind, ret.
  cbn [trace clock fst snd].
  destruct (Success (respond env (trace w) (GetService ngServiceName))) eqn:E;
    cbn [negb trace clock fst snd]; rewrite <- ?app_assoc;
    (eexists; split; [reflexivity|]); cbn; rewrite E; auto.
Qed.

Lemma precheckDeployments_stepped (w : World) :
  stepped (fst (precheckDeployments env w))
    [GetDeployment bbDeploymentName; GetDeployment ngDeploymentName] w
    (snd (precheckDeployments env w)).
Proof.
  unfold stepped, precheckDeployments, RunGetDeployment, invoke,
    PrettyPrintOk, PrettyPrintErr, printFailureDetail, println, bind, ret.
  cbn [trace clock fst snd].
  set (r1 := respond env (trace w) (GetDeployment bbDeploymentName)).
  destruct (Success r1) eqn:E1; cbn [trace clock fst snd];
    match goal with
    | |- context [respond env ?h (GetDeployment ngDeploymentName)] =>
        set (r2 := respond env h (GetDeployment ngDeploymentName))
    end;
    destruct (Success r2) eqn:E2; cbn [trace clock fst snd];
    rewrite <- ?app_assoc;
    (eexists; split; [reflexivity|]); cbn; rewrite ?E1, ?E2; auto.
Qed.

Lemma stepped_chain (ok1 ok2 : bool) (cs1 cs2 : list Cmd) (w w1 w2 : World) :
  stepped ok1 cs1 w w1 -> stepped ok2 cs2 w1 w2 ->
  stepped (ok1 && ok2) (cs1 ++ cs2) w w2.
Proof.
  intros (e1 & T1 & C1 & A1 & B1) (e2 & T2 & C2 & A2 & B2).
  exists (e1 ++ e2).
  split; [rewrite T2, T1, <- app_assoc; reflexivity|].
  split; [rewrite commands_app; congruence|].
  rewrite forallb_app, existsb_app, negb_orb; split; congruence.
Qed.

Lemma println_stepped (msg : string) (w : World) :
  stepped true [] w (snd (PrettyPrintOk msg w)).
Proof. exists [Out (Ok msg)]; cbn; auto. Qed.

Lemma checkPreconditions_stepped (ngServiceName : string) (w : World) :
  stepped (fst (checkPreconditions env cfg ngServiceName w))
    (lookups cfg ngServiceName) w
    (snd (checkPreconditions env cfg ngServiceName w)).
Proof.
  unfold checkPreconditions, bind, ret, lookups.
  pose proof (precheckNamespace_stepped w) as H1.
  destruct (precheckNamespace env cfg w) as [b1 w1]; cbn [fst snd] in *.
  pose proof (precheckServices_stepped ngServiceName w1) as H2.
  destruct (precheckServices env ngServiceName w1) as [b2 w2];
    cbn [fst snd] in *.
  pose proof (precheckDeployments_stepped w2) as H3.
  destruct (precheckDeployments env w2) as [b3 w3]; cbn [fst snd] in *.
  pose proof (stepped_chain _ _ _ _ _ _ _ H1
                (stepped_chain _ _ _ _ _ _ _ H2 H3)) as H.
  now rewrite andb_assoc in H.
Qed.

(** The stage as a whole, by the place where it ends. *)
Lemma preconditionStage_stepped (ngServiceName : string) (w : World) :
  let e := fst (preconditionStage env cfg ngServiceName w) in
  let w1 := snd (preconditionStage env cfg ngServiceName w) in
  (e = Some errKubectl /\ stepped false [versionCmd] w w1)
  \/ (e = Some errRemoveExisting
      /\ stepped false [versionCmd; removeCmd ngServiceName] w w1)
  \/ (e = Some errPreconditions
      /\ stepped false
           (versionCmd :: removeCmd ngServiceName
            :: lookups cfg ngServiceName) w w1)
  \/ (e = None
      /\ stepped true
           (versionCmd :: removeCmd ngServiceName
            :: lookups cfg ngServiceName) w w1).
Proof.
  cbv zeta; unfold preconditionStage, bind, ret.
  pose proof (precheckKubectl_stepped w) as H1.
  destruct (precheckKubectl env w) as [[|] wa]; cbn [fst snd negb] in *;
    [|left; auto].
  pose proof (println_stepped "Kubectl configured on this node" wa) as Hp.
  destruct (PrettyPrintOk "Kubectl configured on this node" wa) as [[] wb];
    cbn [fst snd] in *.
  destruct (removeExisting_stepped ngServiceName wb) as [H2 Herr].
  destruct (removeExisting env ngServiceName wb) as [[err|] wc];
    cbn [fst snd] in *.
  - right; left; rewrite (Herr err eq_refl); split; [reflexivity|].
    exact (stepped_chain _ _ _ _ _ _ _ H1
             (stepped_chain _ _ _ _ _ _ _ Hp H2)).
  - pose proof (checkPreconditions_stepped ngServiceName wc) as H3.
    destruct (checkPreconditions env cfg ngServiceName wc) as [ok wd];
      cbn [fst snd] in *.
    pose proof (stepped_chain _ _ _ _ _ _ _ H1
                  (stepped_chain _ _ _ _ _ _ _ Hp
                     (stepped_chain _ _ _ _ _ _ _ H2 H3))) as H.
    cbn [andb app] in H.
    destruct ok; cbn [negb fst snd]; auto.
Qed.

End PreconditionSteps.

(** The stage written out up to the lookups: what the first two commands
    answer decides how far it goes. *)
Lemma preconditionStage_run (env : Env) (cfg : Config)
  (ngServiceName : string) (w : World) :
  preconditionStage env cfg ngServiceName w
  = let r1 := respond env (trace w) versionCmd in
    let c1 := clock w + Z.of_N (latency env (trace w) versionCmd) in
    if Success r1 then
      let h := trace w ++ [Call versionCmd r1;
                           Out (Ok "Kubectl configured on this node")] in
      let r2 := respond env h (removeCmd ngServiceName) in
      let c2 := c1 + Z.of_N (latency env h (removeCmd ngServiceName)) in
      if Success r2 then
        let (ok, wd) :=
          checkPreconditions env cfg ngServiceName
            (mkWorld
               (h ++ [Call (removeCmd ngServiceName) r2;
                      Out (Ok "Delete existing deployments if they exist")])
               c2) in
        (if ok then None else Some errPreconditions, wd)
      else
        (Some errRemoveExisting,
         mkWorld
           (h ++ [Call (removeCmd ngServiceName) r2;
                  Out (Err "Delete existing deployments if they exist");
                  Out (Detail (CombinedOut r2))])
           c2)
    else
      (Some errKubectl,
       mkWorld
         (trace w ++ [Call versionCmd r1;
                      Out (Err "Configured kubectl exists");
                      Out (Detail (CombinedOut r1))])
         c1).
Proof.
  cbv zeta.
  unfold preconditionStage, precheckKubectl, removeExisting, RunKubectl,
    invoke, PrettyPrintOk, PrettyPrintErr, printFailureDetail, println,
    bind, ret.
  fold versionCmd; fold (removeCmd ngServiceName).
  cbn [trace clock fst snd].
  destruct (Success (respond env (trace w) versionCmd));
    cbn [negb trace clock fst snd]; rewrite <- ?app_assoc; cbn [app];
    [|reflexivity].
  destruct (Success (respond env _ (removeCmd ngServiceName)));
    cbn [negb trace clock fst snd]; rewrite <- ?app_assoc; cbn [app];
    [|reflexivity].
  destruct (checkPreconditions env cfg ngServiceName _) as [[|] wd];
    reflexivity.
Qed.

(** X1.  The precondition stage sends [kubectl version], then the deletion
    of what an earlier run may have left, then its lookups: the namespace
    when one is configured, the service, the busybox deployment and the
    nginx deployment.  It stops after a failed [kubectl version], with the
    error of line 37 and nothing else sent, and after a failed deletion,
    with the error of [removeExisting] and no lookup made; when both
    succeed the lookups are all made, whatever the earlier ones found, and
    the result is nil or "Pre-conditions failed".  It lets the run through
    exactly when every answer was welcome - the two commands succeeded, the
    namespace is there and active, the service and the two deployments are
    not - and exactly when it reported no failure. *)
Theorem preconditionStage_script (env : Env) (cfg : Config)
  (ngServiceName : string) (w : World) :
  let e := fst (preconditionStage env cfg ngServiceName w) in
  let w1 := snd (preconditionStage env cfg ngServiceName w) in
  let r1 := respond env (trace w) versionCmd in
  let h := trace w ++ [Call versionCmd r1;
                       Out (Ok "Kubectl configured on this node")] in
  let r2 := respond env h (removeCmd ngServiceName) in
  trace w1 = trace w ++ since w w1
  /\ (e = None <-> forallb welcome (since w w1) = true)
  /\ (e = None <-> existsb isErrLine (since w w1) = false)
  /\ ((e = Some errKubectl /\ commands (since w w1) = [versionCmd])
      \/ (e = Some errRemoveExisting
          /\ commands (since w w1) = [versionCmd; removeCmd ngServiceName])
      \/ ((e = Some errPreconditions \/ e = None)
          /\ commands (since w w1)
             = versionCmd :: removeCmd ngServiceName
               :: lookups cfg ngServiceName))
  /\ (exists rest, since w w1 = Call versionCmd r1 :: rest)
  /\ (if Success r1 then
        (exists rest,
            since w w1
            = Call versionCmd r1 :: Out (Ok "Kubectl configured on this node")
              :: Call (removeCmd ngServiceName) r2 :: rest)
        /\ (if Success r2 then
              (e = None \/ e = Some errPreconditions)
              /\ commands (since w w1)
                 = versionCmd :: removeCmd ngServiceName
                   :: lookups cfg ngServiceName
            else
              e = Some errRemoveExisting
              /\ commands (since w w1)
                 = [versionCmd; removeCmd ngServiceName])
      else
        e = Some errKubectl /\ commands (since w w1) = [versionCmd]).
Proof.
  cbv zeta.
  assert (Hold :
    let e := fst (preconditionStage env cfg ngServiceName w) in
    let w1 := snd (preconditionStage env cfg ngServiceName w) in
    trace w1 = trace w ++ since w w1
    /\ (e = None <-> forallb welcome (since w w1) = true)
    /\ (e = None <-> existsb isErrLine (since w w1) = false)
    /\ ((e = Some errKubectl /\ commands (since w w1) = [versionCmd])
        \/ (e = Some errRemoveExisting
            /\ commands (since w w1)
               = [versionCmd; removeCmd ngServiceName])
        \/ ((e = Some errPreconditions \/ e = None)
            /\ commands (since w w1)
               = versionCmd :: removeCmd ngServiceName
                 :: lookups cfg ngServiceName))).
  { cbv zeta.
    destruct (preconditionStage_stepped env cfg ngServiceName w)
      as [[He H]|[[He H]|[[He H]|[He H]]]];
      destruct H as (evs & T & C & A & B);
      rewrite (since_app _ _ _ T), He, C, <- A;
      apply (f_equal negb) in B; rewrite negb_involutive in B; cbn in B;
      rewrite <- B;
      (split; [exact T|]);
      (split; [split; [discriminate || reflexivity
                      | discriminate || reflexivity]|]);
      (split; [split; [discriminate || reflexivity
                      | discriminate || reflexivity]|]);
      auto 6. }
  cbv zeta in Hold; destruct Hold as (H1 & H2 & H3 & H4).
  do 4 (split; [assumption|]); clear H1 H2 H3 H4.
  rewrite preconditionStage_run; cbv zeta.
  set (r1 := respond env (trace w) versionCmd).
  destruct (Success r1); cbn [fst snd].
  - set (h := trace w ++ [Call versionCmd r1;
                          Out (Ok "Kubectl configured on this node")]).
    set (r2 := respond env h (removeCmd ngServiceName)).
    destruct (Success r2); cbn [fst snd].
    + match goal with
      | |- context [checkPreconditions env cfg ngServiceName ?v] =>
          pose proof (checkPreconditions_stepped env cfg ngServiceName v)
            as (evs & T & C & _);
          destruct (checkPreconditions env cfg ngServiceName v) as [ok wd]
      end.
      cbn [fst snd trace] in *.
      assert (Hs : since w wd
                   = Call versionCmd r1
                     :: Out (Ok "Kubectl configured on this node")
                     :: Call (removeCmd ngServiceName) r2
                     :: Out (Ok "Delete existing deployments if they exist")
                     :: evs).
      { apply since_app; rewrite T; unfold h.
        rewrite <- !app_assoc; reflexivity. }
      rewrite Hs.
      split; [eexists; reflexivity|].
      split; [eexists; reflexivity|].
      split; [destruct ok; auto|].
      cbn [commands flat_map commandOf app].
      fold (commands evs); rewrite C; reflexivity.
    + rewrite (since_app w _
                 [Call versionCmd r1;
                  Out (Ok "Kubectl configured on this node");
                  Call (removeCmd ngServiceName) r2;
                  Out (Err "Delete existing deployments if they exist");
                  Out (Detail (CombinedOut r2))])
        by (cbn [trace]; unfold h; rewrite <- !app_assoc; reflexivity).
      split; [eexists; reflexivity|].
      split; [eexists; reflexivity|].
      split; reflexivity.
  - rewrite (since_app w _
               [Call versionCmd r1; Out (Err "Configured kubectl exists");
                Out (Detail (CombinedOut r1))]) by reflexivity.
    split; [eexists; reflexivity|].
    split; reflexivity.
Qed.

Lemma housekeeping_quiet (evs : list Event) :
  Forall housekeeping evs ->
  existsb isCreation evs = false /\ existsb isProbe evs = false.
Proof.
  intros F; split; [now apply housekeeping_no_creation|].
  apply probeFree_no_probe; eapply Forall_impl; [|exact F].
  now intros e [_ H].
Qed.

(** X2.  When the precondition stage does not let the run through,
    [CheckKubernetes] returns the error of the stage - one of "Kubectl must
    be configured ...", "Failure removing existing kuberang deployments",
    "Pre-conditions failed" - and stops in the world the stage left, also
    when cleanup is not skipped: line 53 has not been reached, nothing was
    created or probed, and none of the three deletions of [powerDown] is
    sent. *)
Theorem precondition_failure_is_final (env : Env) (cfg : Config)
  (skipCleanup : bool) (w : World) (Hshut : cleared env cfg w = None) :
  let stage := preconditionStage env cfg (serviceOf w) w in
  let evs := since w (snd (CheckKubernetes env cfg skipCleanup w)) in
  CheckKubernetes env cfg skipCleanup w = stage
  /\ In (fst stage)
        [Some errKubectl; Some errRemoveExisting; Some errPreconditions]
  /\ existsb isCreation evs = false
  /\ existsb isProbe evs = false
  /\ ~ In (Kubectl ["delete"; "service"; serviceOf w]) (commands evs)
  /\ ~ In (Kubectl ["delete"; "deployments"; bbDeploymentName])
          (commands evs)
  /\ ~ In (Kubectl ["delete"; "deployments"; ngDeploymentName])
          (commands evs).
Proof.
  cbv zeta; rewrite CheckKubernetes_stages.
  unfold cleared in Hshut.
  destruct (preconditionStage_emits env cfg (serviceOf w) w)
    as (e1 & T1 & F1).
  pose proof (preconditionStage_stepped env cfg (serviceOf w) w) as Hs.
  cbv zeta in Hs.
  destruct (preconditionStage env cfg (serviceOf w) w) as [[err|] w1];
    [|discriminate]; cbn [fst snd] in *.
  rewrite (since_app _ _ _ T1) in *.
  destruct (housekeeping_quiet e1 F1) as [Hc Hp].
  split; [reflexivity|].
  assert (Hcmds : forall c, In c (commands e1) ->
            c = versionCmd \/ c = removeCmd (serviceOf w)
            \/ In c (lookups cfg (serviceOf w))).
  { intros c Hin.
    destruct Hs as [[_ Hs]|[[_ Hs]|[[_ Hs]|[_ Hs]]]];
      destruct Hs as (evs & T & C & _);
      rewrite T1 in T; apply app_inv_head in T; subst evs;
      rewrite C in Hin; cbn [In] in Hin; intuition. }
  assert (Hnot : forall c, In c (lookups cfg (serviceOf w)) ->
            match c with Kubectl _ => False | _ => True end).
  { unfold lookups; intros c Hin.
    destruct (isEmpty (Namespace cfg)); cbn in Hin;
      intuition; subst; exact I. }
  split.
  { destruct Hs as [[He _]|[[He _]|[[He _]|[He _]]]];
      rewrite He; cbn; auto; discriminate. }
  do 2 (split; [assumption|]).
  repeat split; intros Hin; apply Hcmds in Hin;
    destruct Hin as [Hin|[Hin|Hin]];
    try discriminate Hin; apply Hnot in Hin; exact Hin.
Qed.

(** The cluster that still lists the nginx deployment: the run ends with
    the lookups, and sends none of the deletions of the teardown. *)
Lemma precondition_failure_is_final_witness :
  let env := Scripted.cluster Scenes.lingering in
  let w := Scripted.boot Scenes.t0 in
  CheckKubernetes env Scripted.config false w
  = preconditionStage env Scripted.config (serviceOf w) w
  /\ ~ In (Kubectl ["delete"; "deployments"; ngDeploymentName])
          (commands (since w (snd (CheckKubernetes env Scripted.config
                                     false w)))).
Proof.
  cbv zeta.
  destruct (precondition_failure_is_final
              (Scripted.cluster Scenes.lingering) Scripted.config false
              (Scripted.boot Scenes.t0))
    as (Hrun & _ & _ & _ & _ & _ & Hng).
  - vm_compute; reflexivity.
  - split; assumption.
Defined.

(* ================================================================== *)
(** ** Skipping the cleanup *)

Section Keeping.

Variable env : Env.

Lemma waitForDeployments_keeping (busyboxCount nginxCount : Z) :
  emits trace keeping (waitForDeployments env busyboxCount nginxCount).
Proof.
  unfold waitForDeployments.
  apply emits_bind; [apply emits_gets|intro start].
  apply emits_bind; [|intro; apply emits_ret].
  induction waitRounds as [|n IH]; cbn [waitLoop]; [apply emits_ret|].
  unfold timeSince, timeNow, checkDeployments, RunGetDeployment,
    PrettyPrintOk, PrettyPrintErr.
  emits_walk; exact IH.
Qed.

Lemma mainSteps_keeping (registryURL ngServiceName : string) :
  emits traceF keeping (mainSteps env registryURL ngServiceName).
Proof.
  unfold mainSteps.
  apply emits_bind.
  { apply emits_liftW.
    unfold deployTestWorkloads, RunKubectl, RunGetNodes, RunPod,
      PrettyPrintOk, PrettyPrintErr, printFailureDetail.
    emits_walk; apply waitForDeployments_keeping. }
  intros [|]; cbn [negb]; [|apply emits_ret].
  unfold gatherInfo, grabPodIPs, grabServiceIP, grabBusyboxPodName,
    reportGrab, probeSequence, check1, check2, check3, check3At, check4,
    check5, check5At, check6, check7, execInBusybox, RunKubectl,
    RunGetService, PrettyPrintOk, PrettyPrintErr, PrettyPrintErrorIgnored,
    printFailureDetail.
  emits_walk.
Qed.

End Keeping.

Lemma commands_filter_deletions (evs : list Event) :
  commands (filter isDeletion evs) = filter isDeleteCmd (commands evs).
Proof.
  induction evs as [|e evs IH]; [reflexivity|].
  destruct e as [c r| | |]; cbn [filter isDeletion]; try exact IH.
  change (commands (Call c r :: evs)) with (c :: commands evs).
  cbn [filter]; destruct (isDeleteCmd c); [|exact IH].
  change (commands (Call c r :: filter isDeletion evs))
    with (c :: commands (filter isDeletion evs)).
  now rewrite IH.
Qed.

Lemma keeping_no_deletion (evs : list Event) :
  Forall keeping evs -> filter isDeletion evs = [].
Proof.
  induction 1 as [|e evs He _ IH]; [reflexivity|].
  cbn [filter]; now rewrite He.
Qed.

(** X3.  With [skipCleanup] set, a run that gets through the precondition
    stage returns what the rest of the body returns and ends where the body
    ends: the only deletion it ever sends is the one of [removeExisting] at
    its start, and whatever it created is left on the cluster. *)
Theorem skipped_cleanup_deletes_nothing (env : Env) (cfg : Config)
  (w w1 : World) (Hcleared : cleared env cfg w = Some w1) :
  let body := mainSteps env (registryPrefix cfg) (serviceOf w) (enter w1) in
  let final := snd (CheckKubernetes env cfg true w) in
  CheckKubernetes env cfg true w = (fst body, world (snd body))
  /\ filter isDeletion (since w1 final) = []
  /\ commands (filter isDeletion (since w final)) = [removeCmd (serviceOf w)].
Proof.
  cbv zeta; rewrite CheckKubernetes_stages.
  unfold cleared in Hcleared.
  pose proof (preconditionStage_stepped env cfg (serviceOf w) w) as Hs.
  cbv zeta in Hs.
  destruct (preconditionStage env cfg (serviceOf w) w) as [[err|] v];
    [discriminate|]; injection Hcleared as ->; cbn [fst snd] in Hs.
  destruct Hs as [[He _]|[[He _]|[[He _]|[_ Hs]]]]; try discriminate He.
  destruct Hs as (e1 & T1 & C1 & _).
  destruct (mainSteps_keeping env (registryPrefix cfg) (serviceOf w)
              (enter w1)) as (e2 & T2 & F2).
  destruct (mainSteps env (registryPrefix cfg) (serviceOf w) (enter w1))
    as [res f]; cbn [fst snd deferred] in *.
  unfold traceF in T2; cbn [world enter] in T2.
  split; [reflexivity|].
  rewrite (since_app _ _ _ T2).
  assert (Hall : since w (world f) = e1 ++ e2)
    by (apply since_app; rewrite T2, T1, <- app_assoc; reflexivity).
  rewrite Hall, filter_app, (keeping_no_deletion e2 F2), app_nil_r.
  split; [reflexivity|].
  rewrite commands_filter_deletions, C1; unfold lookups.
  destruct (isEmpty (Namespace cfg)); reflexivity.
Qed.

(** The healthy cluster with the cleanup skipped: the run succeeds and
    leaves its workloads behind. *)
Lemma skipped_cleanup_deletes_nothing_witness :
  let env := Scripted.cluster Scripted.healthy in
  let w := Scripted.boot Scenes.t0 in
  fst (CheckKubernetes env Scripted.config true w) = None
  /\ commands (filter isDeletion
                 (since w (snd (CheckKubernetes env Scripted.config true w))))
     = [removeCmd (serviceOf w)].
Proof.
  cbv zeta.
  destruct (skipped_cleanup_deletes_nothing
              (Scripted.cluster Scripted.healthy) Scripted.config
              (Scripted.boot Scenes.t0)
              (snd (preconditionStage (Scripted.cluster Scripted.healthy)
                      Scripted.config
                      (serviceOf (Scripted.boot Scenes.t0))
                      (Scripted.boot Scenes.t0))))
    as (_ & _ & Honly).
  - vm_compute; reflexivity.
  - split; [vm_compute; reflexivity|exact Honly].
Defined.

(* ================================================================== *)
(** ** The deployment stage *)

Section Deployment.

Variable env : Env.

(** The requests of the stage, up to the first that is turned down. *)
Lemma deployTestWorkloads_requests (registryURL ngServiceName : string)
  (v : World) :
  let run := deployTestWorkloads env registryURL ngServiceName v in
  exists upTo rn reqs,
    observe reqs = requestScript registryURL ngServiceName upTo rn
    /\ (upTo <= 3)%nat
    /\ ((1 <= upTo)%nat -> In (Call GetNodes rn) reqs)
    /\ ((upTo < 3)%nat ->
        fst run = false /\ trace (snd run) = trace v ++ reqs)
    /\ (upTo = 3%nat ->
        exists vq,
          trace vq = trace v ++ reqs
          /\ run = waitForDeployments env 1 (NodeCount rn) vq).
Proof.
  cbv zeta.
  unfold deployTestWorkloads, RunKubectl, RunGetNodes, RunPod, invoke,
    PrettyPrintOk, PrettyPrintErr, printFailureDetail, println, bind, ret.
  fold (runBusyboxCmd registryURL) (exposeCmd ngServiceName).
  cbn [trace clock fst snd].
  set (r1 := respond env (trace v) (runBusyboxCmd registryURL)).
  destruct (Success r1) eqn:E1; cbn [negb trace clock fst snd].
  2:{ exists O, r1; eexists; rewrite <- ?app_assoc.
      split; [|split; [lia|split; [lia|split; [intros _; split; reflexivity
                                              |discriminate]]]].
      cbn; now rewrite E1. }
  match goal with
  | |- context [respond env ?h GetNodes] => set (rn := respond env h GetNodes)
  end.
  match goal with
  | |- context [respond env ?h (StartPod ?a ?b ?c)] =>
      fold (runNginxCmd registryURL (NodeCount rn));
      set (r2 := respond env h (runNginxCmd registryURL (NodeCount rn)))
  end.
  destruct (Success r2) eqn:E2; cbn [negb trace clock fst snd].
  2:{ exists 1%nat, rn; eexists; rewrite <- ?app_assoc.
      split; [|split; [lia|split; [|split; [intros _; split; reflexivity
                                           |discriminate]]]].
      - cbn; now rewrite E1, E2.
      - intros _; cbn; auto. }
  match goal with
  | |- context [respond env ?h (exposeCmd ngServiceName)] =>
      set (r3 := respond env h (exposeCmd ngServiceName))
  end.
  destruct (Success r3) eqn:E3; cbn [negb trace clock fst snd].
  2:{ exists 2%nat, rn; eexists; rewrite <- ?app_assoc.
      split; [|split; [lia|split; [|split; [intros _; split; reflexivity
                                           |discriminate]]]].
      - cbn; now rewrite E1, E2, E3.
      - intros _; cbn; auto. }
  exists 3%nat, rn; eexists.
  split; [|split; [lia|split; [|split; [lia|]]]].
  3:{ intros _; eexists; split; [|reflexivity].
      cbn [trace]; rewrite <- ?app_assoc; reflexivity. }
  - cbn; now rewrite E1, E2, E3.
  - intros _; cbn; auto.
Qed.

(** The loop of the poll, whatever the calls answer and however long they
    take: after [m] seconds it makes at most [300 - m] polls, sleeps a
    second after every poll that did not end it, and says yes only with
    the answers of its last poll. *)
Lemma waitLoop_shape (busyboxCount nginxCount start : Z) :
  forall (rounds m : nat) (w : World),
    start <= clock w ->
    (m <= 300)%nat ->
    Z.of_nat m * GoTime.Second <= clock w - start ->
    let run := waitLoop env rounds start busyboxCount nginxCount w in
    let yes := match fst run with Some true => true | _ => false end in
    exists k evs,
      trace (snd run) = trace w ++ evs
      /\ commands evs = polls k
      /\ (yes = false -> (k + m <= 300)%nat)
      /\ (yes = true -> (1 <= k)%nat /\ (k + m <= 300)%nat)
      /\ filter isSleep evs
         = repeat (Slept (1 * GoTime.Second)) (if yes then k - 1 else k)
      /\ (yes = true ->
          exists before r1 r2,
            evs = before
                  ++ [Call (GetDeployment bbDeploymentName) r1;
                      Call (GetDeployment ngDeploymentName) r2; readyReport]
            /\ Success r1 = true
            /\ ObservedReplicaCount r1 = busyboxCount
            /\ Success r2 = true
            /\ ObservedReplicaCount r2 = nginxCount)
      /\ (fst run = Some false -> existsb isErrLine evs = true).
Proof.
  induction rounds as [|rounds IH]; intros m w Hle Hm300' Hm; cbv zeta.
  - exists O, []; cbn; rewrite app_nil_r.
    repeat split; try discriminate; lia.
  - rewrite (waitLoop_round env busyboxCount nginxCount rounds start w Hle).
    destruct (clock w - start <? deploymentTimeout) eqn:Hguard.
    + apply Z.ltb_lt in Hguard.
      assert (Hm300 : (m < 300)%nat)
        by (unfold deploymentTimeout, GoTime.Second in *; lia).
      pose proof (checkDeployments_run env busyboxCount nginxCount w) as Hc.
      cbv zeta in Hc.
      set (r1 := respond env (trace w) (GetDeployment bbDeploymentName)) in *.
      set (r2 := respond env (trace w ++ [Call _ r1])
                   (GetDeployment ngDeploymentName)) in *.
      destruct (fst (checkDeployments env busyboxCount nginxCount w))
        eqn:Hready.
      * exists 1%nat,
          [Call (GetDeployment bbDeploymentName) r1;
           Call (GetDeployment ngDeploymentName) r2; readyReport].
        rewrite Hc in Hready |- *; cbn [fst snd] in Hready.
        apply andb_prop in Hready; destruct Hready as [Hb Hn].
        apply andb_prop in Hb; destruct Hb as [Hb1 Hb2].
        apply andb_prop in Hn; destruct Hn as [Hn1 Hn2].
        apply Z.eqb_eq in Hb2, Hn2.
        cbn [fst snd PrettyPrintOk println trace].
        split; [rewrite <- !app_assoc; reflexivity|].
        split; [reflexivity|].
        split; [discriminate|].
        split; [intros _; lia|].
        split; [reflexivity|].
        split; [|discriminate].
        intros _; exists [], r1, r2; auto 10.
      * pose proof (next_clock env busyboxCount nginxCount w) as Hn.
        destruct (IH (Datatypes.S m)
                    (afterPoll env busyboxCount nginxCount w))
          as (k & evs & T & C & Hno & Hyes & Hs & Hlast & Hrep);
          [unfold GoTime.Second in *; lia | lia
          | unfold GoTime.Second in *; lia |].
        exists (Datatypes.S k),
          (Call (GetDeployment bbDeploymentName) r1
           :: Call (GetDeployment ngDeploymentName) r2
           :: Slept (1 * GoTime.Second) :: evs).
        split.
        { rewrite T; unfold afterPoll, timeSleep; rewrite Hc.
          cbn [snd trace]; rewrite <- !app_assoc; reflexivity. }
        split; [cbn [polls]; rewrite <- C; reflexivity|].
        split; [intros H; specialize (Hno H); lia|].
        split; [intros H; specialize (Hyes H); lia|].
        split.
        { cbn [filter isSleep]; rewrite Hs.
          destruct (match fst (waitLoop env rounds start busyboxCount
                                  nginxCount
                                  (afterPoll env busyboxCount nginxCount w))
                    with Some true => true | _ => false end) eqn:Hy.
          - destruct (Hyes eq_refl) as [Hk _].
            destruct k as [|k]; [lia|].
            cbn [Nat.sub]; rewrite Nat.sub_0_r; reflexivity.
          - reflexivity. }
        split; [|exact Hrep].
        intros H; destruct (Hlast H) as (before & a1 & a2 & He & Hrest).
        exists (Call (GetDeployment bbDeploymentName) r1
                :: Call (GetDeployment ngDeploymentName) r2
                :: Slept (1 * GoTime.Second) :: before), a1, a2.
        split; [rewrite He; reflexivity|exact Hrest].
    + exists O, [Out (Err
                   "Both deployments completed successfully within timeout")].
      cbn [fst snd PrettyPrintErr println trace].
      apply Z.ltb_ge in Hguard.
      repeat split; try discriminate; try reflexivity.
      intros _; lia.
Qed.

(** The same for the function around the loop. *)
Lemma waitForDeployments_shape (busyboxCount nginxCount : Z) (w : World) :
  let run := waitForDeployments env busyboxCount nginxCount w in
  exists k evs,
    trace (snd run) = trace w ++ evs
    /\ commands evs = polls k
    /\ (k <= 300)%nat
    /\ (fst run = true -> (1 <= k)%nat)
    /\ filter isSleep evs
       = repeat (Slept (1 * GoTime.Second)) (if fst run then k - 1 else k)
    /\ (fst run = true ->
        exists before r1 r2,
          evs = before
                ++ [Call (GetDeployment bbDeploymentName) r1;
                    Call (GetDeployment ngDeploymentName) r2; readyReport]
          /\ Success r1 = true
          /\ ObservedReplicaCount r1 = busyboxCount
          /\ Success r2 = true
          /\ ObservedReplicaCount r2 = nginxCount)
    /\ (fst run = false -> existsb isErrLine evs = true).
Proof.
  cbv zeta.
  destruct (waitLoop_shape busyboxCount nginxCount (clock w) waitRounds O w)
    as (k & evs & T & C & Hno & Hyes & Hs & Hlast & Hrep);
    [lia|lia|cbn; lia|].
  destruct (waitLoop_returns env busyboxCount nginxCount waitRounds (clock w)
              w) as (b & Hb & _);
    [unfold waitRounds; lia|lia|unfold waitRounds; cbn; lia|].
  unfold waitForDeployments, timeNow, gets, bind, ret.
  destruct (waitLoop env waitRounds (clock w) busyboxCount nginxCount w)
    as [[[|]|] w']; cbn [fst snd] in *; try discriminate Hb;
    exists k, evs; repeat split; trivial;
    try discriminate; try (apply Hyes; reflexivity);
    try (specialize (Hno eq_refl); lia);
    try (destruct (Hyes eq_refl); lia).
  intros _; apply Hrep; reflexivity.
Qed.

End Deployment.

(** X4.  The deployment stage sends its requests in a fixed order: the
    start of busybox, the question for the nodes, the start of nginx with as
    many replicas as the answer counts nodes, the exposure of nginx under
    the service name of the run.  A request that is turned down ends the
    stage with false, and nothing is sent after it.  When all are accepted
    the stage is as good as the readiness poll for one busybox replica and
    one nginx replica per node. *)
Theorem deployTestWorkloads_script (env : Env)
  (registryURL ngServiceName : string) (v : World) :
  let run := deployTestWorkloads env registryURL ngServiceName v in
  exists upTo rn reqs,
    (upTo <= 3)%nat
    /\ observe reqs = requestScript registryURL ngServiceName upTo rn
    /\ ((1 <= upTo)%nat -> In (Call GetNodes rn) reqs)
    /\ ((upTo < 3)%nat -> fst run = false /\ since v (snd run) = reqs)
    /\ (upTo = 3%nat ->
        exists vq,
          since v vq = reqs
          /\ trace vq = trace v ++ reqs
          /\ run = waitForDeployments env 1 (NodeCount rn) vq).
Proof.
  cbv zeta.
  destruct (deployTestWorkloads_requests env registryURL ngServiceName v)
    as (upTo & rn & reqs & Hobs & Hle & Hn & Hfail & Hpoll).
  exists upTo, rn, reqs.
  do 3 (split; [assumption|]); split.
  - intros H; destruct (Hfail H) as [Hf Ht]; split; [exact Hf|].
    now apply since_app.
  - intros H; destruct (Hpoll H) as (vq & Ht & Hrun).
    exists vq; repeat split; trivial; now apply since_app.
Qed.

(** X5.  [deployTestWorkloads] returns true only when its three requests
    were accepted and the last thing it did was a poll in which the lookup
    of busybox succeeded with one observed replica and the lookup of nginx
    succeeded with as many observed replicas as [RunGetNodes] had counted
    nodes. *)
Theorem deployed_means_ready (env : Env) (registryURL ngServiceName : string)
  (v : World)
  (Hdeployed : fst (deployTestWorkloads env registryURL ngServiceName v)
               = true) :
  let v' := snd (deployTestWorkloads env registryURL ngServiceName v) in
  exists rn reqs before r1 r2,
    since v v'
    = reqs ++ before
      ++ [Call (GetDeployment bbDeploymentName) r1;
          Call (GetDeployment ngDeploymentName) r2; readyReport]
    /\ observe reqs = requestScript registryURL ngServiceName 3 rn
    /\ In (Call GetNodes rn) reqs
    /\ Success r1 = true
    /\ ObservedReplicaCount r1 = 1
    /\ Success r2 = true
    /\ ObservedReplicaCount r2 = NodeCount rn.
Proof.
  cbv zeta.
  destruct (deployTestWorkloads_requests env registryURL ngServiceName v)
    as (upTo & rn & reqs & Hobs & Hle & Hn & Hfail & Hpoll).
  assert (Hup : upTo = 3%nat).
  { destruct (Nat.eq_dec upTo 3) as [|Hne]; [assumption|].
    destruct Hfail as [Hf _]; [lia|].
    rewrite Hf in Hdeployed; discriminate. }
  subst upTo.
  destruct (Hpoll eq_refl) as (vq & Ht & Hrun).
  rewrite Hrun in Hdeployed |- *.
  destruct (waitForDeployments_shape env 1 (NodeCount rn) vq)
    as (k & evs & T & _ & _ & _ & _ & Hlast & _).
  destruct (Hlast Hdeployed) as (before & r1 & r2 & He & Hrest).
  exists rn, reqs, before, r1, r2.
  split; [apply since_app; rewrite T, Ht, He, <- app_assoc; reflexivity|].
  split; [exact Hobs|]; split; [apply Hn; lia|exact Hrest].
Qed.

(** On the healthy cluster the first poll finds both workloads ready. *)
Lemma deployed_means_ready_witness :
  let env := Scripted.cluster Scripted.healthy in
  let v := Scripted.boot Scenes.t0 in
  fst (deployTestWorkloads env "" (serviceOf v) v) = true
  /\ exists r2,
       In (Call (GetDeployment ngDeploymentName) r2)
          (since v (snd (deployTestWorkloads env "" (serviceOf v) v)))
       /\ Success r2 = true.
Proof.
  cbv zeta.
  assert (Hd : fst (deployTestWorkloads (Scripted.cluster Scripted.healthy)
                      "" (serviceOf (Scripted.boot Scenes.t0))
                      (Scripted.boot Scenes.t0)) = true)
    by (vm_compute; reflexivity).
  split; [exact Hd|].
  destruct (deployed_means_ready (Scripted.cluster Scripted.healthy) ""
              (serviceOf (Scripted.boot Scenes.t0))
              (Scripted.boot Scenes.t0) Hd)
    as (rn & reqs & before & r1 & r2 & Hs & _ & _ & _ & _ & Hok & _).
  exists r2; split; [|exact Hok].
  rewrite Hs, !in_app_iff; right; right; cbn; auto.
Defined.

(** X6.  Whatever the cluster answers and however long it takes to answer,
    [waitForDeployments] polls at most 300 times: its commands are the two
    lookups of each poll, busybox first, and nothing else; it sleeps one
    second after every poll that did not find the workloads ready, and not
    after the one that did. *)
Theorem poll_is_bounded (env : Env) (busyboxCount nginxCount : Z)
  (w : World) :
  let run := waitForDeployments env busyboxCount nginxCount w in
  exists k,
    (k <= 300)%nat
    /\ trace (snd run) = trace w ++ since w (snd run)
    /\ commands (since w (snd run)) = polls k
    /\ filter isSleep (since w (snd run))
       = repeat (Slept (1 * GoTime.Second)) (if fst run then k - 1 else k)
    /\ (if fst run then (1 <= k)%nat
        else existsb isErrLine (since w (snd run)) = true).
Proof.
  cbv zeta.
  destruct (waitForDeployments_shape env busyboxCount nginxCount w)
    as (k & evs & T & C & Hle & Hone & Hs & _ & Hrep).
  rewrite (since_app _ _ _ T).
  exists k; do 4 (split; [assumption|]).
  destruct (fst (waitForDeployments env busyboxCount nginxCount w));
    [now apply Hone|now apply Hrep].
Qed.

(* ================================================================== *)
(** ** The effort of the probe sequence *)

Lemma count_app (p : Step -> bool) (a b : list Step) :
  count p (a ++ b) = (count p a + count p b)%nat.
Proof. unfold count; now rewrite filter_app, length_app. Qed.

Lemma attempts_counts (c : Cmd) (n : nat) (o : option nat) :
  within n o -> (1 <= n)%nat ->
  (1 <= count isRan (attempts c n o) <= n)%nat
  /\ count isFetched (attempts c n o) = O
  /\ count isSaid (attempts c n o) = O.
Proof.
  intros Hw Hn.
  assert (Hrep : forall j b, count isRan (repeat (Ran c b) j) = j
                             /\ count isFetched (repeat (Ran c b) j) = O
                             /\ count isSaid (repeat (Ran c b) j) = O).
  { induction j as [|j IH]; intro b; [repeat split|].
    destruct (IH b) as (H1 & H2 & H3); unfold count in *; cbn.
    now rewrite H1, H2, H3. }
  destruct o as [j|]; cbn [attempts within] in *.
  - rewrite !count_app; destruct (Hrep j false) as (-> & -> & ->).
    cbn; repeat split; lia.
  - destruct (Hrep n false) as (-> & -> & ->); repeat split; lia.
Qed.

Lemma required_counts (c : Cmd) (n : nat) (o : option nat)
  (label : string) :
  within n o -> (1 <= n)%nat ->
  (1 <= count isRan (required c n o label) <= n)%nat
  /\ count isFetched (required c n o label) = O
  /\ count isSaid (required c n o label) = 1%nat.
Proof.
  intros Hw Hn; unfold required; rewrite !count_app.
  destruct (attempts_counts c n o Hw Hn) as (H1 & -> & ->).
  cbn; repeat split; lia.
Qed.

Lemma check3_counts (pod : string) (ips : list string) :
  forall os,
    List.length os = List.length ips ->
    Forall (within 3) os ->
    let block := flat_map (check3Script pod) (combine ips os) in
    (List.length ips <= count isRan block <= 3 * List.length ips)%nat
    /\ count isFetched block = O
    /\ count isSaid block = List.length ips.
Proof.
  induction ips as [|ip ips IH]; intros [|o os] Hlen Hw;
    try discriminate; cbv zeta; [repeat split; cbn; lia|].
  injection Hlen as Hlen; inversion Hw as [|? ? Ho Hos]; subst.
  destruct (IH os Hlen Hos) as (H1 & H2 & H3).
  cbn [combine flat_map]; rewrite !count_app.
  change (check3Script pod (ip, o))
    with (required (wgetCmd pod ip) 3 o
            ("Accessed Nginx pod at " +++ ip +++ " from BusyBox")).
  destruct (required_counts (wgetCmd pod ip) 3 o
              ("Accessed Nginx pod at " +++ ip +++ " from BusyBox") Ho)
    as (R1 & -> & ->); [lia|].
  rewrite H2, H3; cbn [List.length]; repeat split; lia.
Qed.

Lemma check5_counts (ips : list string) :
  forall oks,
    List.length oks = List.length ips ->
    let block := flat_map check5Script (combine ips oks) in
    count isRan block = O
    /\ count isFetched block = List.length ips
    /\ count isSaid block = List.length ips.
Proof.
  induction ips as [|ip ips IH]; intros [|ok oks] Hlen;
    try discriminate; cbv zeta; [repeat split|].
  injection Hlen as Hlen.
  destruct (IH oks Hlen) as (H1 & H2 & H3).
  cbn [combine flat_map]; rewrite !count_app, H1, H2, H3.
  unfold count; cbn; repeat split.
Qed.

Lemma probeScript_counts (ngServiceName pod ip : string)
  (ips : list string) (o : Outcomes) :
  wellFormed ips o ->
  let script := probeScript ngServiceName pod ip ips o in
  let n := List.length ips in
  (n + 4 <= count isRan script <= 3 * n + 13)%nat
  /\ count isFetched script = (n + 1)%nat
  /\ count isSaid script = (2 * n + 5)%nat.
Proof.
  intros (W1 & W2 & L3 & W3 & L5 & W7); cbv zeta; unfold probeScript.
  rewrite !count_app.
  destruct (required_counts (wgetCmd pod ip) 3 (byClusterIP o)
              ("Accessed Nginx service at " +++ ip +++ " from BusyBox") W1)
    as (A1 & -> & ->); [lia|].
  destruct (required_counts (wgetCmd pod ngServiceName) 6 (byDNS o)
              ("Accessed Nginx service via DNS " +++ ngServiceName
               +++ " from BusyBox") W2) as (A2 & -> & ->); [lia|].
  destruct (check3_counts pod ips (byPodIP o) L3 W3) as (A3 & -> & ->).
  destruct (check5_counts ips (podsFromHost o) L5) as (-> & -> & ->).
  destruct (required_counts (pingCmd pod) 3 (pingAPI o)
              "Ping kubernetes service from BusyBox" W7)
    as (A7 & -> & ->); [lia|].
  repeat match goal with
         | |- context [count ?p (?a :: ?l)] =>
             let v := eval cbv [count filter isRan isFetched isSaid
                                List.length] in (count p (a :: l)) in
             change (count p (a :: l)) with v
         end.
  repeat split; lia.
Qed.

(** X7.  The probe sequence of a run that gets through the gate is bounded
    by the number [n] of pod addresses: it sends between [n + 4] and
    [3 n + 13] [kubectl exec] commands, exactly [n + 1] HTTP requests (one
    per pod address and one to the internet, none of them repeated), and
    reports exactly [2 n + 5] verdicts. *)
Theorem probe_effort (env : Env) (cfg : Config) (w : World) (f : Frame)
  (Hgate : atGate env cfg w = Some f) :
  let f' := snd (probeSequence env (serviceOf w) f) in
  let steps := observe (since (world f) (world f')) in
  let n := List.length (podIPs f) in
  (n + 4 <= count isRan steps <= 3 * n + 13)%nat
  /\ count isFetched steps = (n + 1)%nat
  /\ count isSaid steps = (2 * n + 5)%nat.
Proof.
  cbv zeta.
  destruct (CheckKubernetes_atGate env cfg false w f Hgate)
    as (o & evs & Hw & Ht & Hobs & _).
  rewrite (since_app _ _ _ Ht), Hobs.
  now apply probeScript_counts.
Qed.

(** The healthy cluster with its three pods: every check passes at its
    first attempt, which makes seven commands and four HTTP requests. *)
Lemma probe_effort_witness :
  let env := Scripted.cluster Scripted.healthy in
  let w := Scripted.boot Scenes.t0 in
  exists f,
    atGate env Scripted.config w = Some f
    /\ count isFetched
         (observe (since (world f)
                     (world (snd (probeSequence env (serviceOf w) f)))))
       = 4%nat.
Proof.
  cbv zeta.
  destruct (atGate (Scripted.cluster Scripted.healthy) Scripted.config
              (Scripted.boot Scenes.t0)) as [f|] eqn:Hg;
    [|vm_compute in Hg; discriminate Hg].
  destruct (probe_effort (Scripted.cluster Scripted.healthy)
              Scripted.config (Scripted.boot Scenes.t0) f Hg)
    as (_ & Hfetch & _).
  exists f; split; [reflexivity|].
  rewrite Hfetch.
  vm_compute in Hg; injection Hg as <-; reflexivity.
Defined.

(* ================================================================== *)
(** ** What the result says *)

Lemma result_by_stage (env : Env) (cfg : Config) (skipCleanup : bool)
  (w : World) :
  let res := fst (CheckKubernetes env cfg skipCleanup w) in
  match cleared env cfg w with
  | None =>
      In res [Some errKubectl; Some errRemoveExisting; Some errPreconditions]
  | Some _ =>
      match gathered env cfg w with
      | None => res = Some errDeploy
      | Some f =>
          if success f then res = None \/ res = Some errRequired
          else res = Some errGate
      end
  end.
Proof.
  cbv zeta.
  destruct (gathered env cfg w) as [f|] eqn:Hg.
  - assert (Hc : exists w1, cleared env cfg w = Some w1).
    { unfold gathered in Hg; destruct (cleared env cfg w); eauto.
      discriminate. }
    destruct Hc as (w1 & ->).
    rewrite (CheckKubernetes_gathered env cfg skipCleanup w f Hg).
    destruct (success f); cbn [fst]; [|reflexivity].
    destruct (success (snd (probeSequence env (serviceOf w) f))); auto.
  - revert Hg; unfold gathered, cleared; rewrite CheckKubernetes_stages.
    pose proof (preconditionStage_stepped env cfg (serviceOf w) w) as Hs.
    cbv zeta in Hs.
    destruct (preconditionStage env cfg (serviceOf w) w) as [[err|] w1];
      cbn [fst snd] in *.
    + intros _.
      destruct Hs as [[He _]|[[He _]|[[He _]|[He _]]]];
        rewrite He; cbn; auto; discriminate.
    + rewrite mainSteps_run.
      destruct (deployTestWorkloads env (registryPrefix cfg) (serviceOf w) w1)
        as [[|] w2]; [discriminate|reflexivity].
Qed.

(** X8.  The result of [CheckKubernetes] names the stage at which the run
    ended.  One of the three errors of the precondition stage: the stage
    did not let the run through.  "Failed to deploy test workloads": the
    stage was passed and the deployment stage returned false.  "Failed to
    get required information from cluster": the information was gathered
    and the gate stayed shut.  "One or more required steps failed" or nil:
    the probe sequence was run - so that nil is returned only by a run that
    got through every stage. *)
Theorem result_names_stage (env : Env) (cfg : Config) (skipCleanup : bool)
  (w : World) :
  let res := fst (CheckKubernetes env cfg skipCleanup w) in
  (cleared env cfg w = None <->
   In res [Some errKubectl; Some errRemoveExisting; Some errPreconditions])
  /\ (cleared env cfg w <> None /\ gathered env cfg w = None <->
      res = Some errDeploy)
  /\ ((exists f, gathered env cfg w = Some f /\ success f = false) <->
      res = Some errGate)
  /\ ((exists f, atGate env cfg w = Some f) <->
      res = None \/ res = Some errRequired).
Proof.
  cbv zeta.
  pose proof (result_by_stage env cfg skipCleanup w) as H; cbv zeta in H.
  unfold atGate.
  set (res := fst (CheckKubernetes env cfg skipCleanup w)) in *.
  assert (Hpre : forall P : Prop,
             In res [Some errKubectl; Some errRemoveExisting;
                     Some errPreconditions] ->
             (res = None \/ res = Some errRequired \/ res = Some errGate
              \/ res = Some errDeploy) -> P).
  { intros P Hin Hres; exfalso; cbn [In] in Hin.
    destruct Hin as [Hx|[Hx|[Hx|[]]]]; rewrite <- Hx in Hres;
      destruct Hres as [Hy|[Hy|[Hy|Hy]]]; discriminate Hy. }
  destruct (cleared env cfg w) as [w1|] eqn:Hc.
  - destruct (gathered env cfg w) as [f|] eqn:Hg.
    + destruct (success f) eqn:Hs.
      * split; [split; [discriminate|intros Hin; apply (Hpre _ Hin); tauto]|].
        split; [split; [intros (_ & Hx); discriminate Hx
                       |intros Hx; rewrite Hx in H; destruct H; discriminate]|].
        split; [split; [intros (g & [= <-] & Hx); congruence
                       |intros Hx; rewrite Hx in H; destruct H; discriminate]|].
        split; [intros _; exact H|intros _; eauto].
      * split; [split; [discriminate|intros Hin; apply (Hpre _ Hin); tauto]|].
        split; [split; [intros (_ & Hx); discriminate Hx
                       |intros Hx; rewrite Hx in H; discriminate]|].
        split; [split; [intros _; exact H|intros _; eauto]|].
        split; [intros (g & Hx); discriminate Hx
               |intros [Hx|Hx]; rewrite Hx in H; discriminate].
    + split; [split; [discriminate|intros Hin; apply (Hpre _ Hin); tauto]|].
      split; [split; [intros _; exact H
                     |intros _; split; [discriminate|reflexivity]]|].
      split; [split; [intros (g & Hx & _); discriminate Hx
                     |intros Hx; rewrite Hx in H; discriminate]|].
      split; [intros (g & Hx); discriminate Hx
             |intros [Hx|Hx]; rewrite Hx in H; discriminate].
  - assert (Hg : gathered env cfg w = None)
      by (unfold gathered; now rewrite Hc).
    rewrite Hg.
    split; [split; [intros _; exact H|reflexivity]|].
    split; [split; [intros (Hx & _); now destruct Hx
                   |intros Hx; apply (Hpre _ H); tauto]|].
    split; [split; [intros (g & Hx & _); discriminate Hx
                   |intros Hx; apply (Hpre _ H); tauto]|].
    split; [intros (g & Hx); discriminate Hx
           |intros Hx; apply (Hpre _ H); tauto].
Qed.

(* ================================================================== *)
(** ** The three fetches *)

Lemma isEmpty_true (s : string) : isEmpty s = true <-> s = "".
Proof. destruct s; split; intros H; try reflexivity; discriminate. Qed.

Lemma usable_iff (ips : list string) :
  usable ips = true <-> ips <> [] /\ Forall (fun ip => ip <> "") ips.
Proof.
  split; [apply usable_spec|].
  intros [Hne Hall]; unfold usable; apply andb_true_intro; split.
  - destruct ips; [now destruct Hne|reflexivity].
  - clear Hne; induction Hall as [|ip ips Hip _ IH]; [reflexivity|].
    cbn [noBlank]; destruct (isEmpty ip) eqn:E; [|exact IH].
    apply isEmpty_true in E; contradiction.
Qed.

(** X9.  What the closures handed to [retry] at lines 64, 91 and 110 accept.
    Each sends its one request.  The first returns true exactly when the
    listing succeeded with at least one pod address and no empty one; the
    second when the lookup succeeded with a cluster address that is not
    empty; the third when the listing succeeded with a pod name that is not
    empty.  A request that succeeded overwrites the variable it is meant
    for, also with a value the closure then turns down; a request that
    failed leaves it as it was. *)
Theorem fetches_validate (env : Env) (ngServiceName : string) (g : Frame) :
  let r1 := respond env (traceF g) listNginxPods in
  let r2 := respond env (traceF g) (GetService ngServiceName) in
  let r3 := respond env (traceF g) listBusyboxPods in
  let g1 := snd (grabPodIPs env g) in
  let g2 := snd (grabServiceIP env ngServiceName g) in
  let g3 := snd (grabBusyboxPodName env g) in
  (traceF g1 = traceF g ++ [Call listNginxPods r1]
   /\ (fst (grabPodIPs env g) = true <->
       Success r1 = true /\ PodIPs r1 <> []
       /\ Forall (fun ip => ip <> "") (PodIPs r1))
   /\ podIPs g1 = (if Success r1 then PodIPs r1 else podIPs g)
   /\ ko g1 = r1)
  /\ (traceF g2 = traceF g ++ [Call (GetService ngServiceName) r2]
      /\ (fst (grabServiceIP env ngServiceName g) = true <->
          Success r2 = true /\ ServiceCluserIP r2 <> "")
      /\ serviceIP g2 = (if Success r2 then ServiceCluserIP r2
                         else serviceIP g)
      /\ ko g2 = r2)
  /\ (traceF g3 = traceF g ++ [Call listBusyboxPods r3]
      /\ (fst (grabBusyboxPodName env g) = true <->
          Success r3 = true /\ FirstPodName r3 <> "")
      /\ busyboxPodName g3 = (if Success r3 then FirstPodName r3
                              else busyboxPodName g)
      /\ ko g3 = r3).
Proof.
  cbv zeta.
  unfold grabPodIPs, grabServiceIP, grabBusyboxPodName, liftW, RunKubectl,
    RunGetService, invoke, bind, ret, gets, modify, traceF.
  fold listNginxPods listBusyboxPods.
  cbn [world set_world set_ko set_podIPs set_serviceIP set_busyboxPodName
       podIPs serviceIP busyboxPodName trace fst snd].
  split; [|split].
  - destruct (Success (respond env (trace (world g)) listNginxPods)) eqn:E;
      cbn [world set_world set_ko set_podIPs podIPs ko trace fst snd].
    + assert (Hu : forall ips (a : Frame),
                 fst ((if Z.of_nat (List.length ips) =? 0
                       then fun s : Frame => (false, s)
                       else if negb (noBlank ips)
                            then fun s : Frame => (false, s)
                            else fun s : Frame => (true, s)) a)
                 = usable ips).
      { intros ips a; unfold usable.
        destruct (Z.of_nat _ =? 0); [reflexivity|].
        destruct (noBlank ips); reflexivity. }
      split; [|split; [|split]].
      * destruct (Z.of_nat _ =? 0); [reflexivity|].
        destruct (noBlank _); reflexivity.
      * rewrite Hu, usable_iff; tauto.
      * destruct (Z.of_nat _ =? 0); [reflexivity|].
        destruct (noBlank _); reflexivity.
      * destruct (Z.of_nat _ =? 0); [reflexivity|].
        destruct (noBlank _); reflexivity.
    + split; [reflexivity|]; split; [|split; reflexivity].
      split; [discriminate|intros (Hx & _); discriminate].
  - destruct (Success (respond env (trace (world g))
                         (GetService ngServiceName))) eqn:E;
      cbn [world set_world set_ko set_serviceIP serviceIP ko trace fst snd].
    + destruct (isEmpty (ServiceCluserIP _)) eqn:E1;
        cbn [negb world set_world set_ko set_serviceIP serviceIP
             ko trace fst snd];
        (split; [reflexivity|]); (split; [|split; reflexivity]).
      * apply isEmpty_true in E1.
        split; [discriminate|intros (_ & Hx); contradiction].
      * split; [|reflexivity].
        intros _; split; [reflexivity|now apply isEmpty_false].
    + split; [reflexivity|]; split; [|split; reflexivity].
      split; [discriminate|intros (Hx & _); discriminate].
  - destruct (Success (respond env (trace (world g)) listBusyboxPods)) eqn:E;
      cbn [world set_world set_ko set_busyboxPodName busyboxPodName ko trace
           fst snd].
    + destruct (isEmpty (FirstPodName _)) eqn:E1;
        cbn [negb world set_world set_ko set_busyboxPodName busyboxPodName
             ko trace fst snd];
        (split; [reflexivity|]); (split; [|split; reflexivity]).
      * apply isEmpty_true in E1.
        split; [discriminate|intros (_ & Hx); contradiction].
      * split; [|reflexivity].
        intros _; split; [reflexivity|now apply isEmpty_false].
    + split; [reflexivity|]; split; [|split; reflexivity].
      split; [discriminate|intros (Hx & _); discriminate].
Qed.

(* ================================================================== *)
(** ** What the information phase prints *)

(** X10.  When line 127 is reached, the run ends so far with the three
    fetches of lines 64-125, in the order pod addresses, service address,
    client pod name.  Each fetch is its requests, between one and three,
    followed by one line with its label: an Ok line exactly when the piece
    it asked for is in the variable the checks will read, and otherwise an
    Err line followed by the combined output of the third, last answer. *)
Theorem gather_reports (env : Env) (cfg : Config) (w : World) (f : Frame) :
  gathered env cfg w = Some f ->
  exists before rs1 rs2 rs3,
    since w (world f)
    = before
      ++ fetchEvents listNginxPods "Grab nginx pod ip addresses" rs1
           (usable (podIPs f))
      ++ fetchEvents (GetService (serviceOf w))
           "Grab nginx service ip address" rs2
           (negb (isEmpty (serviceIP f)))
      ++ fetchEvents listBusyboxPods "Grab BusyBox pod name" rs3
           (negb (isEmpty (busyboxPodName f)))
    /\ tries (List.length rs1) (usable (podIPs f))
    /\ tries (List.length rs2) (negb (isEmpty (serviceIP f)))
    /\ tries (List.length rs3) (negb (isEmpty (busyboxPodName f))).
Proof.
  unfold gathered, cleared; intros Hg.
  destruct (preconditionStage_emits env cfg (serviceOf w) w)
    as (e1 & H1 & _).
  destruct (preconditionStage env cfg (serviceOf w) w) as [[err|] w1];
    [discriminate|]; cbn [snd] in H1.
  destruct (deployTestWorkloads_emits env (registryPrefix cfg) (serviceOf w)
              w1) as (e2 & H2 & _).
  destruct (deployTestWorkloads env (registryPrefix cfg) (serviceOf w) w1)
    as [[|] w2]; [|discriminate]; cbn [snd] in H2.
  injection Hg as <-.
  destruct (gatherInfo_run env (serviceOf w) (enter w2))
    as (k1 & k2 & k3 & evs & Ht & _ & T1 & T2 & T3 & _ & rs1 & rs2 & rs3
        & L1 & L2 & L3 & Hev);
    try reflexivity.
  unfold traceF in Ht; cbn [world enter] in Ht.
  exists (e1 ++ e2), rs1, rs2, rs3.
  rewrite L1, L2, L3; split; [|auto].
  apply since_app.
  rewrite Ht, H2, H1, Hev, <- !app_assoc; reflexivity.
Qed.

(** A cluster on which the client pod never shows up in the listing: the
    third fetch asks three times and ends with an Err line and a dump. *)
Lemma gather_reports_witness :
  let env := Scripted.cluster Scenes.noClient in
  let w := Scripted.boot Scenes.t0 in
  exists f before rs1 rs2 rs3,
    gathered env Scripted.config w = Some f
    /\ since w (world f)
       = before
         ++ fetchEvents listNginxPods "Grab nginx pod ip addresses" rs1 true
         ++ fetchEvents (GetService (serviceOf w))
              "Grab nginx service ip address" rs2 true
         ++ fetchEvents listBusyboxPods "Grab BusyBox pod name" rs3 false
    /\ List.length rs3 = 3%nat.
Proof.
  cbv zeta.
  destruct (gathered (Scripted.cluster Scenes.noClient) Scripted.config
              (Scripted.boot Scenes.t0)) as [f|] eqn:Hg;
    [|vm_compute in Hg; discriminate Hg].
  destruct (gather_reports (Scripted.cluster Scenes.noClient)
              Scripted.config (Scripted.boot Scenes.t0) f Hg)
    as (before & rs1 & rs2 & rs3 & Hs & _ & _ & T3).
  exists f, before, rs1, rs2, rs3; split; [reflexivity|].
  assert (Hf : usable (podIPs f) = true
               /\ negb (isEmpty (serviceIP f)) = true
               /\ negb (isEmpty (busyboxPodName f)) = false).
  { vm_compute in Hg; injection Hg as <-; repeat split. }
  destruct Hf as (F1 & F2 & F3).
  rewrite F1, F2, F3 in Hs; rewrite F3 in T3.
  split; [exact Hs|exact (proj2 T3 eq_refl)].
Defined.

(* ================================================================== *)
(** ** Failure dumps *)

Lemma dumpsLatest_app (known : option KubeOutput) (a b : list Event) :
  dumpsLatest known (a ++ b)
  = dumpsLatest known a && dumpsLatest (latest known a) b.
Proof.
  revert known; induction a as [|e a IH]; intros known; [reflexivity|].
  destruct e as [c r|url ok|d|[msg|msg|msg|d]]; cbn [app dumpsLatest latest];
    rewrite ?IH, ?andb_assoc; reflexivity.
Qed.

Lemma dumpsLatest_known (known : option KubeOutput) (evs : list Event) :
  dumpsLatest None evs = true -> dumpsLatest known evs = true.
Proof.
  revert known; induction evs as [|e evs IH]; intros known; [reflexivity|].
  destruct e as [c r|url ok|d|[msg|msg|msg|d]]; cbn [dumpsLatest]; auto.
  discriminate.
Qed.

Lemma quiet_dumpsLatest (known : option KubeOutput) (evs : list Event) :
  Forall (fun e => isDump e = false) evs -> dumpsLatest known evs = true.
Proof.
  intros F; revert known; induction F as [|e evs He _ IH]; intros known;
    [reflexivity|].
  destruct e as [c r|url ok|d|[msg|msg|msg|d]]; cbn [dumpsLatest]; auto.
  discriminate.
Qed.

Section Candid.

Context {S : Type}.
Variable tr : S -> list Event.

Lemma candid_known {A} (known : S -> option KubeOutput) (m : M S A) :
  candid tr m -> candidFrom tr known m.
Proof.
  intros H s; destruct (H s) as (evs & Ht & Hd).
  exists evs; split; [exact Ht|now apply dumpsLatest_known].
Qed.

Lemma emits_candid {A} (m : M S A) :
  emits tr (fun e => isDump e = false) m -> candid tr m.
Proof.
  intros H s; destruct (H s) as (evs & Ht & F).
  exists evs; split; [exact Ht|now apply quiet_dumpsLatest].
Qed.

Lemma candidFrom_ret {A} (known : S -> option KubeOutput) (a : A) :
  candidFrom tr known (ret a).
Proof. intro s; exists []; cbn; rewrite app_nil_r; auto. Qed.

Lemma candidFrom_gets {A} (known : S -> option KubeOutput) (f : S -> A) :
  candidFrom tr known (gets f).
Proof. intro s; exists []; cbn; rewrite app_nil_r; auto. Qed.

(** Whatever comes after [m] has to stand on its own. *)
Lemma candidFrom_bind {A B} (known : S -> option KubeOutput) (m : M S A)
  (k : A -> M S B) :
  candidFrom tr known m -> (forall a, candid tr (k a)) ->
  candidFrom tr known (bind m k).
Proof.
  intros Hm Hk s; unfold bind.
  destruct (Hm s) as (e1 & H1 & D1).
  destruct (m s) as [a s1]; cbn [snd] in *.
  destruct (Hk a s1) as (e2 & H2 & D2).
  exists (e1 ++ e2); split; [now rewrite H2, H1, app_assoc|].
  rewrite dumpsLatest_app, D1; cbn [andb].
  now apply dumpsLatest_known.
Qed.

Lemma candid_forRange {A} (xs : list A) (body : A -> M S unit) :
  (forall x, candid tr (body x)) -> candid tr (forRange xs body).
Proof.
  intros Hb; induction xs as [|x xs IH]; cbn [forRange].
  - apply candidFrom_ret.
  - apply candidFrom_bind; [apply Hb|intros _; exact IH].
Qed.

(** A probe that sends one request and stores the answer under [field]:
    once [retry] has called it, no matter how often, [field] holds the
    answer to the latest call, and what comes next may dump it. *)
Lemma candid_retry {B} (field : S -> KubeOutput) (probe : M S bool)
  (n : nat) (k : bool -> M S B) :
  (forall s, exists c,
     tr (snd (probe s)) = tr s ++ [Call c (field (snd (probe s)))]) ->
  (forall ok, candidFrom tr (fun s => Some (field s)) (k ok)) ->
  candid tr (bind (retry (Datatypes.S n) probe) k).
Proof.
  intros Hstep Hk.
  assert (Hretry : forall m s known,
            exists evs,
              tr (snd (retry m probe s)) = tr s ++ evs
              /\ Forall (fun e => isDump e = false) evs
              /\ latest known evs
                 = match m with
                   | O => known
                   | _ => Some (field (snd (retry m probe s)))
                   end).
  { induction m as [|m IH]; intros s known.
    - exists []; cbn; rewrite app_nil_r; auto.
    - cbn [retry]; unfold bind.
      destruct (Hstep s) as (c & Ht).
      destruct (probe s) as [b s1]; cbn [fst snd] in *.
      destruct b; unfold ret; cbn [snd].
      + exists [Call c (field s1)]; auto.
      + destruct (IH s1 (Some (field s1))) as (evs & Ht1 & F & Hl).
        exists (Call c (field s1) :: evs).
        split; [now rewrite Ht1, Ht, <- app_assoc|].
        split; [constructor; [reflexivity|exact F]|].
        cbn [latest]; rewrite Hl; destruct m; reflexivity. }
  intros s; unfold bind.
  destruct (Hretry (Datatypes.S n) s None) as (e1 & H1 & F1 & L1).
  destruct (retry (Datatypes.S n) probe s) as [ok s1]; cbn [snd] in *.
  destruct (Hk ok s1) as (e2 & H2 & D2).
  exists (e1 ++ e2); split; [now rewrite H2, H1, app_assoc|].
  now rewrite dumpsLatest_app, L1, D2, (quiet_dumpsLatest None e1 F1).
Qed.

End Candid.

Section CandidWorld.

Variable env : Env.

Lemma candidFrom_invoke (known : option KubeOutput) (c : Cmd) :
  candidFrom trace (fun _ => known) (invoke env c).
Proof. intro w; eexists; split; reflexivity. Qed.

(** What follows a call may dump its answer. *)
Lemma candidFrom_invoke_bind {A} (known : option KubeOutput) (c : Cmd)
  (k : KubeOutput -> M World A) :
  (forall r, candidFrom trace (fun _ => Some r) (k r)) ->
  candidFrom trace (fun _ => known) (bind (invoke env c) k).
Proof.
  intros Hk w; unfold bind, invoke.
  set (r := respond env (trace w) c).
  destruct (Hk r (mkWorld (trace w ++ [Call c r])
                    (clock w + Z.of_N (latency env (trace w) c))))
    as (evs & Ht & Hd); cbn [trace] in Ht.
  exists (Call c r :: evs); split; [now rewrite Ht, <- app_assoc|exact Hd].
Qed.

Lemma candidFrom_println (known : option KubeOutput) (l : Line) :
  isDump (Out l) = false -> candidFrom trace (fun _ => known) (println l).
Proof.
  intros H w; exists [Out l]; split; [reflexivity|].
  destruct l; try reflexivity; discriminate.
Qed.

Lemma candidFrom_println_bind {A} (known : option KubeOutput) (l : Line)
  (k : unit -> M World A) :
  isDump (Out l) = false ->
  candidFrom trace (fun _ => known) (k tt) ->
  candidFrom trace (fun _ => known) (bind (println l) k).
Proof.
  intros H Hk w; unfold bind, println.
  destruct (Hk (mkWorld (trace w ++ [Out l]) (clock w)))
    as (evs & Ht & Hd); cbn [trace] in Ht.
  exists (Out l :: evs); split; [now rewrite Ht, <- app_assoc|].
  destruct l; try exact Hd; discriminate.
Qed.

Lemma candidFrom_dump (r : KubeOutput) :
  candidFrom trace (fun _ => Some r) (println (Detail (CombinedOut r))).
Proof.
  intros w; exists [Out (Detail (CombinedOut r))]; split; [reflexivity|].
  cbn [dumpsLatest]; now rewrite String.eqb_refl.
Qed.

Lemma candidFrom_dump_bind {A} (r : KubeOutput) (k : unit -> M World A) :
  candidFrom trace (fun _ => Some r) (k tt) ->
  candidFrom trace (fun _ => Some r)
    (bind (println (Detail (CombinedOut r))) k).
Proof.
  intros Hk w; unfold bind, println.
  destruct (Hk (mkWorld (trace w ++ [Out (Detail (CombinedOut r))])
                  (clock w)))
    as (evs & Ht & Hd); cbn [trace] in Ht.
  exists (Out (Detail (CombinedOut r)) :: evs).
  split; [now rewrite Ht, <- app_assoc|].
  cbn [dumpsLatest]; now rewrite String.eqb_refl.
Qed.

Lemma candidFrom_liftW {A} (known : World -> option KubeOutput)
  (m : M World A) :
  candidFrom trace known m ->
  candidFrom traceF (fun f => known (world f)) (liftW m).
Proof.
  intros Hm f; destruct (Hm (world f)) as (evs & H & D).
  exists evs; split; [|exact D].
  unfold liftW, traceF; destruct (m (world f)); exact H.
Qed.

End CandidWorld.

(** The walk through a function of the world, by the shape of what comes
    next. *)
Ltac candid_walk :=
  repeat lazymatch goal with
    | |- candid _ _ => unfold candid
    | |- candidFrom _ _ (ret _) => apply candidFrom_ret
    | |- candidFrom _ _ (bind (invoke _ _) _) =>
        apply candidFrom_invoke_bind; intro
    | |- candidFrom _ _ (bind (println (Detail _)) _) =>
        apply candidFrom_dump_bind
    | |- candidFrom _ _ (bind (println _) _) =>
        apply candidFrom_println_bind; [reflexivity|]
    | |- candidFrom _ _ (println (Detail _)) => apply candidFrom_dump
    | |- candidFrom _ _ (println _) =>
        apply candidFrom_println; reflexivity
    | |- candidFrom _ _ (invoke _ _) => apply candidFrom_invoke
    | |- candidFrom _ _ (bind _ _) => apply candidFrom_bind; [|intro]
    | |- candidFrom _ _ (if ?c then _ else _) => destruct c
    | |- candidFrom _ _ (match ?x with _ => _ end) => destruct x
    end.

Section StagesCandid.

Variable env : Env.
Variable cfg : Config.

Lemma preconditionStage_candid (ngServiceName : string) :
  candid trace (preconditionStage env cfg ngServiceName).
Proof.
  unfold preconditionStage, precheckKubectl, removeExisting,
    checkPreconditions, precheckNamespace, precheckServices,
    precheckDeployments, RunKubectl, RunGetNamespace, RunGetService,
    RunGetDeployment, PrettyPrintOk, PrettyPrintErr, printFailureDetail.
  candid_walk.
Qed.

Lemma powerDown_candid (ngServiceName : string) :
  candid trace (powerDown env ngServiceName).
Proof.
  unfold powerDown, RunKubectl, PrettyPrintOk, PrettyPrintErr,
    printFailureDetail.
  candid_walk.
Qed.

Lemma waitForDeployments_candid (busyboxCount nginxCount : Z) :
  candid trace (waitForDeployments env busyboxCount nginxCount).
Proof.
  apply emits_candid.
  unfold waitForDeployments.
  apply emits_bind; [apply emits_gets|intro start].
  apply emits_bind; [|intro; apply emits_ret].
  induction waitRounds as [|n IH]; cbn [waitLoop]; [apply emits_ret|].
  unfold timeSince, timeNow, checkDeployments, RunGetDeployment,
    PrettyPrintOk, PrettyPrintErr.
  emits_walk; exact IH.
Qed.

Lemma deployTestWorkloads_candid (registryURL ngServiceName : string) :
  candid trace (deployTestWorkloads env registryURL ngServiceName).
Proof.
  unfold deployTestWorkloads, RunKubectl, RunGetNodes, RunPod,
    PrettyPrintOk, PrettyPrintErr, printFailureDetail.
  candid_walk.
  apply candid_known, waitForDeployments_candid.
Qed.

(** The report after a fetch dumps what [ko] holds. *)
Lemma reportGrab_candid (ok : bool) (label : string) :
  candidFrom traceF (fun g => Some (ko g)) (reportGrab ok label).
Proof.
  intro g.
  unfold reportGrab, liftW, PrettyPrintOk, PrettyPrintErr,
    printFailureDetail, println, bind, ret, gets, modify, traceF.
  destruct ok; cbn [world set_world set_success trace fst snd].
  - exists [Out (Ok label)]; split; reflexivity.
  - exists [Out (Err label); Out (Detail (CombinedOut (ko g)))].
    split; [now rewrite <- app_assoc|].
    cbn [dumpsLatest]; now rewrite String.eqb_refl.
Qed.

Lemma grabPodIPs_call (g : Frame) :
  exists c,
    traceF (snd (grabPodIPs env g))
    = traceF g ++ [Call c (ko (snd (grabPodIPs env g)))].
Proof.
  unfold grabPodIPs, liftW, RunKubectl, invoke, bind, ret, gets, modify,
    traceF.
  cbn [world set_world set_ko set_podIPs podIPs trace fst snd].
  eexists.
  destruct (Success _); [|reflexivity].
  cbn [world set_world set_ko set_podIPs podIPs trace fst snd].
  destruct (Z.of_nat _ =? 0); [reflexivity|].
  destruct (negb _); reflexivity.
Qed.

Lemma grabServiceIP_call (ngServiceName : string) (g : Frame) :
  exists c,
    traceF (snd (grabServiceIP env ngServiceName g))
    = traceF g ++ [Call c (ko (snd (grabServiceIP env ngServiceName g)))].
Proof.
  unfold grabServiceIP, liftW, RunGetService, invoke, bind, ret, gets,
    modify, traceF.
  cbn [world set_world set_ko set_serviceIP serviceIP trace fst snd].
  eexists.
  destruct (Success _); [|reflexivity].
  cbn [world set_world set_ko set_serviceIP serviceIP trace fst snd].
  destruct (negb _); reflexivity.
Qed.

Lemma grabBusyboxPodName_call (g : Frame) :
  exists c,
    traceF (snd (grabBusyboxPodName env g))
    = traceF g ++ [Call c (ko (snd (grabBusyboxPodName env g)))].
Proof.
  unfold grabBusyboxPodName, liftW, RunKubectl, invoke, bind, ret, gets,
    modify, traceF.
  cbn [world set_world set_ko set_busyboxPodName busyboxPodName trace
       fst snd].
  eexists.
  destruct (Success _); [|reflexivity].
  cbn [world set_world set_ko set_busyboxPodName busyboxPodName trace
       fst snd].
  destruct (negb _); reflexivity.
Qed.

Lemma gatherInfo_candid (ngServiceName : string) :
  candid traceF (gatherInfo env ngServiceName).
Proof.
  unfold gatherInfo.
  apply (candid_retry traceF ko); [apply grabPodIPs_call|intro ok1].
  apply candidFrom_bind; [apply reportGrab_candid|intros _].
  apply (candid_retry traceF ko); [apply grabServiceIP_call|intro ok2].
  apply candidFrom_bind; [apply reportGrab_candid|intros _].
  apply (candid_retry traceF ko); [apply grabBusyboxPodName_call|intro ok3].
  apply reportGrab_candid.
Qed.

(** One [kubectl exec] stores its answer in [kubeOut]. *)
Lemma execInBusybox_call (args : list string) (g : Frame) :
  exists c,
    traceF (snd (execInBusybox env args g))
    = traceF g ++ [Call c (kubeOut (snd (execInBusybox env args g)))].
Proof. eexists; reflexivity. Qed.

(** The reports of the required checks dump what [kubeOut] holds. *)
Ltac dump_kubeOut :=
  intro g;
  unfold liftW, PrettyPrintOk, PrettyPrintErr, printFailureDetail, println,
    bind, ret, gets, modify, traceF;
  cbn [world set_world set_success trace fst snd kubeOut];
  eexists; (split; [rewrite <- ?app_assoc; reflexivity|]);
  cbn [app dumpsLatest]; now rewrite ?String.eqb_refl.

Lemma check1_candid : candid traceF (check1 env).
Proof.
  unfold check1.
  apply (candid_retry traceF kubeOut).
  - intro g; unfold bind, gets; apply execInBusybox_call.
  - intros [|]; dump_kubeOut.
Qed.

Lemma check2_candid (ngServiceName : string) :
  candid traceF (check2 env ngServiceName).
Proof.
  unfold check2.
  apply (candid_retry traceF kubeOut); [intro; apply execInBusybox_call|].
  intros [|]; dump_kubeOut.
Qed.

Lemma check3_candid : candid traceF (check3 env).
Proof.
  unfold check3.
  apply candidFrom_bind; [apply candidFrom_gets|intro ips].
  apply candid_forRange; intro podIP; unfold check3At.
  apply (candid_retry traceF kubeOut); [intro; apply execInBusybox_call|].
  intros [|]; dump_kubeOut.
Qed.

Lemma check7_candid : candid traceF (check7 env).
Proof.
  unfold check7.
  apply (candid_retry traceF kubeOut); [intro; apply execInBusybox_call|].
  intros [|]; dump_kubeOut.
Qed.

Lemma probeSequence_candid (ngServiceName : string) :
  candid traceF (probeSequence env ngServiceName).
Proof.
  unfold probeSequence.
  apply candidFrom_bind; [apply check1_candid|intros _].
  apply candidFrom_bind; [apply check2_candid|intros _].
  apply candidFrom_bind; [apply check3_candid|intros _].
  apply candidFrom_bind; [apply emits_candid|intros _].
  { unfold check4, RunKubectl, PrettyPrintOk, PrettyPrintErrorIgnored.
    emits_walk. }
  apply candidFrom_bind; [apply emits_candid|intros _].
  { unfold check5, check5At, PrettyPrintOk, PrettyPrintErrorIgnored.
    emits_walk. }
  apply candidFrom_bind; [apply emits_candid|intros _].
  { unfold check6, PrettyPrintOk, PrettyPrintErrorIgnored; emits_walk. }
  apply check7_candid.
Qed.

Lemma mainSteps_candid (registryURL ngServiceName : string) :
  candid traceF (mainSteps env registryURL ngServiceName).
Proof.
  unfold mainSteps.
  apply candidFrom_bind.
  { apply (candidFrom_liftW (fun _ => None)), deployTestWorkloads_candid. }
  intros [|]; cbn [negb]; [|apply candidFrom_ret].
  apply candidFrom_bind; [apply gatherInfo_candid|intros _].
  apply candidFrom_bind; [apply candidFrom_gets|intros [|]]; cbn [negb];
    [|apply candidFrom_ret].
  apply candidFrom_bind; [apply probeSequence_candid|intros _].
  apply candidFrom_bind; [apply candidFrom_gets|intros [|]]; cbn [negb];
    apply candidFrom_ret.
Qed.

Lemma CheckKubernetes_candid (skipCleanup : bool) :
  candid trace (CheckKubernetes env cfg skipCleanup).
Proof.
  intros w; rewrite CheckKubernetes_stages.
  destruct (preconditionStage_candid (serviceOf w) w) as (e1 & H1 & D1).
  destruct (preconditionStage env cfg (serviceOf w) w) as [[err|] w1];
    cbn [snd] in *; [exists e1; auto|].
  destruct (mainSteps_candid (registryPrefix cfg) (serviceOf w) (enter w1))
    as (e2 & H2 & D2).
  destruct (mainSteps env (registryPrefix cfg) (serviceOf w) (enter w1))
    as [res f]; cbn [snd] in *.
  unfold traceF in H2; cbn [world enter] in H2.
  unfold deferred; destruct skipCleanup.
  - exists (e1 ++ e2); split; [now rewrite H2, H1, app_assoc|].
    rewrite dumpsLatest_app, D1; now apply dumpsLatest_known.
  - destruct (powerDown_candid (serviceOf w) (world f)) as (e3 & H3 & D3).
    exists (e1 ++ e2 ++ e3).
    split; [now rewrite H3, H2, H1, <- !app_assoc|].
    rewrite !dumpsLatest_app, D1; cbn [andb].
    rewrite (dumpsLatest_known _ _ D2); now apply dumpsLatest_known.
Qed.

End StagesCandid.

(** X11.  A run never dumps stale output.  Every call of
    [printFailureDetail] that a run of [CheckKubernetes] makes, from the
    precondition stage to teardown, is handed the combined output of the
    answer to the cluster call the run made last before it.  The call of
    check 4, whose answer is kept in a variable of its own, and the
    fetches, which use [ko], do not change this: no check dumps [kubeOut]
    without having called first. *)
Theorem dumps_show_latest_answer (env : Env) (cfg : Config)
  (skipCleanup : bool) (w : World) :
  dumpsLatest None (since w (snd (CheckKubernetes env cfg skipCleanup w)))
  = true.
Proof.
  destruct (CheckKubernetes_candid env cfg skipCleanup w) as (evs & Ht & D).
  now rewrite (since_app _ _ _ Ht).
Qed.

(** Such dumps do occur: on a cluster where the client pod never shows up,
    the third fetch fails and dumps the listing it got. *)
Lemma dumps_occur :
  existsb isDump
    (since (Scripted.boot Scenes.t0)
       (snd (CheckKubernetes (Scripted.cluster Scenes.noClient)
               Scripted.config false (Scripted.boot Scenes.t0))))
  = true.
Proof. vm_compute; reflexivity. Qed.
